(** * Dashboard statistics and critical alerts of the HR portal

    A shallow embedding of the decision logic of [src/js/dashboard.js]:
    the date helpers (section 2), the status normaliser and the aggregate
    counters, the department breakdown and the monthly headcount
    (section 4), [generateCriticalAlerts] (section 5), the lists behind
    the department, birthday, anniversary and contract widgets (sections
    6 and 8) and the alert actions (section 11).  What a function writes
    into the page is not modelled, only what it computes.

    Conventions of the embedding.
    - A JavaScript number that is an integer or NaN is a [Num]; the only
      non-integral arithmetic of the file, the turnover percentage, is
      carried out on IEEE binary64 values ([SpecFloat]).
    - A [Date] object is its time value: milliseconds since the epoch, or
      the Invalid Date.  The built-in calendar follows the abstract
      operations of ECMA-262 (Day, YearFromTime, MakeDay, TimeClip ...).
    - The host time zone is a fixed offset [tz] (milliseconds east of UTC).
    - The wall clock is read by [getWIBDate]; every read is explicit, the
      computation is threaded through the number of reads made so far. *)

From Stdlib Require Import ZArith List Bool String Ascii Lia.
From Stdlib Require Import Permutation Sorted.
From Stdlib Require Import SpecFloat DecimalString.
Import ListNotations.

Local Open Scope Z_scope.

(* ================================================================== *)
(** * Part I.  The JavaScript built-ins the dashboard relies on        *)
(* ================================================================== *)

Module JS.

(** ** Numbers *)

Inductive Num : Type :=
| NaN
| Int (z : Z).

(** Relational operators: any comparison with NaN is false. *)
Definition Num_ge (a : Num) (b : Z) : bool :=
  match a with NaN => false | Int x => b <=? x end.
Definition Num_le (a : Num) (b : Z) : bool :=
  match a with NaN => false | Int x => x <=? b end.
Definition Num_gt (a : Num) (b : Z) : bool :=
  match a with NaN => false | Int x => b <? x end.

Definition Num_sub (a b : Num) : Num :=
  match a, b with
  | Int x, Int y => Int (x - y)
  | _, _ => NaN
  end.

Definition Num_add (a b : Num) : Num :=
  match a, b with
  | Int x, Int y => Int (x + y)
  | _, _ => NaN
  end.

(** [Math.ceil (a / d)] for an integer [a] and a positive integer [d]. *)
Definition ceil_quot (a d : Z) : Z := - ((- a) / d).

Definition ceilDiv (a : Num) (d : Z) : Num :=
  match a with NaN => NaN | Int x => Int (ceil_quot x d) end.

(** ** Dates *)

Inductive Date : Type :=
| InvalidDate
| TimeValue (t : Z).

Definition valueOf (d : Date) : Num :=
  match d with InvalidDate => NaN | TimeValue t => Int t end.

Definition msPerDay : Z := 86400000.

(** TimeClip: a time value lies within 8.64e15 ms of the epoch. *)
Definition TimeClip (t : Z) : Date :=
  if Z.abs t <=? 8640000000000000 then TimeValue t else InvalidDate.

Definition Day (t : Z) : Z := t / msPerDay.
Definition TimeWithinDay (t : Z) : Z := t mod msPerDay.

Definition DayFromYear (y : Z) : Z :=
  365 * (y - 1970) + (y - 1969) / 4 - (y - 1901) / 100 + (y - 1601) / 400.

Definition InLeapYear (y : Z) : bool :=
  if negb (y mod 4 =? 0) then false
  else if negb (y mod 100 =? 0) then true
  else (y mod 400 =? 0).

(** The year that contains day number [d]: the largest [y] with
    [DayFromYear y <= d].  The estimate from the mean year length is off
    by at most one. *)
Definition YearFromDay (d : Z) : Z :=
  let y := 1970 + (400 * d) / 146097 in
  if d <? DayFromYear y then y - 1
  else if DayFromYear (y + 1) <=? d then y + 1
  else y.

(** Day number within the year at which month [m] (0-based) starts. *)
Definition monthStart (leap : bool) (m : Z) : Z :=
  let l := if leap then 1 else 0 in
  match m with
  | 0 => 0
  | 1 => 31
  | 2 => 59 + l
  | 3 => 90 + l
  | 4 => 120 + l
  | 5 => 151 + l
  | 6 => 181 + l
  | 7 => 212 + l
  | 8 => 243 + l
  | 9 => 273 + l
  | 10 => 304 + l
  | 11 => 334 + l
  | _ => 365 + l
  end.

Definition YearFromTime (t : Z) : Z := YearFromDay (Day t).

Definition DayWithinYear (t : Z) : Z := Day t - DayFromYear (YearFromTime t).

Fixpoint monthOfDay (leap : bool) (dayInYear : Z) (fuel : nat) (m : Z) : Z :=
  match fuel with
  | O => m
  | S fuel' =>
      if dayInYear <? monthStart leap (m + 1) then m
      else monthOfDay leap dayInYear fuel' (m + 1)
  end.

Definition MonthFromTime (t : Z) : Z :=
  monthOfDay (InLeapYear (YearFromTime t)) (DayWithinYear t) 11 0.

Definition DateFromTime (t : Z) : Z :=
  DayWithinYear t
  - monthStart (InLeapYear (YearFromTime t)) (MonthFromTime t) + 1.

(** MakeDay (year, month, date) for integral arguments: the month may lie
    outside 0..11 and the date outside the month, both carry over. *)
Definition MakeDay (year month date : Z) : Z :=
  let ym := year + month / 12 in
  let mn := month mod 12 in
  DayFromYear ym + monthStart (InLeapYear ym) mn + date - 1.

Definition MakeDate (day time : Z) : Z := day * msPerDay + time.

Section HostZone.

(** Offset of the host's local time from UTC, in milliseconds. *)
Variable tz : Z.

Definition LocalTime (t : Z) : Z := t + tz.
Definition UTC (t : Z) : Z := t - tz.

Definition getFullYear (d : Date) : Num :=
  match d with
  | InvalidDate => NaN
  | TimeValue t => Int (YearFromTime (LocalTime t))
  end.

Definition getMonth (d : Date) : Num :=
  match d with
  | InvalidDate => NaN
  | TimeValue t => Int (MonthFromTime (LocalTime t))
  end.

Definition getDate (d : Date) : Num :=
  match d with
  | InvalidDate => NaN
  | TimeValue t => Int (DateFromTime (LocalTime t))
  end.

(** [new Date(year, month, date)]: local midnight of that civil day; a
    year in 0..99 denotes 1900 + year. *)
Definition newDate (year month date : Num) : Date :=
  match year, month, date with
  | Int y, Int m, Int dt =>
      let yr := if (0 <=? y) && (y <=? 99) then 1900 + y else y in
      TimeClip (UTC (MakeDate (MakeDay yr m dt) 0))
  | _, _, _ => InvalidDate
  end.

(** [d.setMonth(month)], returning the updated date. *)
Definition setMonth (d : Date) (month : Num) : Date :=
  match d, month with
  | TimeValue t0, Int m =>
      let t := LocalTime t0 in
      TimeClip (UTC (MakeDate (MakeDay (YearFromTime t) m (DateFromTime t))
                              (TimeWithinDay t)))
  | _, _ => InvalidDate
  end.

(** [d.toDateString()] prints the local civil day (its weekday, month,
    date and year); the text is determined by, and determines, the
    triple below.  [None] stands for the text of the Invalid Date. *)
Definition toDateString (d : Date) : option (Z * Z * Z) :=
  match d with
  | InvalidDate => None
  | TimeValue t =>
      let l := LocalTime t in
      Some (YearFromTime l, MonthFromTime l, DateFromTime l)
  end.

Definition dateStringEq (a b : option (Z * Z * Z)) : bool :=
  match a, b with
  | None, None => true
  | Some (y1, m1, d1), Some (y2, m2, d2) =>
      (y1 =? y2) && (m1 =? m2) && (d1 =? d2)
  | _, _ => false
  end.

(** Local midnight of a civil day, months counted from 1: the instant
    written [y-m-d 00:00] on the host. *)
Definition localMidnight (y m d : Z) : Z :=
  UTC (MakeDate (MakeDay y (m - 1) d) 0).

End HostZone.

(** ** Strings *)

(** [toLowerCase] on the ASCII range: A..Z are mapped to a..z, every
    other character is kept. *)
Definition lowerChar (c : ascii) : ascii :=
  let n := nat_of_ascii c in
  if Nat.leb 65 n && Nat.leb n 90 then ascii_of_nat (n + 32) else c.

Fixpoint toLowerCase (s : string) : string :=
  match s with
  | EmptyString => EmptyString
  | String c r => String (lowerChar c) (toLowerCase r)
  end.

(** White space and line terminators of the ASCII range: TAB, LF, VT, FF,
    CR and SPACE. *)
Definition isSpace (c : ascii) : bool :=
  let n := nat_of_ascii c in
  (Nat.leb 9 n && Nat.leb n 13) || Nat.eqb n 32.

Fixpoint trimStart (s : string) : string :=
  match s with
  | EmptyString => EmptyString
  | String c r => if isSpace c then trimStart r else s
  end.

Fixpoint trimEnd (s : string) : string :=
  match s with
  | EmptyString => EmptyString
  | String c r =>
      match trimEnd r with
      | EmptyString => if isSpace c then EmptyString else String c EmptyString
      | r' => String c r'
      end
  end.

Definition trim (s : string) : string := trimEnd (trimStart s).

(** [s.includes(p)]: [p] occurs in [s] as a contiguous substring. *)
Fixpoint includes (s p : string) : bool :=
  if String.prefix p s then true
  else match s with
       | EmptyString => false
       | String _ r => includes r p
       end.

(** ** Binary64 arithmetic and [toFixed] *)

Definition b64_of_Z (n : Z) : spec_float := binary_normalize 53 1024 n 0 false.
Definition b64_div : spec_float -> spec_float -> spec_float := SFdiv 53 1024.
Definition b64_mul : spec_float -> spec_float -> spec_float := SFmul 53 1024.

(** The integer [n] for which [n / 10 - m * 2^e] is as close to zero as
    possible, the larger one when there are two. *)
Definition nearestTenths (m : positive) (e : Z) : Z :=
  if 0 <=? e then 10 * Z.pos m * 2 ^ e
  else (2 * (10 * Z.pos m) + 2 ^ (- e)) / 2 ^ (- e + 1).

Definition decimal (n : Z) : string :=
  NilZero.string_of_uint (N.to_uint (Z.to_N n)).

(** Digits of [n] tenths with one digit after the point. *)
Definition showTenths (n : Z) : string :=
  (decimal (n / 10) ++ "." ++ decimal (n mod 10))%string.

(** [x.toFixed(1)] for a binary64 [x] of magnitude below 1e21. *)
Definition toFixed1 (x : spec_float) : string :=
  match x with
  | S754_nan => "NaN"%string
  | S754_infinity s => if s then "-Infinity"%string else "Infinity"%string
  | S754_zero _ => "0.0"%string
  | S754_finite s m e =>
      ((if s then "-" else "") ++ showTenths (nearestTenths m e))%string
  end.

(** ** [Array.prototype.sort]

    The sort is stable; [cmp a b < 0] means that [a] goes before [b].  An
    element passes only those that are strictly before it. *)
Section ArraySort.
Context {A : Type} (cmp : A -> A -> Z).

Fixpoint insertSorted (a : A) (l : list A) : list A :=
  match l with
  | [] => [a]
  | b :: r => if cmp b a <? 0 then b :: insertSorted a r else a :: b :: r
  end.

Definition Array_sort (l : list A) : list A :=
  fold_right insertSorted [] l.
End ArraySort.

End JS.

Import JS.

(* ================================================================== *)
(** * Part II.  dashboard.js                                           *)
(* ================================================================== *)

(** ** Records handed over by the data layer *)

(** A date column as it arrives in a row: [null], a missing key, the empty
    string, or a non-empty text.  A text is kept with the [Date] that
    [new Date(text)] makes of it, the Invalid Date when it does not
    parse. *)
Inductive DateField : Type :=
| Null
| Undefined
| EmptyText
| DateText (parsed : Date).

(** Truthiness, as in [e.is_active && e.birth_date]. *)
Definition truthy (f : DateField) : bool :=
  match f with DateText _ => true | _ => false end.

(** [new Date(f)]: [null] converts to 0, the epoch. *)
Definition toDate (f : DateField) : Date :=
  match f with
  | Null => TimeValue 0
  | Undefined => InvalidDate
  | EmptyText => InvalidDate
  | DateText d => d
  end.

(** [a || b] on two columns. *)
Definition orElse (a b : DateField) : DateField :=
  if truthy a then a else b.

Record Employee : Type := mkEmployee {
  id : Z;
  full_name : string;
  gender : string;
  is_active : bool;
  is_resigned : bool;
  birth_date : DateField;
  join_date : DateField;
  current_contract_end : DateField;
  employment_status : string
}.

Record LeaveRequest : Type := mkLeave {
  namaLengkap : string;
  status : option string;
  timestamp : DateField;
  tanggalPermohonan : DateField
}.

(** ** Alerts *)

Inductive AlertType : Type :=
| contract | birthday | anniversary | probation | leave_pending.

Inductive Priority : Type := high | medium | low.

(** The alert object.  Its [title] and [description] are display texts
    built from the fields below and are not part of the embedding. *)
Record Alert : Type := mkAlert {
  type : AlertType;
  priority : Priority;
  employee : option Employee;
  leave : option LeaveRequest;
  daysRemaining : option Num;
  years : option Num;
  daysPending : option Num;
  action : string
}.

(** ** Section 1: configuration *)

Definition PROBATION_WARNING_DAYS : Z := 7.

(** Asia/Jakarta is UTC+7 all year. *)
Definition WIB_OFFSET : Z := 7 * 60 * 60 * 1000.

(** ** The wall clock

    A computation that reads the clock maps the number of reads made so
    far to its result and the new number of reads. *)
Definition Clk (A : Type) : Type := nat -> A * nat.

Definition ret {A : Type} (a : A) : Clk A := fun k => (a, k).

Definition bind {A B : Type} (c : Clk A) (f : A -> Clk B) : Clk B :=
  fun k => let (a, k') := c k in f a k'.

Notation "x <- c ;; f" := (bind c (fun x => f))
  (at level 61, c at next level, right associativity).

(** [list.forEach(body)] where the body updates a variable of the
    enclosing function and may read the clock. *)
Fixpoint forEachM {A S : Type} (body : S -> A -> Clk S) (l : list A) (s : S)
  : Clk S :=
  match l with
  | [] => ret s
  | x :: r => s' <- body s x ;; forEachM body r s'
  end.

(** The same for a body that does not read the clock. *)
Definition forEach {A S : Type} (body : S -> A -> S) (l : list A) (s : S) : S :=
  fold_left body l s.

(** [alerts.push(a)] *)
Definition push (alerts : list Alert) (a : Alert) : list Alert := alerts ++ [a].

(** ** Section 2: utility functions *)

(** [daysDifference(date1, date2)]; both arguments have already been
    through [new Date(...)].  Time values are integers: as long as the two
    are less than 2^53 ms apart (some 285,000 years) the binary64
    subtraction is exact and the binary64 quotient rounds up to the same
    integer as the exact one, which is what is computed here: the
    quotient is below 2^27, so it is rounded by less than 2^-27, and a
    quotient that is not whole lies at least 1/86400000 > 2^-27 from the
    next whole numbers.  Two dates further apart are outside the
    embedding (the code then subtracts with a rounding error); statements
    about two arbitrary dates carry the bound as a hypothesis.  In the
    program one argument is always a reading of the clock, and every date
    lies within 8.64e15 ms of the epoch, so the bound holds for any clock
    within some 11,600 years of 1970. *)
Definition daysDifference (date1 date2 : Date) : Num :=
  let diffTime := Num_sub (valueOf date2) (valueOf date1) in
  ceilDiv diffTime (1000 * 60 * 60 * 24).

(** ** Section 4: statistics *)

Record EmployeeStats : Type := mkStats {
  totalEmployees : Z;
  totalMale : Z;
  totalFemale : Z;
  activeEmployees : Z;
  activeMale : Z;
  activeFemale : Z;
  inactiveEmployees : Z;
  inactiveMale : Z;
  inactiveFemale : Z
}.

Definition incr (p : bool) (n : Z) : Z := if p then n + 1 else n.

Definition statsBody (stats : EmployeeStats) (emp : Employee) : EmployeeStats :=
  let male := String.eqb (gender emp) "Male" in
  let female := String.eqb (gender emp) "Female" in
  let act := is_active emp && negb (is_resigned emp) in
  let inact := negb (is_active emp) in
  {| totalEmployees := totalEmployees stats + 1;
     totalMale := incr male (totalMale stats);
     totalFemale := incr female (totalFemale stats);
     activeEmployees := incr act (activeEmployees stats);
     activeMale := incr (act && male) (activeMale stats);
     activeFemale := incr (act && female) (activeFemale stats);
     inactiveEmployees := incr inact (inactiveEmployees stats);
     inactiveMale := incr (inact && male) (inactiveMale stats);
     inactiveFemale := incr (inact && female) (inactiveFemale stats) |}.

Definition calculateEmployeeStats (employees : list Employee) : EmployeeStats :=
  let stats := mkStats 0 0 0 0 0 0 0 0 0 in
  forEach statsBody employees stats.

Inductive LeaveStatus : Type := Pending | Approved | Declined.

Definition normalizeLeaveStatus (status : option string) : LeaveStatus :=
  match status with
  | None => Pending
  | Some EmptyString => Pending
  | Some raw =>
      let s := trim (toLowerCase raw) in
      if includes s "approved" || includes s "disetujui" then Approved
      else if includes s "declined" || includes s "rejected"
              || includes s "ditolak" then Declined
      else Pending
  end.

Definition LeaveStatus_eqb (a b : LeaveStatus) : bool :=
  match a, b with
  | Pending, Pending | Approved, Approved | Declined, Declined => true
  | _, _ => false
  end.

(** [turnoverRate] is a text when it comes out of [toFixed] and the
    number 0 for an empty list. *)
Inductive Rate : Type :=
| RateNumber (n : Z)
| RateText (s : string).

Record TurnoverData : Type := mkTurnover {
  active : Z;
  resigned : Z;
  inactive : Z;
  total : Z;
  turnoverRate : Rate
}.

(** The three counters of the loop, in the order active, resigned,
    inactive. *)
Definition turnoverBody (c : Z * Z * Z) (emp : Employee) : Z * Z * Z :=
  let '(active, resigned, inactive) := c in
  if is_resigned emp then (active, resigned + 1, inactive)
  else if is_active emp then (active + 1, resigned, inactive)
  else (active, resigned, inactive + 1).

Definition calculateTurnoverData (employees : list Employee) : TurnoverData :=
  let '(active, resigned, inactive) := forEach turnoverBody employees (0, 0, 0) in
  let len := Z.of_nat (List.length employees) in
  {| active := active;
     resigned := resigned;
     inactive := inactive;
     total := len;
     turnoverRate :=
       if 0 <? len
       then RateText (toFixed1 (b64_mul (b64_div (b64_of_Z resigned) (b64_of_Z len))
                                        (b64_of_Z 100)))
       else RateNumber 0 |}.

Section Dashboard.

(** Offset of the host's time zone, and the instants the system clock
    shows at its successive reads. *)
Variable tz : Z.
Variable wall : nat -> Z.

(** [new Date().toLocaleString('en-US', { timeZone: 'Asia/Jakarta' })]:
    the text of the civil date and time in Jakarta, to the second.  The
    text is represented by the civil time it denotes, in ms. *)
Definition getWIBDate : Clk Z :=
  fun k => ((wall k + WIB_OFFSET) / 1000 * 1000, S k).

(** [new Date(text)] for such a text: it is read as local time. *)
Definition parseLocal (civil : Z) : Date := TimeClip (UTC tz civil).

Definition isToday (date : Date) : Clk bool :=
  w <- getWIBDate ;;
  let today := parseLocal w in
  let target := date in
  ret (dateStringEq (toDateString tz today) (toDateString tz target)).

Definition getBirthdayThisYear (birthDate : DateField) : Clk Date :=
  w <- getWIBDate ;;
  let today := parseLocal w in
  let birth := toDate birthDate in
  ret (newDate tz (getFullYear tz today) (getMonth tz birth) (getDate tz birth)).

Definition getAnniversaryThisYear (joinDate : DateField) : Clk Date :=
  w <- getWIBDate ;;
  let today := parseLocal w in
  let join := toDate joinDate in
  ret (newDate tz (getFullYear tz today) (getMonth tz join) (getDate tz join)).

Definition calculateYearsOfService (joinDate : DateField) : Clk Num :=
  w <- getWIBDate ;;
  let today := parseLocal w in
  let join := toDate joinDate in
  ret (Num_sub (getFullYear tz today) (getFullYear tz join)).

(** ** Section 5: critical alerts *)

Definition contractBody (today : Date) (alerts : list Alert) (emp : Employee)
  : list Alert :=
  let daysUntilExpiry := daysDifference today (toDate (current_contract_end emp)) in
  if Num_ge daysUntilExpiry 0 && Num_le daysUntilExpiry 30 then
    push alerts
      {| type := contract;
         priority := if Num_le daysUntilExpiry 7 then high
                     else if Num_le daysUntilExpiry 14 then medium
                     else low;
         employee := Some emp;
         leave := None;
         daysRemaining := Some daysUntilExpiry;
         years := None;
         daysPending := None;
         action := "Review & Renew" |}
  else alerts.

Definition birthdayBody (alerts : list Alert) (emp : Employee)
  : Clk (list Alert) :=
  birthdayThisYear <- getBirthdayThisYear (birth_date emp) ;;
  today_p <- isToday birthdayThisYear ;;
  if today_p : bool then
    ret (push alerts
      {| type := birthday;
         priority := medium;
         employee := Some emp;
         leave := None;
         daysRemaining := None;
         years := None;
         daysPending := None;
         action := "Send Wishes" |})
  else ret alerts.

Definition anniversaryBody (today : Date) (alerts : list Alert) (emp : Employee)
  : Clk (list Alert) :=
  anniversaryThisYear <- getAnniversaryThisYear (join_date emp) ;;
  let daysUntilAnniversary := daysDifference today anniversaryThisYear in
  if Num_ge daysUntilAnniversary 0 && Num_le daysUntilAnniversary 7 then
    yrs <- calculateYearsOfService (join_date emp) ;;
    ret (push alerts
      {| type := anniversary;
         priority := low;
         employee := Some emp;
         leave := None;
         daysRemaining := None;
         years := Some yrs;
         daysPending := None;
         action := "Send Congratulations" |})
  else ret alerts.

Definition probationBody (today : Date) (alerts : list Alert) (emp : Employee)
  : list Alert :=
  let probationEnd := toDate (join_date emp) in
  let probationEnd :=
    setMonth tz probationEnd (Num_add (getMonth tz probationEnd) (Int 3)) in
  let daysUntilProbationEnd := daysDifference today probationEnd in
  if Num_ge daysUntilProbationEnd 0
     && Num_le daysUntilProbationEnd PROBATION_WARNING_DAYS then
    push alerts
      {| type := probation;
         priority := high;
         employee := Some emp;
         leave := None;
         daysRemaining := Some daysUntilProbationEnd;
         years := None;
         daysPending := None;
         action := "Review Performance" |}
  else alerts.

Definition leaveBody (today : Date) (alerts : list Alert) (lv : LeaveRequest)
  : list Alert :=
  let requestDate := toDate (orElse (timestamp lv) (tanggalPermohonan lv)) in
  let daysPending_ := daysDifference requestDate today in
  if Num_gt daysPending_ 2 then
    push alerts
      {| type := leave_pending;
         priority := if Num_gt daysPending_ 5 then high else medium;
         employee := None;
         leave := Some lv;
         daysRemaining := None;
         years := None;
         daysPending := Some daysPending_;
         action := "Review Request" |}
  else alerts.

Definition priorityOrder (p : Priority) : Z :=
  match p with high => 1 | medium => 2 | low => 3 end.

Definition comparePriority (a b : Alert) : Z :=
  priorityOrder (priority a) - priorityOrder (priority b).

Definition generateCriticalAlerts
    (employees : list Employee) (leaveData : list LeaveRequest)
  : Clk (list Alert) :=
  let alerts := [] in
  w <- getWIBDate ;;
  let today := parseLocal w in
  let alerts :=
    forEach (contractBody today)
      (filter (fun e => is_active e && truthy (current_contract_end e)) employees)
      alerts in
  alerts <-
    forEachM birthdayBody
      (filter (fun e => is_active e && truthy (birth_date e)) employees)
      alerts ;;
  alerts <-
    forEachM (anniversaryBody today)
      (filter (fun e => is_active e && truthy (join_date e)) employees)
      alerts ;;
  let alerts :=
    forEach (probationBody today)
      (filter (fun e => is_active e && String.eqb (employment_status e) "Probation")
              employees)
      alerts in
  let alerts :=
    forEach (leaveBody today)
      (filter (fun l => LeaveStatus_eqb (normalizeLeaveStatus (status l)) Pending)
              leaveData)
      alerts in
  ret (Array_sort comparePriority alerts).

(** The instant every rule is meant to share: the first clock read of
    a run that starts after [k] reads. *)
Definition todayAt (k : nat) : Date := parseLocal (fst (getWIBDate k)).

End Dashboard.

(** ** Section 2, continued: [isWithinDays] *)

Section Lookahead.

Variable tz : Z.
Variable wall : nat -> Z.

Definition isWithinDays (date : Date) (days : Z) : Clk bool :=
  w <- getWIBDate wall ;;
  let today := parseLocal tz w in
  let targetDate := date in
  let diff := daysDifference today targetDate in
  ret (Num_ge diff 0 && Num_le diff days).

End Lookahead.

(** ** Section 4, continued: leave, recruitment, departments, headcount *)

Record LeaveStats : Type := mkLeaveStats {
  pendingLeaves : Z;
  approvedLeaves : Z;
  rejectedLeaves : Z
}.

Definition leaveStatsBody (stats : LeaveStats) (lv : LeaveRequest) : LeaveStats :=
  let st := normalizeLeaveStatus (status lv) in
  {| pendingLeaves := incr (LeaveStatus_eqb st Pending) (pendingLeaves stats);
     approvedLeaves := incr (LeaveStatus_eqb st Approved) (approvedLeaves stats);
     rejectedLeaves := incr (LeaveStatus_eqb st Declined) (rejectedLeaves stats) |}.

Definition calculateLeaveStats (leaveData : list LeaveRequest) : LeaveStats :=
  let stats := mkLeaveStats 0 0 0 in
  forEach leaveStatsBody leaveData stats.

(** A row of [recruitment_tracker]; [current_stage] is a text or [null]. *)
Record Candidate : Type := mkCandidate {
  current_stage : option string
}.

Record RecruitmentStats : Type := mkRecruitmentStats {
  screening : Z;
  interview : Z;
  offering : Z
}.

(** [stage === text] *)
Definition stageIs (stage : option string) (text : string) : bool :=
  match stage with
  | Some s => String.eqb s text
  | None => false
  end.

Definition recruitmentBody (stats : RecruitmentStats) (candidate : Candidate)
  : RecruitmentStats :=
  let stage := current_stage candidate in
  {| screening := incr (stageIs stage "Screening") (screening stats);
     interview := incr (stageIs stage "HR Interview" || stageIs stage "User Interview")
                       (interview stats);
     offering := incr (stageIs stage "Offering") (offering stats) |}.

Definition calculateRecruitmentStats (recruitmentData : list Candidate)
  : RecruitmentStats :=
  let stats := mkRecruitmentStats 0 0 0 in
  forEach recruitmentBody recruitmentData stats.

(** *** Objects used as maps

    An object literal [{}] filled by assignment: its own properties, in
    the order they were created.  A read [o[k]] that finds no own property
    goes on to [Object.prototype]. *)
Definition JsObject (V : Type) : Type := list (string * V).

Fixpoint getOwn {V : Type} (o : JsObject V) (k : string) : option V :=
  match o with
  | [] => None
  | (k', v) :: r => if String.eqb k' k then Some v else getOwn r k
  end.

(** [o[k] = v]: an own property keeps its place, a new one goes last. *)
Fixpoint setOwn {V : Type} (o : JsObject V) (k : string) (v : V) : JsObject V :=
  match o with
  | [] => [(k, v)]
  | (k', v') :: r =>
      if String.eqb k' k then (k', v) :: r else (k', v') :: setOwn r k v
  end.

(** The property names of [Object.prototype] (ECMA-262 with Annex B); each
    holds a function, [__proto__] holds the prototype object itself. *)
Definition onObjectPrototype (k : string) : bool :=
  existsb (String.eqb k)
    [ "constructor"; "__defineGetter__"; "__defineSetter__"; "hasOwnProperty";
      "__lookupGetter__"; "__lookupSetter__"; "isPrototypeOf";
      "propertyIsEnumerable"; "toString"; "valueOf"; "__proto__";
      "toLocaleString" ]%string.

(** A key that is an array index: the decimal text, without leading
    zeros, of an integer below 2^32 - 1. *)
Definition arrayIndex (k : string) : option N :=
  match NilZero.uint_of_string k with
  | Some u =>
      let n := N.of_uint u in
      if String.eqb (NilZero.string_of_uint (N.to_uint n)) k && (n <? 4294967295)%N
      then Some n else None
  | None => None
  end.

Definition isArrayIndex (k : string) : bool :=
  match arrayIndex k with Some _ => true | None => false end.

Definition compareIndex {V : Type} (a b : string * V) : Z :=
  match arrayIndex (fst a), arrayIndex (fst b) with
  | Some x, Some y => Z.of_N x - Z.of_N y
  | _, _ => 0
  end.

(** [Object.entries(o)]: the array-index keys in ascending numeric order,
    then the other keys in the order of their creation. *)
Definition Object_entries {V : Type} (o : JsObject V) : list (string * V) :=
  Array_sort compareIndex (filter (fun e => isArrayIndex (fst e)) o)
  ++ filter (fun e => negb (isArrayIndex (fst e))) o.

(** *** Department breakdown *)

Record Department : Type := mkDepartment {
  name : option string
}.

(** An employee row with the two further columns that the statistics
    read: the joined department and the resignation date. *)
Record EmployeeRow : Type := mkRow {
  fields : Employee;
  departments : option Department;
  resign_date : DateField
}.

Record DeptCount : Type := mkDeptCount {
  count : Z;
  male : Z;
  female : Z
}.

(** [emp.departments?.name || 'Unknown'] *)
Definition deptNameOf (emp : EmployeeRow) : string :=
  match departments emp with
  | Some d =>
      match name d with
      | Some n => if String.eqb n "" then "Unknown"%string else n
      | None => "Unknown"%string
      end
  | None => "Unknown"%string
  end.

(** For a name found on [Object.prototype] the read [breakdown[deptName]]
    yields that member, which is truthy: no own entry is created and the
    three increments land on the member, not on [breakdown]. *)
Definition deptBody (breakdown : JsObject DeptCount) (emp : EmployeeRow)
  : JsObject DeptCount :=
  let deptName := deptNameOf emp in
  if onObjectPrototype deptName then breakdown
  else
    let breakdown :=
      match getOwn breakdown deptName with
      | None => setOwn breakdown deptName {| count := 0; male := 0; female := 0 |}
      | Some _ => breakdown
      end in
    match getOwn breakdown deptName with
    | Some c =>
        setOwn breakdown deptName
          {| count := count c + 1;
             male := incr (String.eqb (gender (fields emp)) "Male") (male c);
             female := incr (String.eqb (gender (fields emp)) "Female") (female c) |}
    | None => breakdown
    end.

Definition calculateDepartmentBreakdown (employees : list EmployeeRow)
  : JsObject DeptCount :=
  let breakdown := [] in
  forEach deptBody
    (filter (fun e => is_active (fields e) && negb (is_resigned (fields e))) employees)
    breakdown.

(** *** Monthly headcount *)

(** [a <= b] and [a > b] on two [Date] objects: their time values are
    compared, and any comparison with the Invalid Date is false. *)
Definition Date_le (a b : Date) : bool :=
  match valueOf a, valueOf b with
  | Int x, Int y => x <=? y
  | _, _ => false
  end.

Definition Date_gt (a b : Date) : bool :=
  match valueOf a, valueOf b with
  | Int x, Int y => y <? x
  | _, _ => false
  end.

(** [f ? new Date(f) : null] *)
Definition dateOrNull (f : DateField) : option Date :=
  if truthy f then Some (toDate f) else None.

Record Headcount : Type := mkHeadcount {
  activeData : list Z;
  totalData : list Z
}.

Section Headcount.

Variable tz : Z.
Variable wall : nat -> Z.

Definition monthEndOf (month : Date) : Date :=
  newDate tz (getFullYear tz month) (Num_add (getMonth tz month) (Int 1)) (Int 0).

(** The two counters of the inner loop: active, total. *)
Definition headcountBody (monthEnd : Date) (c : Z * Z) (emp : EmployeeRow) : Z * Z :=
  let '(activeCount, totalCount) := c in
  let joinDate := dateOrNull (join_date (fields emp)) in
  let resignDate := dateOrNull (resign_date emp) in
  match joinDate with
  | Some j =>
      if Date_le j monthEnd then
        (match resignDate with
         | None => activeCount + 1
         | Some r => if Date_gt r monthEnd then activeCount + 1 else activeCount
         end,
         totalCount + 1)
      else (activeCount, totalCount)
  | None => (activeCount, totalCount)
  end.

(** The months of the chart, oldest first; the labels, which are locale
    text, are not part of the embedding. *)
Definition calculateMonthlyHeadcount (employees : list EmployeeRow) : Clk Headcount :=
  w <- getWIBDate wall ;;
  let today := parseLocal tz w in
  let months :=
    map (fun i => newDate tz (getFullYear tz today)
                          (Num_sub (getMonth tz today) (Int i)) (Int 1))
        [5; 4; 3; 2; 1; 0] in
  let counts :=
    map (fun month => forEach (headcountBody (monthEndOf month)) employees (0, 0))
        months in
  ret {| activeData := map fst counts; totalData := map snd counts |}.

End Headcount.

(** ** Section 8: the lists behind the employee-event widgets

    Each render function first computes a list and then writes HTML; the
    list is modelled, under the name of the local variable that holds
    it. *)

Definition ANNIVERSARY_LOOKAHEAD_DAYS : Z := 14.

(** A comparator [(a, b) => a - b] on numbers; [sort] takes a NaN result
    for +0. *)
Definition compareNum (a b : Num) : Z :=
  match Num_sub a b with
  | Int z => z
  | NaN => 0
  end.

(** [a === b] on numbers. *)
Definition Num_eqb (a b : Num) : bool :=
  match a, b with
  | Int x, Int y => x =? y
  | _, _ => false
  end.

(** [list.map(f)] and [list.filter(f)] for a callback that reads the clock. *)
Fixpoint mapM {A B : Type} (f : A -> Clk B) (l : list A) : Clk (list B) :=
  match l with
  | [] => ret []
  | x :: r => y <- f x ;; ys <- mapM f r ;; ret (y :: ys)
  end.

Fixpoint filterM {A : Type} (f : A -> Clk bool) (l : list A) : Clk (list A) :=
  match l with
  | [] => ret []
  | x :: r => keep <- f x ;; ys <- filterM f r ;; ret (if keep : bool then x :: ys else ys)
  end.

(** [{ ...e, anniversaryThisYear, yearsOfService }] *)
Record AnniversaryRow : Type := mkAnniversaryRow {
  anniversaryEmployee : Employee;
  anniversaryThisYear : Date;
  yearsOfService : Num
}.

Inductive Urgency : Type := red | yellow | blue.

(** [urgencyColor] of a row of the contracts widget. *)
Definition urgencyColor (daysUntilExpiry : Num) : Urgency :=
  if Num_le daysUntilExpiry 7 then red
  else if Num_le daysUntilExpiry 30 then yellow
  else blue.

Section Widgets.

Variable tz : Z.
Variable wall : nat -> Z.

(** [birthdays] of [renderBirthdaysThisMonth]. *)
Definition birthdays (employees : list Employee) : Clk (list (Employee * Date)) :=
  w <- getWIBDate wall ;;
  let today := parseLocal tz w in
  let currentMonth := getMonth tz today in
  let l := filter (fun e => is_active e && truthy (birth_date e)) employees in
  let l := filter (fun e => Num_eqb (getMonth tz (toDate (birth_date e))) currentMonth) l in
  rows <- mapM (fun e => birthdayThisYear <- getBirthdayThisYear tz wall (birth_date e) ;;
                         ret (e, birthdayThisYear)) l ;;
  ret (Array_sort (fun a b => compareNum (valueOf (snd a)) (valueOf (snd b))) rows).

(** [anniversaries] of [renderWorkAnniversaries], with the [today] that
    the function captures first. *)
Definition anniversaries (employees : list Employee)
  : Clk (Date * list AnniversaryRow) :=
  w <- getWIBDate wall ;;
  let today := parseLocal tz w in
  let l := filter (fun e => is_active e && truthy (join_date e)) employees in
  rows <- mapM (fun e => a <- getAnniversaryThisYear tz wall (join_date e) ;;
                         y <- calculateYearsOfService tz wall (join_date e) ;;
                         ret {| anniversaryEmployee := e;
                                anniversaryThisYear := a;
                                yearsOfService := y |}) l ;;
  rows <- filterM (fun e => isWithinDays tz wall (anniversaryThisYear e)
                                         ANNIVERSARY_LOOKAHEAD_DAYS) rows ;;
  ret (today,
       Array_sort (fun a b => compareNum (valueOf (anniversaryThisYear a))
                                         (valueOf (anniversaryThisYear b))) rows).

(** [expiringContracts] of [renderContractsExpiring]. *)
Definition expiringContracts (employees : list Employee)
  : Clk (list (Employee * Num)) :=
  w <- getWIBDate wall ;;
  let today := parseLocal tz w in
  let l := filter (fun e => is_active e && truthy (current_contract_end e)) employees in
  let l := map (fun e => (e, daysDifference today (toDate (current_contract_end e)))) l in
  let l := filter (fun e => Num_ge (snd e) 0 && Num_le (snd e) 90) l in
  ret (Array_sort (fun a b => compareNum (snd a) (snd b)) l).

End Widgets.

(** [list.slice(0, 5)]: what a widget shows. *)
Definition slice5 {A : Type} (l : list A) : list A := firstn 5 l.

(** ** Section 6: the rows of the department widget *)

(** [departments] of [renderDepartmentBreakdown]: the entries of the
    breakdown, largest count first. *)
Definition sortedDepartments (breakdown : JsObject DeptCount)
  : list (string * DeptCount) :=
  Array_sort (fun a b => count (snd b) - count (snd a)) (Object_entries breakdown).

(** [departments.reduce((sum, [_, data]) => sum + data.count, 0)] *)
Definition departmentTotal (departments : list (string * DeptCount)) : Z :=
  fold_left (fun sum d => sum + count (snd d)) departments 0.

(** The [percentage] printed for one department. *)
Definition departmentPercentage (total : Z) (data : DeptCount) : Rate :=
  if 0 <? total
  then RateText (toFixed1 (b64_mul (b64_div (b64_of_Z (count data)) (b64_of_Z total))
                                   (b64_of_Z 100)))
  else RateNumber 0.

(** ** Section 11: alert actions *)

(** What a click on an alert's button ends in: a redirect, the logged
    "Alert not found", or a TypeError. *)
Inductive Outcome : Type :=
| Redirect (href : string)
| NotFound
| TypeError.

(** [`${n}`] for an integer. *)
Definition showInt (n : Z) : string := NilZero.string_of_int (Z.to_int n).

(** [`${alert.years}`] *)
Definition showYears (y : option Num) : string :=
  match y with
  | None => "undefined"
  | Some NaN => "NaN"
  | Some (Int n) => showInt n
  end.

(** [!alert.employee || !alert.employee.id] *)
Definition employeeMissing (a : Alert) : bool :=
  match employee a with
  | None => true
  | Some e => id e =? 0
  end.

Definition employeeId (a : Alert) : Z :=
  match employee a with
  | None => 0
  | Some e => id e
  end.

(** In each handler the parameter is itself called [alert], so that the
    call [alert('Employee data not available')] applies the alert object:
    a TypeError. *)
Definition handleContractExpiringAction (a : Alert) : Outcome :=
  if employeeMissing a then TypeError
  else Redirect ("employees.html?id=" ++ showInt (employeeId a) ++ "&tab=contract").

Definition handleBirthdayAction (a : Alert) : Outcome :=
  if employeeMissing a then TypeError
  else Redirect ("whatsapp-blast.html?template=birthday&employee="
                 ++ showInt (employeeId a)).

Definition handleAnniversaryAction (a : Alert) : Outcome :=
  if employeeMissing a then TypeError
  else Redirect ("whatsapp-blast.html?template=anniversary&employee="
                 ++ showInt (employeeId a) ++ "&years=" ++ showYears (years a)).

Definition handleProbationAction (a : Alert) : Outcome :=
  if employeeMissing a then TypeError
  else Redirect ("employees.html?id=" ++ showInt (employeeId a)
                 ++ "&action=review_probation").

Definition handleLeavePendingAction (a : Alert) : Outcome :=
  match leave a with
  | None => TypeError
  | Some _ => Redirect "leave.html"
  end.

(** [handleAlertAction(type, index)] over [dashboardData.alerts]. *)
Definition handleAlertAction (alerts : list Alert) (ty : string) (index : nat)
  : Outcome :=
  match nth_error alerts index with
  | None => NotFound
  | Some a =>
      if String.eqb ty "contract" then handleContractExpiringAction a
      else if String.eqb ty "birthday" then handleBirthdayAction a
      else if String.eqb ty "anniversary" then handleAnniversaryAction a
      else if String.eqb ty "probation" then handleProbationAction a
      else if String.eqb ty "leave_pending" then handleLeavePendingAction a
      else TypeError
  end.

(** The text of [alert.type], as [renderCriticalAlerts] writes it into the
    [onclick] of the button. *)
Definition typeText (ty : AlertType) : string :=
  match ty with
  | contract => "contract"
  | birthday => "birthday"
  | anniversary => "anniversary"
  | probation => "probation"
  | leave_pending => "leave_pending"
  end.

(* ================================================================== *)
(** * Part III.  Vocabulary of the statements                          *)
(* ================================================================== *)

(** [p] occurs in [s] as a contiguous run of characters. *)
Definition contains (s p : string) : Prop :=
  exists a b : string, s = (a ++ p ++ b)%string.

(** Number of records of [l] that satisfy [p]. *)
Definition countIf {A : Type} (p : A -> bool) (l : list A) : Z :=
  Z.of_nat (List.length (filter p l)).

Definition isResigned (e : Employee) : bool := is_resigned e.
Definition isActiveOnly (e : Employee) : bool := negb (is_resigned e) && is_active e.
Definition isNeither (e : Employee) : bool := negb (is_resigned e) && negb (is_active e).
Definition isActiveNotResigned (e : Employee) : bool := is_active e && negb (is_resigned e).
Definition isInactive (e : Employee) : bool := negb (is_active e).
Definition isActiveAndResigned (e : Employee) : bool := is_active e && is_resigned e.

(** The percentage as the dashboard computes it, in binary64. *)
Definition percentage (resigned len : Z) : spec_float :=
  b64_mul (b64_div (b64_of_Z resigned) (b64_of_Z len)) (b64_of_Z 100).

(** Tenths of a percent that [toFixed(1)] prints for [resigned] out of
    [len]. *)
Definition printedTenths (resigned len : Z) : Z :=
  match percentage resigned len with
  | S754_finite false m e => nearestTenths m e
  | _ => 0
  end.

(** [n] tenths is a nearest tenth of the exact percentage [100 r / t]. *)
Definition nearestTenthOf (r t n : Z) : bool :=
  2 * Z.abs (n * t - 1000 * r) <=? t.

Definition rateRounded (r t : Z) : bool :=
  String.eqb (toFixed1 (percentage r t)) (showTenths (printedTenths r t))
  && nearestTenthOf r t (printedTenths r t).

Definition ratesRoundedUpTo (bound : nat) : bool :=
  forallb (fun t => forallb (fun r => rateRounded (Z.of_nat r) (Z.of_nat t))
                            (seq 0 (S t)))
          (seq 1 bound).

Definition sampleEmployee (act res : bool) : Employee :=
  {| id := 0; full_name := ""; gender := "";
     is_active := act; is_resigned := res;
     birth_date := Null; join_date := Null; current_contract_end := Null;
     employment_status := "Permanent" |}.

Definition tenEmployees : list Employee :=
  [ sampleEmployee true true; sampleEmployee false true; sampleEmployee false true;
    sampleEmployee true false; sampleEmployee true false; sampleEmployee true false;
    sampleEmployee true false; sampleEmployee true false;
    sampleEmployee false false; sampleEmployee false false ].

Definition Date_eq_dec (a b : Date) : {a = b} + {a <> b}.
Proof. decide equality. apply Z.eq_dec. Defined.

Definition DateField_eq_dec (a b : DateField) : {a = b} + {a <> b}.
Proof. decide equality. apply Date_eq_dec. Defined.

Definition Employee_eq_dec (a b : Employee) : {a = b} + {a <> b}.
Proof.
  decide equality;
    first [apply string_dec | apply DateField_eq_dec | apply bool_dec | apply Z.eq_dec].
Defined.

Definition LeaveRequest_eq_dec (a b : LeaveRequest) : {a = b} + {a <> b}.
Proof.
  decide equality; try apply DateField_eq_dec; try apply string_dec.
  decide equality. apply string_dec.
Defined.

Definition AlertType_eqb (a b : AlertType) : bool :=
  match a, b with
  | contract, contract | birthday, birthday | anniversary, anniversary
  | probation, probation | leave_pending, leave_pending => true
  | _, _ => false
  end.

(** The alert is of type [ty] and refers to employee [e]. *)
Definition isAbout (ty : AlertType) (e : Employee) (a : Alert) : bool :=
  AlertType_eqb (type a) ty
  && match employee a with
     | Some x => if Employee_eq_dec x e then true else false
     | None => false
     end.

(** The alert is a pending-leave alert for request [lv]. *)
Definition isAboutLeave (lv : LeaveRequest) (a : Alert) : bool :=
  AlertType_eqb (type a) leave_pending
  && match leave a with
     | Some x => if LeaveRequest_eq_dec x lv then true else false
     | None => false
     end.

(** Number of times [e] occurs in the list handed to the dashboard. *)
Definition occurrences (l : list Employee) (e : Employee) : Z :=
  Z.of_nat (count_occ Employee_eq_dec l e).

Definition leaveOccurrences (l : list LeaveRequest) (lv : LeaveRequest) : Z :=
  Z.of_nat (count_occ LeaveRequest_eq_dec l lv).

(** An integer between [lo] and [hi]; NaN is in no range. *)
Definition inRange (d : Num) (lo hi : Z) : Prop :=
  exists n : Z, d = Int n /\ lo <= n <= hi.

(** An integer above [lo]. *)
Definition above (d : Num) (lo : Z) : Prop :=
  exists n : Z, d = Int n /\ lo < n.

(** The rank the sort orders by. *)
Definition rank (a : Alert) : Z := priorityOrder (priority a).

(** A clock that shows the same instant at every read. *)
Definition steady (now : Z) : nat -> Z := fun _ => now.

(** The alerts of each rule, in the order the loop pushes them. *)
Definition contractAlerts (today : Date) (employees : list Employee) : list Alert :=
  flat_map (contractBody today [])
    (filter (fun e => is_active e && truthy (current_contract_end e)) employees).

Definition birthdayRun (tz : Z) (wall : nat -> Z) (employees : list Employee)
  : Clk (list Alert) :=
  forEachM (birthdayBody tz wall)
    (filter (fun e => is_active e && truthy (birth_date e)) employees) [].

Definition anniversaryRun (tz : Z) (wall : nat -> Z) (today : Date)
           (employees : list Employee) : Clk (list Alert) :=
  forEachM (anniversaryBody tz wall today)
    (filter (fun e => is_active e && truthy (join_date e)) employees) [].

Definition probationAlerts (tz : Z) (today : Date) (employees : list Employee)
  : list Alert :=
  flat_map (probationBody tz today [])
    (filter (fun e => is_active e && String.eqb (employment_status e) "Probation")
            employees).

Definition leaveAlerts (today : Date) (leaveData : list LeaveRequest) : list Alert :=
  flat_map (leaveBody today [])
    (filter (fun l => LeaveStatus_eqb (normalizeLeaveStatus (status l)) Pending)
            leaveData).

(** Everything pushed onto [alerts] before the sort, for a run that starts
    after [k] clock reads. *)
Definition emitted (tz : Z) (wall : nat -> Z) (employees : list Employee)
           (leaveData : list LeaveRequest) (k : nat) : list Alert :=
  let today := todayAt tz wall k in
  let B := birthdayRun tz wall employees (S k) in
  let A := anniversaryRun tz wall today employees (snd B) in
  contractAlerts today employees
  ++ fst B ++ fst A
  ++ probationAlerts tz today employees ++ leaveAlerts today leaveData.

(** The probation end of an employee: the join date moved on by three
    calendar months. *)
Definition probationEndOf (tz : Z) (e : Employee) : Date :=
  setMonth tz (toDate (join_date e))
           (Num_add (getMonth tz (toDate (join_date e))) (Int 3)).

(** The date a leave request counts from. *)
Definition requestDateOf (lv : LeaveRequest) : Date :=
  toDate (orElse (timestamp lv) (tanggalPermohonan lv)).

(** Month and date of a day number. *)
Definition MonthFromDay (D : Z) : Z :=
  monthOfDay (InLeapYear (YearFromDay D)) (D - DayFromYear (YearFromDay D)) 11 0.

Definition DateFromDay (D : Z) : Z :=
  D - DayFromYear (YearFromDay D)
  - monthStart (InLeapYear (YearFromDay D)) (MonthFromDay D) + 1.

(** The anniversary of the current year, as [getAnniversaryThisYear]
    builds it when the clock shows [today]. *)
Definition anniversaryOf (tz : Z) (today : Date) (e : Employee) : Date :=
  newDate tz (getFullYear tz today) (getMonth tz (toDate (join_date e)))
          (getDate tz (toDate (join_date e))).

(** Years of service, as [calculateYearsOfService] computes them when the
    clock shows [today]. *)
Definition yearsOf (tz : Z) (today : Date) (e : Employee) : Num :=
  Num_sub (getFullYear tz today) (getFullYear tz (toDate (join_date e))).

(** The birthday of the current year, likewise. *)
Definition birthdayOf (tz : Z) (today : Date) (e : Employee) : Date :=
  newDate tz (getFullYear tz today) (getMonth tz (toDate (birth_date e)))
          (getDate tz (toDate (birth_date e))).

(** [seg] lists at most one alert per record of [xs], each referring to
    its record through [subject], in the order of [xs]. *)
Definition inInputOrder {X : Type} (subject : Alert -> option X)
           (xs : list X) (seg : list Alert) : Prop :=
  exists per : list (list Alert),
    seg = List.concat per
    /\ Forall2 (fun x r => r = [] \/ exists a, r = [a] /\ subject a = Some x) xs per.

Definition Priority_eqb (p q : Priority) : bool :=
  match p, q with
  | high, high | medium, medium | low, low => true
  | _, _ => false
  end.

(** [new Date(f)] is the Invalid Date: the column holds a text that does
    not parse (or the empty text, or nothing at all under a missing key). *)
Definition malformed (f : DateField) : Prop := toDate f = InvalidDate.

(** The alert refers to an employee other than [e], or to none. *)
Definition notAbout (e : Employee) (a : Alert) : bool :=
  match employee a with
  | Some x => if Employee_eq_dec x e then false else true
  | None => true
  end.

Definition employeeAlerts (tz now : Z) (ty : AlertType) (e : Employee) : list Alert :=
  let today := todayAt tz (steady now) 0%nat in
  match ty with
  | contract =>
      if is_active e && truthy (current_contract_end e)
      then contractBody today [] e else []
  | birthday =>
      if is_active e && truthy (birth_date e)
      then fst (birthdayBody tz (steady now) [] e 0%nat) else []
  | anniversary =>
      if is_active e && truthy (join_date e)
      then fst (anniversaryBody tz (steady now) today [] e 0%nat) else []
  | probation =>
      if is_active e && String.eqb (employment_status e) "Probation"
      then probationBody tz today [] e else []
  | leave_pending => []
  end.

(** The instant at which the clocks of Jakarta show the given civil time. *)
Definition jakarta (y m d hh mm ss : Z) : Z :=
  localMidnight WIB_OFFSET y m d + ((hh * 60 + mm) * 60 + ss) * 1000.

(** An active contract employee whose birth date does not parse and whose
    contract ends on 2025-04-06. *)
Definition badBirthday : Employee :=
  {| id := 7; full_name := "Sari"; gender := "Female";
     is_active := true; is_resigned := false;
     birth_date := DateText InvalidDate;
     join_date := Null;
     current_contract_end := DateText (TimeValue (jakarta 2025 4 6 0 0 0));
     employment_status := "Contract" |}.

Definition hasType (ty : AlertType) (a : Alert) : bool := AlertType_eqb (type a) ty.

(** An employee born on 15 March whose contract ended at the start of
    14 March 2025. *)
Definition midnightEmployee : Employee :=
  {| id := 3; full_name := "Budi"; gender := "Male";
     is_active := true; is_resigned := false;
     birth_date := DateText (TimeValue (jakarta 1990 3 15 0 0 0));
     join_date := Null;
     current_contract_end := DateText (TimeValue (jakarta 2025 3 14 0 0 0));
     employment_status := "Contract" |}.

(** A clock that shows 23:59:59 on 14 March 2025 at its first read and
    midnight from the second read on. *)
Definition skewedClock (k : nat) : Z :=
  match k with
  | O => jakarta 2025 3 14 23 59 59
  | S _ => jakarta 2025 3 15 0 0 0
  end.

Definition nineOClock : Z := jakarta 2025 4 1 9 0 0.

(** A pending request filed three days before [nineOClock]. *)
Definition threeDayRequest : LeaveRequest :=
  {| namaLengkap := "Dewi"; status := Some "pending"%string;
     timestamp := DateText (TimeValue (jakarta 2025 3 29 9 0 0));
     tanggalPermohonan := Undefined |}.

(** An employee on probation who joined on 2025-01-01. *)
Definition probationer : Employee :=
  {| id := 11; full_name := "Rudi"; gender := "Male";
     is_active := true; is_resigned := false;
     birth_date := Null;
     join_date := DateText (TimeValue (localMidnight WIB_OFFSET 2025 1 1 + 0));
     current_contract_end := Null;
     employment_status := "Probation" |}.

(** An employee who joined on 2020-01-10. *)
Definition fiveYears : Employee :=
  {| id := 12; full_name := "Wati"; gender := "Female";
     is_active := true; is_resigned := false;
     birth_date := Null;
     join_date := DateText (TimeValue (localMidnight WIB_OFFSET 2020 1 10 + 0));
     current_contract_end := Null;
     employment_status := "Permanent" |}.

(** The class a leave request falls in. *)
Definition leaveIs (c : LeaveStatus) (lv : LeaveRequest) : bool :=
  LeaveStatus_eqb (normalizeLeaveStatus (status lv)) c.

(** The stages the recruitment pipeline shows. *)
Definition inPipeline (c : Candidate) : bool :=
  stageIs (current_stage c) "Screening"
  || stageIs (current_stage c) "HR Interview"
  || stageIs (current_stage c) "User Interview"
  || stageIs (current_stage c) "Offering".

Definition isMale (e : Employee) : bool := String.eqb (gender e) "Male".
Definition isFemale (e : Employee) : bool := String.eqb (gender e) "Female".

(** The row is counted for the department label [n]: active, not
    resigned, and labelled [n]. *)
Definition countedRow (e : EmployeeRow) : bool :=
  is_active (fields e) && negb (is_resigned (fields e)).

Definition inDepartment (n : string) (e : EmployeeRow) : bool :=
  countedRow e && String.eqb (deptNameOf e) n.

Definition rowIsMale (e : EmployeeRow) : bool := String.eqb (gender (fields e)) "Male".
Definition rowIsFemale (e : EmployeeRow) : bool := String.eqb (gender (fields e)) "Female".

(** Sum of the [count] members of a list of entries. *)
Definition sumCounts (o : list (string * DeptCount)) : Z :=
  fold_right (fun d sum => count (snd d) + sum) 0 o.

(** A row of the employees table with a department label. *)
Definition sampleRow (label : option string) (g : string) (act res : bool)
  : EmployeeRow :=
  {| fields := {| id := 1; full_name := ""; gender := g;
                  is_active := act; is_resigned := res;
                  birth_date := Null; join_date := Null;
                  current_contract_end := Null;
                  employment_status := "Permanent" |};
     departments := option_map (fun n => {| name := Some n |}) label;
     resign_date := Null |}.

Definition fourRows : list EmployeeRow :=
  [ sampleRow (Some "Finance") "Male" true false;
    sampleRow (Some "IT") "Female" true false;
    sampleRow None "Male" true false;
    sampleRow (Some "Finance") "Female" false true ]%string.

(** Number of days of month [m] (0-based) in a leap or a common year. *)
Definition daysInMonth (leap : bool) (m : Z) : Z :=
  monthStart leap (m + 1) - monthStart leap m.

(** The test of the birthday rule when the clock shows [today]: the civil
    day of [today] is the civil day of the birthday of the year. *)
Definition birthdayIsToday (tz : Z) (today : Date) (e : Employee) : bool :=
  dateStringEq (toDateString tz today) (toDateString tz (birthdayOf tz today e)).

(** Born on 29 February 2000. *)
Definition leapling : Employee :=
  {| id := 29; full_name := "Febri"; gender := "Male";
     is_active := true; is_resigned := false;
     birth_date := DateText (TimeValue (jakarta 2000 2 29 0 0 0));
     join_date := Null;
     current_contract_end := Null;
     employment_status := "Permanent" |}.

(** The test an employee passes to come under the rule of type [ty]. *)
Definition ruleFilter (ty : AlertType) (e : Employee) : bool :=
  is_active e
  && match ty with
     | contract => truthy (current_contract_end e)
     | birthday => truthy (birth_date e)
     | anniversary => truthy (join_date e)
     | probation => String.eqb (employment_status e) "Probation"
     | leave_pending => false
     end.

(** The alert refers to a record of the input that comes under its rule:
    a pending request for 'leave_pending', an employee otherwise. *)
Definition fromInput (employees : list Employee) (leaveData : list LeaveRequest)
           (a : Alert) : Prop :=
  match type a with
  | leave_pending =>
      employee a = None
      /\ exists lv, leave a = Some lv /\ In lv leaveData
                    /\ normalizeLeaveStatus (status lv) = Pending
  | ty =>
      leave a = None
      /\ (ty = anniversary -> years a <> None)
      /\ exists e, employee a = Some e /\ In e employees /\ ruleFilter ty e = true
  end.

(** An alert can be acted on: it has its request, or an employee whose
    [id] is truthy. *)
Definition actionable (a : Alert) : bool :=
  match type a with
  | leave_pending => true
  | _ => negb (employeeId a =? 0)
  end.

(** The column holds a text that parses to a date. *)
Definition parses (f : DateField) : bool :=
  match f with DateText (TimeValue _) => true | _ => false end.

(** Counted in the total of the month that ends at [monthEnd]. *)
Definition joinedBy (monthEnd : Date) (e : EmployeeRow) : bool :=
  truthy (join_date (fields e)) && Date_le (toDate (join_date (fields e))) monthEnd.

(** Counted as active in that month. *)
Definition activeAt (monthEnd : Date) (e : EmployeeRow) : bool :=
  joinedBy monthEnd e
  && (negb (truthy (resign_date e)) || Date_gt (toDate (resign_date e)) monthEnd).

(** The month ends of the chart, oldest first, when the clock is read
    after [k] earlier reads. *)
Definition monthEnds (tz : Z) (wall : nat -> Z) (k : nat) : list Date :=
  let today := todayAt tz wall k in
  map (fun i => monthEndOf tz (newDate tz (getFullYear tz today)
                                       (Num_sub (getMonth tz today) (Int i)) (Int 1)))
      [5; 4; 3; 2; 1; 0].

(** Local midnight at which the last day of month [month] begins; months
    are counted from 0 and carry over into the neighbouring years. *)
Definition lastDayStart (tz year month : Z) : Z :=
  UTC tz (MakeDate (MakeDay year (month + 1) 1 - 1) 0).

(** Three rows for the headcount chart: one who joined on 2024-06-01, one
    whose join date "2025-03-31" is read as midnight UTC (07:00 in
    Jakarta), and one who joined on 2024-01-01 and resigned on
    2025-02-10. *)
Definition staffRow (joined : Z) (resigned : DateField) : EmployeeRow :=
  {| fields := {| id := 1; full_name := ""; gender := "";
                  is_active := true; is_resigned := false;
                  birth_date := Null; join_date := DateText (TimeValue joined);
                  current_contract_end := Null;
                  employment_status := "Permanent" |};
     departments := None;
     resign_date := resigned |}.

Definition staffRows : list EmployeeRow :=
  [ staffRow (jakarta 2024 6 1 0 0 0) Null;
    staffRow (jakarta 2025 3 31 7 0 0) Null;
    staffRow (jakarta 2024 1 1 0 0 0)
             (DateText (TimeValue (jakarta 2025 2 10 0 0 0))) ].

(** [a <= b] on two numbers, false when either is NaN. *)
Definition Num_leq (a b : Num) : Prop :=
  match a, b with
  | Int x, Int y => x <= y
  | _, _ => False
  end.

(** The integer a number stands for (0 for NaN). *)
Definition numValue (a : Num) : Z :=
  match a with Int z => z | NaN => 0 end.

(** The two dates are less than 2^53 ms apart, the range in which the
    subtraction of [daysDifference] is exact in binary64; nothing is asked
    where one of them is the Invalid Date. *)
Definition exactlyApart (d1 d2 : Date) : Prop :=
  match valueOf d1, valueOf d2 with
  | Int a, Int b => Z.abs (b - a) < 2 ^ 53
  | _, _ => True
  end.

(** An employee who joined on 2020-01-05. *)
Definition januaryJoiner : Employee :=
  {| id := 15; full_name := "Joko"; gender := "Male";
     is_active := true; is_resigned := false;
     birth_date := Null;
     join_date := DateText (TimeValue (jakarta 2020 1 5 0 0 0));
     current_contract_end := Null;
     employment_status := "Permanent" |}.

(** A clock that shows 23:59:59 on 31 December 2024 at its first read and
    the start of 2025 from the second read on. *)
Definition newYearClock (k : nat) : Z :=
  match k with
  | O => jakarta 2024 12 31 23 59 59
  | S _ => jakarta 2025 1 1 0 0 0
  end.

(** A clock that moves on by a second at every read, from 08:00:00 on
    3 January 2025. *)
Definition tickingClock (k : nat) : Z :=
  jakarta 2025 1 3 8 0 0 + 1000 * Z.of_nat k.

(* ================================================================== *)
(** * Part IV.  Properties                                             *)
(* ================================================================== *)

(** ** Strings and the status normaliser *)

Lemma prefix_true_iff (p s : string) :
  String.prefix p s = true <-> exists b, s = (p ++ b)%string.
Proof.
  revert s; induction p as [|c p IH]; intros s.
  - split; [intros _; now exists s | intros _; now destruct s].
  - destruct s as [|c' s]; simpl.
    + split; [discriminate | intros [b Hb]; discriminate].
    + destruct (ascii_dec c c') as [->|Hc].
      * rewrite IH. split; intros [b Hb]; exists b; congruence.
      * split; [discriminate | intros [b Hb]; congruence].
Qed.

Lemma includes_unfold (s p : string) :
  includes s p =
  if String.prefix p s then true
  else match s with
       | EmptyString => false
       | String _ r => includes r p
       end.
Proof. destruct s; reflexivity. Qed.

Lemma includes_contains (s p : string) : includes s p = true <-> contains s p.
Proof.
  induction s as [|c s IH]; rewrite includes_unfold;
    destruct (String.prefix p _) eqn:E.
  - split; [intros _ | reflexivity].
    apply prefix_true_iff in E as [b Hb]. exists ""%string, b. exact Hb.
  - split; [discriminate|]. intros (a & b & H).
    destruct a; simpl in H; [|discriminate].
    assert (String.prefix p "" = true) by (apply prefix_true_iff; now exists b).
    congruence.
  - split; [intros _ | reflexivity].
    apply prefix_true_iff in E as [b Hb]. exists ""%string, b. exact Hb.
  - rewrite IH. split.
    + intros (a & b & H). exists (String c a), b. simpl. now rewrite H.
    + intros (a & b & H). destruct a as [|c' a]; simpl in H.
      * assert (String.prefix p (String c s) = true)
          by (apply prefix_true_iff; now exists b).
        congruence.
      * exists a, b. congruence.
Qed.

Lemma includes_false_iff (s p : string) : includes s p = false <-> ~ contains s p.
Proof.
  rewrite <- includes_contains. destruct (includes s p); split; congruence.
Qed.

(** C3.  [normalizeLeaveStatus] answers Pending for [null]/[undefined] and
    for the empty text; for any other text it lower-cases and trims it and
    answers Approved exactly when the result contains "approved" or
    "disetujui", otherwise Declined exactly when it contains "declined",
    "rejected" or "ditolak", and Pending in every remaining case.  The
    sample inputs of the specification normalise as stated. *)
Theorem normalizeLeaveStatus_classifies :
  normalizeLeaveStatus None = Pending
  /\ normalizeLeaveStatus (Some ""%string) = Pending
  /\ (forall raw : string,
        let s := trim (toLowerCase raw) in
        let approved := contains s "approved" \/ contains s "disetujui" in
        let declined :=
          contains s "declined" \/ contains s "rejected" \/ contains s "ditolak" in
        (normalizeLeaveStatus (Some raw) = Approved <-> approved)
        /\ (normalizeLeaveStatus (Some raw) = Declined <-> ~ approved /\ declined)
        /\ (normalizeLeaveStatus (Some raw) = Pending <-> ~ approved /\ ~ declined))
  /\ normalizeLeaveStatus (Some "Disetujui"%string) = Approved
  /\ normalizeLeaveStatus (Some " APPROVED "%string) = Approved
  /\ normalizeLeaveStatus (Some "approved by manager"%string) = Approved
  /\ normalizeLeaveStatus (Some "awaiting review"%string) = Pending.
Proof.
  split; [reflexivity|]. split; [reflexivity|]. split; [|repeat split].
  intros raw s approved declined.
  assert (Hnil : normalizeLeaveStatus (Some raw) =
      if includes s "approved" || includes s "disetujui" then Approved
      else if includes s "declined" || includes s "rejected"
              || includes s "ditolak" then Declined
      else Pending) by (subst s; destruct raw; reflexivity).
  rewrite Hnil; clear Hnil.
  subst approved declined; rewrite <- !includes_contains.
  destruct (includes s "approved"), (includes s "disetujui"),
         (includes s "declined"), (includes s "rejected"),
         (includes s "ditolak"); simpl; intuition congruence.
Qed.

(** ** Counting employees *)

Lemma countIf_nil {A : Type} (p : A -> bool) : countIf p [] = 0.
Proof. reflexivity. Qed.

Lemma countIf_cons {A : Type} (p : A -> bool) (x : A) (l : list A) :
  countIf p (x :: l) = (if p x then 1 else 0) + countIf p l.
Proof.
  unfold countIf; simpl. destruct (p x); simpl List.length; lia.
Qed.

Lemma countIf_nonneg {A : Type} (p : A -> bool) (l : list A) : 0 <= countIf p l.
Proof. unfold countIf; lia. Qed.

Lemma countIf_pos_iff {A : Type} (p : A -> bool) (l : list A) :
  0 < countIf p l <-> exists x, In x l /\ p x = true.
Proof.
  induction l as [|x l IH].
  - rewrite countIf_nil. split; [lia | intros (x & [] & _)].
  - rewrite countIf_cons. pose proof (countIf_nonneg p l) as Hn.
    destruct (p x) eqn:Hx.
    + split; [intros _; exists x; simpl; auto | intros _; lia].
    + split.
      * intros H. assert (H0 : 0 < countIf p l) by lia.
        apply IH in H0 as (y & Hy & Hp). exists y; simpl; auto.
      * intros (y & [->|Hy] & Hp); [congruence|].
        assert (0 < countIf p l) by (apply IH; eauto). lia.
Qed.

(** Expose the flags of one employee and split on them. *)
Ltac split_flags e :=
  change (isResigned e) with (is_resigned e);
  change (isActiveOnly e) with (negb (is_resigned e) && is_active e);
  change (isNeither e) with (negb (is_resigned e) && negb (is_active e));
  change (isActiveNotResigned e) with (is_active e && negb (is_resigned e));
  change (isInactive e) with (negb (is_active e));
  change (isActiveAndResigned e) with (is_active e && is_resigned e);
  destruct (is_resigned e), (is_active e); cbn [negb andb].

Lemma three_way_partition (l : list Employee) :
  countIf isResigned l + countIf isActiveOnly l + countIf isNeither l
  = Z.of_nat (List.length l).
Proof.
  induction l as [|e l IH]; [reflexivity|].
  rewrite !countIf_cons. cbn [List.length]. rewrite Nat2Z.inj_succ.
  split_flags e; lia.
Qed.

Lemma turnover_loop (l : list Employee) (a r i : Z) :
  forEach turnoverBody l (a, r, i)
  = (a + countIf isActiveOnly l, r + countIf isResigned l, i + countIf isNeither l).
Proof.
  unfold forEach. revert a r i; induction l as [|e l IH]; intros a r i.
  - cbn [fold_left]. rewrite !countIf_nil. f_equal; try (f_equal; lia); lia.
  - cbn [fold_left]. rewrite !countIf_cons. unfold turnoverBody at 2.
    split_flags e; rewrite IH; (f_equal; try (f_equal; lia); lia).
Qed.

Lemma stats_loop (l : list Employee) (s : EmployeeStats) :
  let s' := forEach statsBody l s in
  totalEmployees s' = totalEmployees s + Z.of_nat (List.length l)
  /\ activeEmployees s' = activeEmployees s + countIf isActiveNotResigned l
  /\ inactiveEmployees s' = inactiveEmployees s + countIf isInactive l.
Proof.
  unfold forEach. revert s; induction l as [|e l IH]; intros s.
  - cbn [fold_left List.length]. rewrite !countIf_nil. cbv zeta. lia.
  - cbn [fold_left List.length]. destruct (IH (statsBody s e)) as (Ht & Ha & Hi).
    cbv zeta. rewrite Ht, Ha, Hi, !countIf_cons, Nat2Z.inj_succ.
    unfold statsBody, incr.
    cbn [totalEmployees activeEmployees inactiveEmployees].
    split_flags e; lia.
Qed.

Lemma active_inactive_gap (l : list Employee) :
  countIf isActiveNotResigned l + countIf isInactive l + countIf isActiveAndResigned l
  = Z.of_nat (List.length l).
Proof.
  induction l as [|e l IH]; [reflexivity|].
  rewrite !countIf_cons. cbn [List.length]. rewrite Nat2Z.inj_succ.
  split_flags e; lia.
Qed.

(** ** The turnover percentage *)

Lemma ratesRoundedUpTo_sound (bound : nat) :
  ratesRoundedUpTo bound = true ->
  forall r t : Z,
    0 <= r <= t -> 0 < t -> (Z.to_nat t <= bound)%nat -> rateRounded r t = true.
Proof.
  unfold ratesRoundedUpTo. intros H r t Hr Ht Hb.
  rewrite forallb_forall in H.
  assert (Hin : In (Z.to_nat t) (seq 1 bound)) by (apply in_seq; lia).
  specialize (H _ Hin). rewrite forallb_forall in H.
  assert (Hin' : In (Z.to_nat r) (seq 0 (S (Z.to_nat t)))) by (apply in_seq; lia).
  specialize (H _ Hin'). rewrite !Z2Nat.id in H by lia. exact H.
Qed.

Lemma rates_rounded_100 : ratesRoundedUpTo 100 = true.
Proof. vm_compute. reflexivity. Qed.

Lemma rate_rounded (r t : Z) :
  0 <= r <= t -> 0 < t <= 100 -> rateRounded r t = true.
Proof.
  intros Hr Ht. apply (ratesRoundedUpTo_sound 100 rates_rounded_100); lia.
Qed.

Lemma calculateTurnoverData_unfold (l : list Employee) :
  calculateTurnoverData l =
  {| active := countIf isActiveOnly l;
     resigned := countIf isResigned l;
     inactive := countIf isNeither l;
     total := Z.of_nat (List.length l);
     turnoverRate :=
       if 0 <? Z.of_nat (List.length l)
       then RateText (toFixed1 (percentage (countIf isResigned l)
                                           (Z.of_nat (List.length l))))
       else RateNumber 0 |}.
Proof.
  unfold calculateTurnoverData. rewrite turnover_loop. reflexivity.
Qed.

(** C7.  [calculateTurnoverData] puts every employee in exactly one of the
    three classes, resigned before active before inactive, so the three
    counters add up to [total], the length of the list.  The rate is the
    number 0 for the empty list and otherwise the text that [toFixed(1)]
    prints for resigned / total * 100; for lists of up to 100 employees
    that text is a nearest tenth of the exact percentage.  Ten employees,
    three resigned, five active and not resigned, two neither, give
    3, 5, 2, 10 and "30.0". *)
Theorem calculateTurnoverData_partitions (employees : list Employee) :
  let t := calculateTurnoverData employees in
  resigned t = countIf (fun e => is_resigned e) employees
  /\ active t = countIf (fun e => negb (is_resigned e) && is_active e) employees
  /\ inactive t
     = countIf (fun e => negb (is_resigned e) && negb (is_active e)) employees
  /\ total t = Z.of_nat (List.length employees)
  /\ resigned t + active t + inactive t = total t
  /\ (employees = [] -> turnoverRate t = RateNumber 0)
  /\ (employees <> [] ->
      turnoverRate t
      = RateText (toFixed1 (b64_mul (b64_div (b64_of_Z (resigned t))
                                             (b64_of_Z (total t)))
                                    (b64_of_Z 100))))
  /\ (employees <> [] -> (List.length employees <= 100)%nat ->
      exists n : Z,
        turnoverRate t = RateText (showTenths n)
        /\ 2 * Z.abs (n * total t - 1000 * resigned t) <= total t)
  /\ (List.length employees = 10%nat ->
      resigned t = 3 -> active t = 5 -> inactive t = 2 ->
      t = {| active := 5; resigned := 3; inactive := 2; total := 10;
             turnoverRate := RateText "30.0" |}).
Proof.
  cbv zeta. rewrite calculateTurnoverData_unfold.
  cbn [active resigned inactive total turnoverRate].
  assert (Hlen : employees <> [] -> 0 < Z.of_nat (List.length employees)).
  { destruct employees; [congruence | cbn [List.length]; lia]. }
  pose proof (three_way_partition employees) as Hsum.
  pose proof (countIf_nonneg isActiveOnly employees) as Ha.
  pose proof (countIf_nonneg isNeither employees) as Hi.
  pose proof (countIf_nonneg isResigned employees) as Hr.
  repeat split; try reflexivity.
  - fold isResigned isActiveOnly isNeither. lia.
  - intros ->. reflexivity.
  - intros Hne. apply Hlen in Hne. apply Z.ltb_lt in Hne. now rewrite Hne.
  - intros Hne Hb. apply Hlen in Hne. pose proof Hne as Hlt.
    apply Z.ltb_lt in Hlt. rewrite Hlt.
    assert (Hrr : rateRounded (countIf isResigned employees)
                    (Z.of_nat (List.length employees)) = true)
      by (apply rate_rounded; lia).
    unfold rateRounded in Hrr. apply andb_true_iff in Hrr as [Hs Hn].
    apply String.eqb_eq in Hs. apply Z.leb_le in Hn.
    exists (printedTenths (countIf isResigned employees)
                          (Z.of_nat (List.length employees))).
    split; [now rewrite Hs | exact Hn].
  - intros Hl H3 H5 H2. fold isResigned in H3. fold isActiveOnly in H5.
    fold isNeither in H2. rewrite H3, H5, H2, Hl. reflexivity.
Qed.

Lemma calculateTurnoverData_partitions_witness :
  calculateTurnoverData tenEmployees
  = {| active := 5; resigned := 3; inactive := 2; total := 10;
       turnoverRate := RateText "30.0" |}.
Proof.
  apply (calculateTurnoverData_partitions tenEmployees); reflexivity.
Defined.

(** C10.  [calculateEmployeeStats] counts as active the employees that are
    active and not resigned, and as inactive those that are not active; an
    employee that is both active and resigned is in the total only.  Hence
    active + inactive <= total, strictly so exactly when such an employee
    is in the list, whereas [calculateTurnoverData] counts that employee
    as resigned. *)
Theorem calculateEmployeeStats_gap (employees : list Employee) :
  let s := calculateEmployeeStats employees in
  let both := countIf (fun e => is_active e && is_resigned e) employees in
  totalEmployees s = Z.of_nat (List.length employees)
  /\ activeEmployees s
     = countIf (fun e => is_active e && negb (is_resigned e)) employees
  /\ inactiveEmployees s = countIf (fun e => negb (is_active e)) employees
  /\ activeEmployees s + inactiveEmployees s + both = totalEmployees s
  /\ activeEmployees s + inactiveEmployees s <= totalEmployees s
  /\ (activeEmployees s + inactiveEmployees s < totalEmployees s
      <-> exists e, In e employees /\ is_active e = true /\ is_resigned e = true)
  /\ both <= resigned (calculateTurnoverData employees)
  /\ (forall e, is_active e = true -> is_resigned e = true ->
        activeEmployees (calculateEmployeeStats [e]) = 0
        /\ inactiveEmployees (calculateEmployeeStats [e]) = 0
        /\ totalEmployees (calculateEmployeeStats [e]) = 1
        /\ resigned (calculateTurnoverData [e]) = 1
        /\ active (calculateTurnoverData [e]) = 0).
Proof.
  cbv zeta.
  destruct (stats_loop employees (mkStats 0 0 0 0 0 0 0 0 0)) as (Ht & Ha & Hi).
  fold (calculateEmployeeStats employees) in Ht, Ha, Hi.
  cbn [totalEmployees activeEmployees inactiveEmployees] in Ht, Ha, Hi.
  pose proof (active_inactive_gap employees) as Hgap.
  pose proof (countIf_nonneg isActiveAndResigned employees) as Hb.
  fold isActiveNotResigned isInactive isActiveAndResigned.
  rewrite Ht, Ha, Hi. repeat split; try lia.
  - intros Hlt. assert (Hpos : 0 < countIf isActiveAndResigned employees) by lia.
    apply countIf_pos_iff in Hpos as (e & Hin & Hp).
    apply andb_true_iff in Hp. exists e; tauto.
  - intros (e & Hin & Hact & Hres).
    assert (0 < countIf isActiveAndResigned employees).
    { apply countIf_pos_iff. exists e. split; [exact Hin|].
      unfold isActiveAndResigned. now rewrite Hact, Hres. }
    lia.
  - rewrite calculateTurnoverData_unfold. cbn [resigned].
    clear. induction employees as [|e l IH]; [reflexivity|].
    rewrite !countIf_cons. split_flags e; lia.
  - unfold calculateEmployeeStats, forEach; cbn. now rewrite H, H0.
  - unfold calculateEmployeeStats, forEach; cbn. now rewrite H.
  - unfold calculateTurnoverData, forEach; cbn. now rewrite H0.
  - unfold calculateTurnoverData, forEach; cbn. now rewrite H0.
Qed.

Lemma calculateEmployeeStats_gap_witness :
  activeEmployees (calculateEmployeeStats tenEmployees)
  + inactiveEmployees (calculateEmployeeStats tenEmployees)
  < totalEmployees (calculateEmployeeStats tenEmployees).
Proof.
  apply (calculateEmployeeStats_gap tenEmployees).
  exists (sampleEmployee true true). repeat split. simpl; auto.
Defined.

(** ** The stable sort *)

Section SortByKey.
Context {A : Type} (key : A -> Z).

Let cmp (a b : A) : Z := key a - key b.
Let ordered (a b : A) : Prop := key a <= key b.

Lemma insertSorted_perm (a : A) (l : list A) :
  Permutation (a :: l) (insertSorted cmp a l).
Proof.
  induction l as [|b r IH]; simpl; [apply Permutation_refl|].
  destruct (cmp b a <? 0).
  - eapply perm_trans; [apply perm_swap|]. now apply perm_skip.
  - apply Permutation_refl.
Qed.

Lemma Array_sort_perm (l : list A) : Permutation l (Array_sort cmp l).
Proof.
  induction l as [|a l IH]; simpl; [constructor|].
  eapply perm_trans; [apply perm_skip, IH | apply insertSorted_perm].
Qed.

Lemma insertSorted_Forall (P : A -> Prop) (a : A) (l : list A) :
  P a -> Forall P l -> Forall P (insertSorted cmp a l).
Proof.
  intros Ha Hl. eapply Permutation_Forall; [apply insertSorted_perm|].
  now constructor.
Qed.

Lemma insertSorted_sorted (a : A) (l : list A) :
  StronglySorted ordered l -> StronglySorted ordered (insertSorted cmp a l).
Proof.
  induction 1 as [|b r Hs IH Hb]; simpl.
  - repeat constructor.
  - destruct (Z.ltb_spec (cmp b a) 0) as [Hlt|Hge]; unfold cmp, ordered in *.
    + constructor; [exact IH|].
      apply insertSorted_Forall; [lia | exact Hb].
    + constructor; [now constructor|].
      constructor; [lia|].
      eapply Forall_impl; [|exact Hb]. simpl; intros; lia.
Qed.

Lemma Array_sort_sorted (l : list A) : StronglySorted ordered (Array_sort cmp l).
Proof.
  induction l as [|a l IH]; simpl; [constructor | now apply insertSorted_sorted].
Qed.

(** An element that is not after any element of [l] stays in front. *)
Lemma insertSorted_front (a : A) (l : list A) :
  Forall (fun x => key a <= key x) l -> insertSorted cmp a l = a :: l.
Proof.
  destruct 1 as [|b r Hb _]; simpl; [reflexivity|].
  destruct (Z.ltb_spec (cmp b a) 0) as [Hlt|Hge]; [unfold cmp in *; lia|].
  reflexivity.
Qed.

Lemma filter_insertSorted (p : A -> bool) (a : A) (l : list A) :
  StronglySorted ordered l ->
  filter p (insertSorted cmp a l)
  = if p a then insertSorted cmp a (filter p l) else filter p l.
Proof.
  induction 1 as [|b r Hs IH Hb]; simpl.
  - now destruct (p a).
  - destruct (Z.ltb_spec (cmp b a) 0) as [Hlt|Hge]; simpl.
    + rewrite IH. destruct (p b), (p a); simpl; try reflexivity.
      destruct (Z.ltb_spec (cmp b a) 0); [reflexivity | lia].
    + destruct (p a); [|reflexivity]. symmetry.
      apply (insertSorted_front a (filter p (b :: r))).
      assert (Hall : Forall (fun x => key a <= key x) (b :: r)).
      { constructor; [unfold cmp in *; lia|].
        eapply Forall_impl; [|exact Hb]. unfold cmp, ordered in *.
        intros; lia. }
      rewrite Forall_forall in *. intros x Hx.
      apply Hall. apply filter_In in Hx. tauto.
Qed.

(** Sorting commutes with taking a sub-list by any test. *)
Lemma filter_Array_sort (p : A -> bool) (l : list A) :
  filter p (Array_sort cmp l) = Array_sort cmp (filter p l).
Proof.
  induction l as [|a l IH]; [reflexivity|]. simpl.
  rewrite filter_insertSorted by apply Array_sort_sorted.
  rewrite IH. now destruct (p a).
Qed.

(** A list whose elements all carry the same key is left as it is. *)
Lemma Array_sort_same_key (c : Z) (l : list A) :
  Forall (fun x => key x = c) l -> Array_sort cmp l = l.
Proof.
  induction 1 as [|a l Ha Hl IH]; [reflexivity|]. simpl. rewrite IH.
  apply insertSorted_front. eapply Forall_impl; [|exact Hl].
  simpl; intros; lia.
Qed.

(** Stability: the elements of one key keep their relative order. *)
Lemma Array_sort_stable (c : Z) (l : list A) :
  filter (fun x => key x =? c) (Array_sort cmp l) = filter (fun x => key x =? c) l.
Proof.
  rewrite filter_Array_sort. apply (Array_sort_same_key c).
  apply Forall_forall. intros x Hx. apply filter_In in Hx. lia.
Qed.

End SortByKey.

(** ** Loops that push onto [alerts] *)

Lemma forEach_push {A : Type} (body : list Alert -> A -> list Alert) :
  (forall acc x, body acc x = acc ++ body [] x) ->
  forall l acc, forEach body l acc = acc ++ flat_map (body []) l.
Proof.
  intros Hb. unfold forEach.
  induction l as [|x l IH]; intros acc; simpl.
  - now rewrite app_nil_r.
  - rewrite IH, Hb, app_assoc. reflexivity.
Qed.

Lemma forEachM_push {A : Type} (body : list Alert -> A -> Clk (list Alert)) :
  (forall acc x k, body acc x k = (acc ++ fst (body [] x k), snd (body [] x k))) ->
  forall l acc k,
    forEachM body l acc k
    = (acc ++ fst (forEachM body l [] k), snd (forEachM body l [] k)).
Proof.
  intros Hb. induction l as [|x l IH]; intros acc k; simpl.
  - unfold ret; simpl. now rewrite app_nil_r.
  - unfold bind. rewrite (Hb acc x k).
    destruct (body [] x k) as [r k'] eqn:E. simpl.
    rewrite (IH (acc ++ r) k'), (IH r k'). simpl.
    now rewrite app_assoc.
Qed.

(** What one iteration contributes, with its clock reads, is the
    contribution to an empty array. *)
Lemma forEachM_cons {A : Type} (body : list Alert -> A -> Clk (list Alert)) :
  (forall acc x k, body acc x k = (acc ++ fst (body [] x k), snd (body [] x k))) ->
  forall x l k,
    forEachM body (x :: l) [] k
    = (fst (body [] x k) ++ fst (forEachM body l [] (snd (body [] x k))),
       snd (forEachM body l [] (snd (body [] x k)))).
Proof.
  intros Hb x l k. simpl. unfold bind.
  destruct (body [] x k) as [r k'] eqn:E. simpl.
  now rewrite (forEachM_push body Hb l r k').
Qed.

(** ** Telling records and alerts apart *)

Lemma AlertType_eqb_eq (a b : AlertType) : AlertType_eqb a b = true <-> a = b.
Proof. destruct a, b; simpl; split; congruence. Qed.

Lemma isAbout_true_iff (ty : AlertType) (e : Employee) (a : Alert) :
  isAbout ty e a = true <-> type a = ty /\ employee a = Some e.
Proof.
  unfold isAbout. rewrite andb_true_iff, AlertType_eqb_eq.
  destruct (employee a) as [x|]; [destruct (Employee_eq_dec x e)|];
    split; intros [H1 H2]; split; congruence.
Qed.

Lemma isAboutLeave_true_iff (lv : LeaveRequest) (a : Alert) :
  isAboutLeave lv a = true <-> type a = leave_pending /\ leave a = Some lv.
Proof.
  unfold isAboutLeave. rewrite andb_true_iff, AlertType_eqb_eq.
  destruct (leave a) as [x|]; [destruct (LeaveRequest_eq_dec x lv)|];
    split; intros [H1 H2]; split; congruence.
Qed.

Lemma inRange_iff (d : Num) (lo hi : Z) :
  Num_ge d lo && Num_le d hi = true <-> inRange d lo hi.
Proof.
  unfold inRange. destruct d as [|n]; simpl.
  - split; [discriminate | intros (n & H & _); discriminate].
  - rewrite andb_true_iff, !Z.leb_le. split.
    + intros H. exists n. split; [reflexivity | lia].
    + intros (m & H & Hm). injection H as ->. lia.
Qed.

Lemma above_iff (d : Num) (lo : Z) : Num_gt d lo = true <-> above d lo.
Proof.
  unfold above. destruct d as [|n]; simpl.
  - split; [discriminate | intros (n & H & _); discriminate].
  - rewrite Z.ltb_lt. split.
    + intros H. exists n. split; [reflexivity | lia].
    + intros (m & H & Hm). injection H as ->. lia.
Qed.

(** ** Counting *)

Lemma countIf_app {A : Type} (p : A -> bool) (l1 l2 : list A) :
  countIf p (l1 ++ l2) = countIf p l1 + countIf p l2.
Proof.
  unfold countIf. rewrite filter_app, length_app. lia.
Qed.

Lemma countIf_perm {A : Type} (p : A -> bool) (l1 l2 : list A) :
  Permutation l1 l2 -> countIf p l1 = countIf p l2.
Proof.
  induction 1; rewrite ?countIf_cons; lia.
Qed.

Lemma countIf_none {A : Type} (p : A -> bool) (l : list A) :
  Forall (fun a => p a = false) l -> countIf p l = 0.
Proof.
  induction 1 as [|a l Ha Hl IH]; [reflexivity|].
  rewrite countIf_cons, Ha, IH. reflexivity.
Qed.

Lemma flat_map_filter {A B : Type} (f : A -> bool) (r : A -> list B) (l : list A) :
  flat_map r (filter f l) = flat_map (fun x => if f x then r x else []) l.
Proof.
  induction l as [|x l IH]; [reflexivity|]. simpl.
  destruct (f x); simpl; now rewrite IH.
Qed.

(** When each record contributes alerts of type [ty] that refer to it, the
    alerts about [e] are those contributed at the occurrences of [e]. *)
Lemma countIf_about_flat_map (ty : AlertType) (r : Employee -> list Alert)
      (e : Employee) (l : list Employee) :
  (forall x a, In a (r x) -> type a = ty /\ employee a = Some x) ->
  countIf (isAbout ty e) (flat_map r l)
  = occurrences l e * Z.of_nat (List.length (r e)).
Proof.
  intros Hr. unfold occurrences. induction l as [|x l IH]; [reflexivity|].
  cbn [flat_map count_occ]. rewrite countIf_app, IH.
  destruct (Employee_eq_dec x e) as [->|Hne].
  - assert (Hall : countIf (isAbout ty e) (r e) = Z.of_nat (List.length (r e))).
    { unfold countIf. f_equal. f_equal.
      apply forallb_filter_id. apply forallb_forall. intros a Ha.
      apply isAbout_true_iff. now apply Hr. }
    rewrite Hall. lia.
  - rewrite countIf_none; [lia|].
    apply Forall_forall. intros a Ha. apply Hr in Ha as [Ht He].
    destruct (isAbout ty e a) eqn:E; [|reflexivity].
    apply isAbout_true_iff in E as [_ E]. congruence.
Qed.

Lemma countIf_aboutLeave_flat_map (r : LeaveRequest -> list Alert)
      (lv : LeaveRequest) (l : list LeaveRequest) :
  (forall x a, In a (r x) -> type a = leave_pending /\ leave a = Some x) ->
  countIf (isAboutLeave lv) (flat_map r l)
  = leaveOccurrences l lv * Z.of_nat (List.length (r lv)).
Proof.
  intros Hr. unfold leaveOccurrences. induction l as [|x l IH]; [reflexivity|].
  cbn [flat_map count_occ]. rewrite countIf_app, IH.
  destruct (LeaveRequest_eq_dec x lv) as [->|Hne].
  - assert (Hall : countIf (isAboutLeave lv) (r lv) = Z.of_nat (List.length (r lv))).
    { unfold countIf. f_equal. f_equal.
      apply forallb_filter_id. apply forallb_forall. intros a Ha.
      apply isAboutLeave_true_iff. now apply Hr. }
    rewrite Hall. lia.
  - rewrite countIf_none; [lia|].
    apply Forall_forall. intros a Ha. apply Hr in Ha as [Ht He].
    destruct (isAboutLeave lv a) eqn:E; [|reflexivity].
    apply isAboutLeave_true_iff in E as [_ E]. congruence.
Qed.

(** ** The five rules, one record at a time *)

Lemma contractBody_push (today : Date) (acc : list Alert) (e : Employee) :
  contractBody today acc e = acc ++ contractBody today [] e.
Proof.
  unfold contractBody, push.
  destruct (Num_ge _ 0 && Num_le _ 30); [reflexivity | now rewrite app_nil_r].
Qed.

Lemma probationBody_push (tz : Z) (today : Date) (acc : list Alert) (e : Employee) :
  probationBody tz today acc e = acc ++ probationBody tz today [] e.
Proof.
  unfold probationBody, push.
  destruct (Num_ge _ 0 && Num_le _ _); [reflexivity | now rewrite app_nil_r].
Qed.

Lemma leaveBody_push (today : Date) (acc : list Alert) (lv : LeaveRequest) :
  leaveBody today acc lv = acc ++ leaveBody today [] lv.
Proof.
  unfold leaveBody, push.
  destruct (Num_gt _ 2); [reflexivity | now rewrite app_nil_r].
Qed.

Lemma birthdayBody_push (tz : Z) (wall : nat -> Z) (acc : list Alert)
      (e : Employee) (k : nat) :
  birthdayBody tz wall acc e k
  = (acc ++ fst (birthdayBody tz wall [] e k), snd (birthdayBody tz wall [] e k)).
Proof.
  unfold birthdayBody, getBirthdayThisYear, isToday, getWIBDate, ret, push, bind.
  cbn beta iota.
  destruct (dateStringEq _ _); cbn [fst snd]; [reflexivity | now rewrite app_nil_r].
Qed.

Lemma anniversaryBody_push (tz : Z) (wall : nat -> Z) (today : Date)
      (acc : list Alert) (e : Employee) (k : nat) :
  anniversaryBody tz wall today acc e k
  = (acc ++ fst (anniversaryBody tz wall today [] e k),
     snd (anniversaryBody tz wall today [] e k)).
Proof.
  unfold anniversaryBody, getAnniversaryThisYear, calculateYearsOfService,
    getWIBDate, ret, push, bind.
  cbn beta iota.
  destruct (Num_ge _ 0 && Num_le _ 7); cbn [fst snd];
    [reflexivity | now rewrite app_nil_r].
Qed.

Lemma generateCriticalAlerts_emitted (tz : Z) (wall : nat -> Z)
      (employees : list Employee) (leaveData : list LeaveRequest) (k : nat) :
  fst (generateCriticalAlerts tz wall employees leaveData k)
  = Array_sort comparePriority (emitted tz wall employees leaveData k).
Proof.
  unfold generateCriticalAlerts, emitted, birthdayRun, anniversaryRun,
    contractAlerts, probationAlerts, leaveAlerts, todayAt.
  unfold bind at 1. unfold getWIBDate at 1 2. cbn [fst].
  set (today := parseLocal tz _).
  rewrite (forEach_push _ (contractBody_push today)). cbn [app].
  unfold bind at 1.
  rewrite (forEachM_push _ (birthdayBody_push tz wall)).
  unfold bind at 1.
  rewrite (forEachM_push _ (anniversaryBody_push tz wall today)).
  rewrite (forEach_push _ (probationBody_push tz today)).
  rewrite (forEach_push _ (leaveBody_push today)).
  unfold ret. cbn [fst]. rewrite <- !app_assoc. reflexivity.
Qed.

(** The priority sort, specialised from the general lemmas. *)
Lemma comparePriority_perm (l : list Alert) :
  Permutation l (Array_sort comparePriority l).
Proof. exact (Array_sort_perm rank l). Qed.

Lemma comparePriority_sorted (l : list Alert) :
  StronglySorted (fun a b => rank a <= rank b) (Array_sort comparePriority l).
Proof. exact (Array_sort_sorted rank l). Qed.

Lemma comparePriority_filter (p : Alert -> bool) (l : list Alert) :
  filter p (Array_sort comparePriority l) = Array_sort comparePriority (filter p l).
Proof. exact (filter_Array_sort rank p l). Qed.

Lemma comparePriority_stable (c : Z) (l : list Alert) :
  filter (fun a => rank a =? c) (Array_sort comparePriority l)
  = filter (fun a => rank a =? c) l.
Proof. exact (Array_sort_stable rank c l). Qed.

Lemma forEachM_In {A : Type} (body : list Alert -> A -> Clk (list Alert)) :
  (forall acc x k, body acc x k = (acc ++ fst (body [] x k), snd (body [] x k))) ->
  forall l k a,
    In a (fst (forEachM body l [] k)) ->
    exists x k', In x l /\ In a (fst (body [] x k')).
Proof.
  intros Hb. induction l as [|x l IH]; intros k a Ha.
  - destruct Ha.
  - rewrite (forEachM_cons body Hb) in Ha. cbn [fst] in Ha.
    apply in_app_or in Ha as [Ha|Ha].
    + exists x, k. split; [now left | exact Ha].
    + apply IH in Ha as (y & k' & Hy & Hk). exists y, k'. split; [now right | exact Hk].
Qed.

(** What a single record contributes to each rule. *)
Lemma contractBody_In (today : Date) (e : Employee) (a : Alert) :
  In a (contractBody today [] e) ->
  let d := daysDifference today (toDate (current_contract_end e)) in
  type a = contract /\ employee a = Some e /\ daysRemaining a = Some d
  /\ priority a = (if Num_le d 7 then high else if Num_le d 14 then medium else low)
  /\ inRange d 0 30.
Proof.
  unfold contractBody, push.
  destruct (Num_ge _ 0 && Num_le _ 30) eqn:E; [|intros []].
  intros [<-|[]]. cbn. repeat split. now apply inRange_iff.
Qed.

Lemma contractBody_length (today : Date) (e : Employee) :
  let d := daysDifference today (toDate (current_contract_end e)) in
  List.length (contractBody today [] e)
  = if Num_ge d 0 && Num_le d 30 then 1%nat else 0%nat.
Proof.
  unfold contractBody, push. now destruct (Num_ge _ 0 && Num_le _ 30).
Qed.

Lemma probationBody_In (tz : Z) (today : Date) (e : Employee) (a : Alert) :
  In a (probationBody tz today [] e) ->
  let d := daysDifference today (probationEndOf tz e) in
  type a = probation /\ employee a = Some e /\ daysRemaining a = Some d
  /\ priority a = high /\ inRange d 0 7.
Proof.
  unfold probationBody, push, probationEndOf.
  destruct (Num_ge _ 0 && Num_le _ _) eqn:E; [|intros []].
  intros [<-|[]]. cbn. repeat split. now apply inRange_iff.
Qed.

Lemma probationBody_length (tz : Z) (today : Date) (e : Employee) :
  let d := daysDifference today (probationEndOf tz e) in
  List.length (probationBody tz today [] e)
  = if Num_ge d 0 && Num_le d 7 then 1%nat else 0%nat.
Proof.
  unfold probationBody, push, probationEndOf, PROBATION_WARNING_DAYS.
  now destruct (Num_ge _ 0 && Num_le _ 7).
Qed.

Lemma leaveBody_In (today : Date) (lv : LeaveRequest) (a : Alert) :
  In a (leaveBody today [] lv) ->
  let d := daysDifference (requestDateOf lv) today in
  type a = leave_pending /\ leave a = Some lv /\ daysPending a = Some d
  /\ priority a = (if Num_gt d 5 then high else medium)
  /\ above d 2.
Proof.
  unfold leaveBody, push, requestDateOf.
  destruct (Num_gt _ 2) eqn:E; [|intros []].
  intros [<-|[]]. cbn. repeat split. now apply above_iff.
Qed.

Lemma leaveBody_length (today : Date) (lv : LeaveRequest) :
  let d := daysDifference (requestDateOf lv) today in
  List.length (leaveBody today [] lv) = if Num_gt d 2 then 1%nat else 0%nat.
Proof.
  unfold leaveBody, push, requestDateOf. now destruct (Num_gt _ 2).
Qed.

Lemma birthdayBody_In (tz : Z) (wall : nat -> Z) (e : Employee) (k : nat) (a : Alert) :
  In a (fst (birthdayBody tz wall [] e k)) ->
  type a = birthday /\ employee a = Some e /\ priority a = medium.
Proof.
  unfold birthdayBody, getBirthdayThisYear, isToday, getWIBDate, ret, push, bind.
  cbn beta iota.
  destruct (dateStringEq _ _); cbn [fst]; [|intros []].
  intros [<-|[]]. cbn. repeat split.
Qed.

Lemma anniversaryBody_In (tz : Z) (wall : nat -> Z) (today : Date) (e : Employee)
      (k : nat) (a : Alert) :
  In a (fst (anniversaryBody tz wall today [] e k)) ->
  type a = anniversary /\ employee a = Some e /\ priority a = low.
Proof.
  unfold anniversaryBody, getAnniversaryThisYear, calculateYearsOfService,
    getWIBDate, ret, push, bind.
  cbn beta iota.
  destruct (Num_ge _ 0 && Num_le _ 7); cbn [fst]; [|intros []].
  intros [<-|[]]. cbn. repeat split.
Qed.

(** Every alert of a rule carries the type of the rule. *)
Lemma contractAlerts_type (today : Date) (l : list Employee) :
  Forall (fun a => type a = contract) (contractAlerts today l).
Proof.
  apply Forall_forall. intros a Ha. unfold contractAlerts in Ha.
  apply in_flat_map in Ha as (x & _ & Hx). now apply contractBody_In in Hx.
Qed.

Lemma birthdayRun_type (tz : Z) (wall : nat -> Z) (l : list Employee) (k : nat) :
  Forall (fun a => type a = birthday) (fst (birthdayRun tz wall l k)).
Proof.
  apply Forall_forall. intros a Ha. unfold birthdayRun in Ha.
  apply (forEachM_In _ (birthdayBody_push tz wall)) in Ha as (x & k' & _ & Hx).
  now apply birthdayBody_In in Hx.
Qed.

Lemma anniversaryRun_type (tz : Z) (wall : nat -> Z) (today : Date)
      (l : list Employee) (k : nat) :
  Forall (fun a => type a = anniversary) (fst (anniversaryRun tz wall today l k)).
Proof.
  apply Forall_forall. intros a Ha. unfold anniversaryRun in Ha.
  apply (forEachM_In _ (anniversaryBody_push tz wall today)) in Ha
    as (x & k' & _ & Hx).
  now apply anniversaryBody_In in Hx.
Qed.

Lemma probationAlerts_type (tz : Z) (today : Date) (l : list Employee) :
  Forall (fun a => type a = probation) (probationAlerts tz today l).
Proof.
  apply Forall_forall. intros a Ha. unfold probationAlerts in Ha.
  apply in_flat_map in Ha as (x & _ & Hx). now apply probationBody_In in Hx.
Qed.

Lemma leaveAlerts_type (today : Date) (l : list LeaveRequest) :
  Forall (fun a => type a = leave_pending) (leaveAlerts today l).
Proof.
  apply Forall_forall. intros a Ha. unfold leaveAlerts in Ha.
  apply in_flat_map in Ha as (x & _ & Hx). now apply leaveBody_In in Hx.
Qed.

(** Alerts of another type do not count. *)
Lemma countIf_other_type (q : Alert -> bool) (ty ty' : AlertType) (l : list Alert) :
  (forall a, q a = true -> type a = ty) -> ty <> ty' ->
  Forall (fun a => type a = ty') l -> countIf q l = 0.
Proof.
  intros Hq Hne Hl. apply countIf_none. eapply Forall_impl; [|exact Hl].
  cbv beta. intros a Ha. destruct (q a) eqn:E; [|reflexivity].
  apply Hq in E. congruence.
Qed.

Lemma In_other_type (ty ty' : AlertType) (l : list Alert) (a : Alert) :
  Forall (fun a => type a = ty') l -> type a = ty -> ty <> ty' -> ~ In a l.
Proof.
  intros Hl Ht Hne Hin. rewrite Forall_forall in Hl. apply Hl in Hin. congruence.
Qed.

(** ** Rounding up to whole days *)

Lemma ceil_quot_bounds (a n : Z) :
  ceil_quot a msPerDay = n <-> (n - 1) * msPerDay < a <= n * msPerDay.
Proof.
  unfold ceil_quot, msPerDay.
  pose proof (Z.div_mod (- a) 86400000 ltac:(lia)) as Hdm.
  pose proof (Z.mod_pos_bound (- a) 86400000 ltac:(lia)) as Hb.
  split; intros H; lia.
Qed.

Lemma ceil_quot_whole (n : Z) : ceil_quot (n * msPerDay) msPerDay = n.
Proof. apply ceil_quot_bounds. unfold msPerDay. lia. Qed.

Lemma daysDifference_valid (t c : Z) :
  daysDifference (TimeValue t) (TimeValue c) = Int (ceil_quot (c - t) msPerDay).
Proof. reflexivity. Qed.

Lemma daysDifference_invalid_r (d : Date) : daysDifference d InvalidDate = NaN.
Proof. now destruct d. Qed.

Lemma daysDifference_invalid_l (d : Date) : daysDifference InvalidDate d = NaN.
Proof. now destruct d. Qed.

Lemma daysDifference_bounds (d1 d2 : Date) (t c : Z) :
  d1 = TimeValue t -> d2 = TimeValue c ->
  exists n, daysDifference d1 d2 = Int n
            /\ (n - 1) * msPerDay < c - t <= n * msPerDay.
Proof.
  intros -> ->. exists (ceil_quot (c - t) msPerDay).
  split; [reflexivity | now apply ceil_quot_bounds].
Qed.

(** ** Reading one rule off the sorted output *)

Section OneRule.
Variables (tz : Z) (wall : nat -> Z).
Variables (employees : list Employee) (leaveData : list LeaveRequest) (k : nat).

Let today := todayAt tz wall k.
Let out := fst (generateCriticalAlerts tz wall employees leaveData k).
Let B := fst (birthdayRun tz wall employees (S k)).
Let A := fst (anniversaryRun tz wall today employees
                             (snd (birthdayRun tz wall employees (S k)))).

Lemma out_emitted :
  Permutation (contractAlerts today employees ++ B ++ A
               ++ probationAlerts tz today employees ++ leaveAlerts today leaveData)
              out.
Proof.
  unfold out. rewrite generateCriticalAlerts_emitted.
  apply comparePriority_perm.
Qed.

Lemma count_out (q : Alert -> bool) :
  countIf q out
  = countIf q (contractAlerts today employees) + countIf q B + countIf q A
    + countIf q (probationAlerts tz today employees)
    + countIf q (leaveAlerts today leaveData).
Proof.
  rewrite <- (countIf_perm q _ _ out_emitted), !countIf_app. lia.
Qed.

Lemma in_out (a : Alert) :
  In a out <->
  In a (contractAlerts today employees) \/ In a B \/ In a A
  \/ In a (probationAlerts tz today employees) \/ In a (leaveAlerts today leaveData).
Proof.
  rewrite <- !in_app_iff. split; apply Permutation_in;
    [apply Permutation_sym|]; apply out_emitted.
Qed.

(** Only the segment of type [ty] counts for a test that implies [ty]. *)
Lemma count_out_typed (q : Alert -> bool) (ty : AlertType) :
  (forall a, q a = true -> type a = ty) ->
  countIf q out
  = countIf q match ty with
              | contract => contractAlerts today employees
              | birthday => B
              | anniversary => A
              | probation => probationAlerts tz today employees
              | leave_pending => leaveAlerts today leaveData
              end.
Proof.
  intros Hq. rewrite count_out.
  assert (ZC : ty <> contract -> countIf q (contractAlerts today employees) = 0).
  { intros Hne. eapply countIf_other_type;
      [exact Hq | exact Hne | apply contractAlerts_type]. }
  assert (ZB : ty <> birthday -> countIf q B = 0).
  { intros Hne. eapply countIf_other_type;
      [exact Hq | exact Hne | apply birthdayRun_type]. }
  assert (ZA : ty <> anniversary -> countIf q A = 0).
  { intros Hne. eapply countIf_other_type;
      [exact Hq | exact Hne | apply anniversaryRun_type]. }
  assert (ZP : ty <> probation
               -> countIf q (probationAlerts tz today employees) = 0).
  { intros Hne. eapply countIf_other_type;
      [exact Hq | exact Hne | apply probationAlerts_type]. }
  assert (ZL : ty <> leave_pending -> countIf q (leaveAlerts today leaveData) = 0).
  { intros Hne. eapply countIf_other_type;
      [exact Hq | exact Hne | apply leaveAlerts_type]. }
  destruct ty; rewrite ?ZC, ?ZB, ?ZA, ?ZP, ?ZL by discriminate; lia.
Qed.

(** An alert of the output sits in the segment of its type. *)
Lemma in_out_typed (a : Alert) :
  In a out ->
  match type a with
  | contract => In a (contractAlerts today employees)
  | birthday => In a B
  | anniversary => In a A
  | probation => In a (probationAlerts tz today employees)
  | leave_pending => In a (leaveAlerts today leaveData)
  end.
Proof.
  intros Ha. apply in_out in Ha.
  pose proof (contractAlerts_type today employees) as HC.
  pose proof (birthdayRun_type tz wall employees (S k)) as HB.
  pose proof (anniversaryRun_type tz wall today employees
                (snd (birthdayRun tz wall employees (S k)))) as HA.
  pose proof (probationAlerts_type tz today employees) as HP.
  pose proof (leaveAlerts_type today leaveData) as HL.
  rewrite Forall_forall in HC, HB, HA, HP, HL.
  destruct Ha as [H|[H|[H|[H|H]]]];
    [ rewrite (HC _ H) | rewrite (HB _ H) | rewrite (HA _ H)
    | rewrite (HP _ H) | rewrite (HL _ H) ]; exact H.
Qed.

End OneRule.

(** ** Rule 1: contracts about to expire *)

(** C1.  For an active employee of the list with a non-null contract-end
    date, [daysUntilExpiry] is the difference to the shared instant rounded
    up to whole days, and the output holds one 'contract' alert per
    occurrence of the employee when 0 <= daysUntilExpiry <= 30, and none
    otherwise (so none when it is negative or NaN).  Such an alert records
    the days and is 'high' up to 7, 'medium' from 8 to 14 and 'low' from 15
    on; at exactly 30 days it is 'low', at exactly 7 days 'high'. *)
Theorem contract_alert_rule
    (tz : Z) (wall : nat -> Z) (employees : list Employee)
    (leaveData : list LeaveRequest) (k : nat) (e : Employee) :
  In e employees -> is_active e = true -> current_contract_end e <> Null ->
  let today := todayAt tz wall k in
  let out := fst (generateCriticalAlerts tz wall employees leaveData k) in
  let d := daysDifference today (toDate (current_contract_end e)) in
  1 <= occurrences employees e
  /\ (inRange d 0 30 -> countIf (isAbout contract e) out = occurrences employees e)
  /\ (~ inRange d 0 30 -> countIf (isAbout contract e) out = 0)
  /\ (forall a, In a out -> type a = contract -> employee a = Some e ->
        exists n, d = Int n /\ 0 <= n <= 30 /\ daysRemaining a = Some (Int n)
                  /\ (n <= 7 -> priority a = high)
                  /\ (8 <= n <= 14 -> priority a = medium)
                  /\ (15 <= n -> priority a = low))
  /\ (forall t c, today = TimeValue t ->
                  toDate (current_contract_end e) = TimeValue c ->
        exists n, d = Int n /\ (n - 1) * msPerDay < c - t <= n * msPerDay)
  /\ (forall t c n, today = TimeValue t ->
                    toDate (current_contract_end e) = TimeValue c ->
                    c - t = n * msPerDay -> d = Int n).
Proof.
  intros Hin Hact Hend today out d.
  assert (Hcount : countIf (isAbout contract e) out
                   = occurrences employees e
                     * Z.of_nat (if Num_ge d 0 && Num_le d 30 then 1 else 0)).
  { subst out.
    rewrite (count_out_typed tz wall employees leaveData k _ contract)
      by (intros a Ha; now apply isAbout_true_iff in Ha).
    unfold contractAlerts. rewrite flat_map_filter.
    rewrite (countIf_about_flat_map contract).
    - rewrite Hact. cbn [andb]. subst d. fold today.
      destruct (current_contract_end e) as [| | |c] eqn:F; cbn [truthy toDate].
      + congruence.
      + now rewrite daysDifference_invalid_r.
      + now rewrite daysDifference_invalid_r.
      + rewrite contractBody_length, F. reflexivity.
    - intros x a Ha. destruct (is_active x && truthy (current_contract_end x));
        [|destruct Ha]. apply contractBody_In in Ha. tauto. }
  split; [|split; [|split; [|split; [|split]]]].
  - unfold occurrences.
    pose proof (proj1 (count_occ_In Employee_eq_dec employees e) Hin). lia.
  - intros Hd. apply inRange_iff in Hd. rewrite Hcount, Hd. lia.
  - intros Hd. rewrite Hcount. destruct (Num_ge d 0 && Num_le d 30) eqn:E; [|lia].
    apply inRange_iff in E. contradiction.
  - intros a Ha Hty Hemp. apply in_out_typed in Ha. rewrite Hty in Ha.
    unfold contractAlerts in Ha. apply in_flat_map in Ha as (x & _ & Hx).
    apply contractBody_In in Hx as (_ & Hx & Hdays & Hprio & Hrange).
    assert (x = e) by congruence. subst x. fold today d in Hdays, Hprio, Hrange.
    destruct Hrange as (n & Hn & Hbounds). exists n.
    rewrite Hn in Hdays, Hprio. cbn [Num_le] in Hprio.
    repeat split; try tauto; intros Hle; rewrite Hprio.
    + destruct (Z.leb_spec n 7); [reflexivity | lia].
    + destruct (Z.leb_spec n 7); [lia|]. destruct (Z.leb_spec n 14); [reflexivity | lia].
    + destruct (Z.leb_spec n 7); [lia|]. destruct (Z.leb_spec n 14); [lia | reflexivity].
  - intros t c Ht Hc. now apply daysDifference_bounds.
  - intros t c n Ht Hc Hdiff. subst d. rewrite Ht, Hc, daysDifference_valid, Hdiff.
    now rewrite ceil_quot_whole.
Qed.

(** ** Rule 5: leave requests pending too long *)

(** C2.  For a leave request of the list whose status normalises to
    Pending, [daysPending] is the time since the request rounded up to
    whole days, and the output holds one 'leave_pending' alert per
    occurrence of the request when daysPending > 2, none otherwise.  The
    alert records the days and is 'high' above 5 and 'medium' up to 5; so
    at exactly 2 days there is none, at 3 days it is 'medium', at 6 days
    'high'. *)
Theorem leave_pending_rule
    (tz : Z) (wall : nat -> Z) (employees : list Employee)
    (leaveData : list LeaveRequest) (k : nat) (lv : LeaveRequest) :
  In lv leaveData -> normalizeLeaveStatus (status lv) = Pending ->
  let today := todayAt tz wall k in
  let out := fst (generateCriticalAlerts tz wall employees leaveData k) in
  let d := daysDifference (requestDateOf lv) today in
  1 <= leaveOccurrences leaveData lv
  /\ (above d 2 -> countIf (isAboutLeave lv) out = leaveOccurrences leaveData lv)
  /\ (~ above d 2 -> countIf (isAboutLeave lv) out = 0)
  /\ (forall a, In a out -> type a = leave_pending -> leave a = Some lv ->
        exists n, d = Int n /\ 2 < n /\ daysPending a = Some (Int n)
                  /\ (5 < n -> priority a = high)
                  /\ (n <= 5 -> priority a = medium))
  /\ (forall t r, today = TimeValue t -> requestDateOf lv = TimeValue r ->
        exists n, d = Int n /\ (n - 1) * msPerDay < t - r <= n * msPerDay)
  /\ (forall t r n, today = TimeValue t -> requestDateOf lv = TimeValue r ->
                    t - r = n * msPerDay -> d = Int n).
Proof.
  intros Hin Hst today out d.
  assert (Hcount : countIf (isAboutLeave lv) out
                   = leaveOccurrences leaveData lv
                     * Z.of_nat (if Num_gt d 2 then 1 else 0)).
  { subst out.
    rewrite (count_out_typed tz wall employees leaveData k _ leave_pending)
      by (intros a Ha; now apply isAboutLeave_true_iff in Ha).
    unfold leaveAlerts. rewrite flat_map_filter.
    rewrite countIf_aboutLeave_flat_map.
    - rewrite Hst. cbn [LeaveStatus_eqb]. now rewrite leaveBody_length.
    - intros x a Ha.
      destruct (LeaveStatus_eqb (normalizeLeaveStatus (status x)) Pending);
        [|destruct Ha]. apply leaveBody_In in Ha. tauto. }
  split; [|split; [|split; [|split; [|split]]]].
  - unfold leaveOccurrences.
    pose proof (proj1 (count_occ_In LeaveRequest_eq_dec leaveData lv) Hin). lia.
  - intros Hd. apply above_iff in Hd. rewrite Hcount, Hd. lia.
  - intros Hd. rewrite Hcount. destruct (Num_gt d 2) eqn:E; [|lia].
    apply above_iff in E. contradiction.
  - intros a Ha Hty Hlv. apply in_out_typed in Ha. rewrite Hty in Ha.
    unfold leaveAlerts in Ha. apply in_flat_map in Ha as (x & _ & Hx).
    apply leaveBody_In in Hx as (_ & Hx & Hdays & Hprio & Habove).
    assert (x = lv) by congruence. subst x. fold today d in Hdays, Hprio, Habove.
    destruct Habove as (n & Hn & Hbound). exists n.
    rewrite Hn in Hdays, Hprio. cbn [Num_gt] in Hprio.
    repeat split; try tauto; intros Hle; rewrite Hprio.
    + destruct (Z.ltb_spec 5 n); [reflexivity | lia].
    + destruct (Z.ltb_spec 5 n); [lia | reflexivity].
  - intros t r Ht Hr. now apply daysDifference_bounds.
  - intros t r n Ht Hr Hdiff. subst d. rewrite Ht, Hr, daysDifference_valid, Hdiff.
    now rewrite ceil_quot_whole.
Qed.

(** ** Civil dates of local instants *)

(** [YearFromDay] is the year of ECMA-262: the one whose first day is the
    last first-of-year not after [d]. *)
Lemma YearFromDay_spec (d : Z) :
  DayFromYear (YearFromDay d) <= d < DayFromYear (YearFromDay d + 1).
Proof.
  unfold YearFromDay. cbv zeta.
  set (y := 1970 + 400 * d / 146097).
  assert (Hy : 146097 * (y - 1970) <= 400 * d < 146097 * (y - 1970) + 146097).
  { subst y. pose proof (Z.div_mod (400 * d) 146097 ltac:(lia)).
    pose proof (Z.mod_pos_bound (400 * d) 146097 ltac:(lia)). lia. }
  clearbody y.
  destruct (Z.ltb_spec d (DayFromYear y));
    [|destruct (Z.leb_spec (DayFromYear (y + 1)) d)];
    unfold DayFromYear in *; Z.to_euclidean_division_equations; lia.
Qed.

(** The table of leap years agrees with the length of the years. *)
Lemma DayFromYear_succ (y : Z) :
  DayFromYear (y + 1) - DayFromYear y = if InLeapYear y then 366 else 365.
Proof.
  unfold DayFromYear, InLeapYear.
  destruct (Z.eqb_spec (y mod 4) 0) as [H4|H4]; cbn [negb];
    [destruct (Z.eqb_spec (y mod 100) 0) as [H100|H100]; cbn [negb];
     [destruct (Z.eqb_spec (y mod 400) 0) as [H400|H400]|]|];
    Z.to_euclidean_division_equations; lia.
Qed.

(** So the day within the year is one of its 365 or 366 days. *)
Lemma DayWithinYear_range (D : Z) :
  0 <= D - DayFromYear (YearFromDay D)
  < if InLeapYear (YearFromDay D) then 366 else 365.
Proof.
  pose proof (YearFromDay_spec D) as Hy.
  pose proof (DayFromYear_succ (YearFromDay D)) as Hs.
  destruct (InLeapYear (YearFromDay D)); lia.
Qed.

Lemma monthOfDay_range (leap : bool) (x : Z) (fuel : nat) (m : Z) :
  m <= monthOfDay leap x fuel m <= m + Z.of_nat fuel.
Proof.
  revert m. induction fuel as [|fuel IH]; intros m; cbn [monthOfDay]; [lia|].
  destruct (x <? monthStart leap (m + 1)); [lia|].
  specialize (IH (m + 1)). lia.
Qed.

Lemma MonthFromDay_range (D : Z) : 0 <= MonthFromDay D <= 11.
Proof.
  unfold MonthFromDay.
  pose proof (monthOfDay_range (InLeapYear (YearFromDay D))
                (D - DayFromYear (YearFromDay D)) 11 0). lia.
Qed.

(** The civil date of a day number names that day. *)
Lemma MakeDay_roundtrip (D : Z) :
  MakeDay (YearFromDay D) (MonthFromDay D) (DateFromDay D) = D.
Proof.
  pose proof (MonthFromDay_range D) as Hm.
  unfold MakeDay. cbv zeta.
  rewrite Z.div_small, Z.mod_small, Z.add_0_r by lia.
  unfold DateFromDay. lia.
Qed.

Lemma Day_MakeDate (D j : Z) : 0 <= j < msPerDay -> Day (MakeDate D j) = D.
Proof.
  intros Hj. unfold Day, MakeDate, msPerDay in *.
  symmetry. apply (Z.div_unique_pos _ _ D j); lia.
Qed.

Lemma TimeWithinDay_MakeDate (D j : Z) :
  0 <= j < msPerDay -> TimeWithinDay (MakeDate D j) = j.
Proof.
  intros Hj. unfold TimeWithinDay, MakeDate, msPerDay in *.
  symmetry. apply (Z.mod_unique_pos _ _ D j); lia.
Qed.

Lemma localMidnight_plus (tz y m d j : Z) :
  LocalTime tz (localMidnight tz y m d + j) = MakeDate (MakeDay y (m - 1) d) j.
Proof. unfold LocalTime, localMidnight, UTC, MakeDate. lia. Qed.

Section CivilFields.
Variables (tz y m d j : Z).
Hypothesis Hj : 0 <= j < msPerDay.

Let D := MakeDay y (m - 1) d.
Let t := localMidnight tz y m d + j.

Lemma YearFromTime_MakeDate : YearFromTime (MakeDate D j) = YearFromDay D.
Proof. unfold YearFromTime. rewrite Day_MakeDate by exact Hj. reflexivity. Qed.

Lemma MonthFromTime_MakeDate : MonthFromTime (MakeDate D j) = MonthFromDay D.
Proof.
  unfold MonthFromTime, MonthFromDay, DayWithinYear, YearFromTime.
  rewrite Day_MakeDate by exact Hj. reflexivity.
Qed.

Lemma DateFromTime_MakeDate : DateFromTime (MakeDate D j) = DateFromDay D.
Proof.
  unfold DateFromTime, DateFromDay. rewrite MonthFromTime_MakeDate.
  unfold DayWithinYear, YearFromTime.
  rewrite Day_MakeDate by exact Hj. reflexivity.
Qed.

Lemma getFullYear_local : getFullYear tz (TimeValue t) = Int (YearFromDay D).
Proof.
  unfold getFullYear, t. rewrite localMidnight_plus. fold D.
  rewrite YearFromTime_MakeDate. reflexivity.
Qed.

Lemma getMonth_local : getMonth tz (TimeValue t) = Int (MonthFromDay D).
Proof.
  unfold getMonth, t. rewrite localMidnight_plus. fold D.
  rewrite MonthFromTime_MakeDate. reflexivity.
Qed.

Lemma getDate_local : getDate tz (TimeValue t) = Int (DateFromDay D).
Proof.
  unfold getDate, t. rewrite localMidnight_plus. fold D.
  rewrite DateFromTime_MakeDate. reflexivity.
Qed.

Lemma toDateString_local :
  toDateString tz (TimeValue t)
  = Some (YearFromDay D, MonthFromDay D, DateFromDay D).
Proof.
  unfold toDateString, t. cbv zeta.
  rewrite localMidnight_plus. fold D.
  rewrite YearFromTime_MakeDate, MonthFromTime_MakeDate, DateFromTime_MakeDate.
  reflexivity.
Qed.

Lemma setMonth_local (m' : Z) :
  setMonth tz (TimeValue t) (Int m')
  = TimeClip (UTC tz (MakeDate (MakeDay (YearFromDay D) m' (DateFromDay D)) j)).
Proof.
  unfold setMonth, t. cbv zeta.
  rewrite localMidnight_plus. fold D.
  rewrite YearFromTime_MakeDate, DateFromTime_MakeDate.
  rewrite TimeWithinDay_MakeDate by exact Hj. reflexivity.
Qed.

End CivilFields.

(** An instant of this century is a valid time value on any host. *)
Lemma TimeClip_near (tz x : Z) :
  Z.abs tz <= msPerDay -> Z.abs x <= 100000 * msPerDay ->
  TimeClip (UTC tz x) = TimeValue (x - tz).
Proof.
  intros Hz Hx. unfold TimeClip, UTC, msPerDay in *.
  destruct (Z.leb_spec (Z.abs (x - tz)) 8640000000000000); [reflexivity | lia].
Qed.

(** Evaluate the calendar on closed day numbers. *)
Ltac calendar :=
  repeat match goal with
         | |- context [MakeDay ?y ?m ?d] =>
             let v := eval vm_compute in (MakeDay y m d) in
             progress change (MakeDay y m d) with v
         | |- context [YearFromDay ?D] =>
             let v := eval vm_compute in (YearFromDay D) in
             progress change (YearFromDay D) with v
         | |- context [MonthFromDay ?D] =>
             let v := eval vm_compute in (MonthFromDay D) in
             progress change (MonthFromDay D) with v
         | |- context [DateFromDay ?D] =>
             let v := eval vm_compute in (DateFromDay D) in
             progress change (DateFromDay D) with v
         end.

(** Joined on 2025-01-01 (at [j] ms into the day), the probation ends on
    2025-04-01 at the same time of day. *)
Lemma probationEnd_sample (tz j : Z) (e : Employee) :
  Z.abs tz <= msPerDay -> 0 <= j < msPerDay ->
  join_date e = DateText (TimeValue (localMidnight tz 2025 1 1 + j)) ->
  probationEndOf tz e = TimeValue (localMidnight tz 2025 4 1 + j).
Proof.
  intros Hz Hj He. unfold probationEndOf. rewrite He. cbn [toDate].
  rewrite getMonth_local by exact Hj. cbn [Num_add].
  rewrite setMonth_local by exact Hj.
  calendar. cbn [Z.add]. calendar.
  rewrite TimeClip_near; [|exact Hz|unfold MakeDate, msPerDay in *; lia].
  unfold localMidnight, UTC, MakeDate. calendar. f_equal. lia.
Qed.

(** ** Rule 4: probation about to end *)

Lemma ceil_quot_small (x : Z) : - msPerDay < x <= 0 -> ceil_quot x msPerDay = 0.
Proof. intros Hx. apply ceil_quot_bounds. unfold msPerDay in *. lia. Qed.

(** C5.  For an active employee of the list whose employment status is
    exactly "Probation", the probation end is the join date moved on by
    three calendar months ([setMonth (getMonth + 3)]), and the output holds
    one 'probation' alert per occurrence of the employee, always 'high',
    when the days until that end are within 0..7, and none otherwise.
    Joined on 2025-01-01, the rule fires throughout 2025-04-01 (with 0 days
    left once the time of day of the join date is reached, in particular
    for a join date at local midnight) and does not fire on 2025-04-08. *)
Theorem probation_alert_rule
    (tz : Z) (wall : nat -> Z) (employees : list Employee)
    (leaveData : list LeaveRequest) (k : nat) (e : Employee) :
  In e employees -> is_active e = true -> employment_status e = "Probation"%string ->
  let today := todayAt tz wall k in
  let out := fst (generateCriticalAlerts tz wall employees leaveData k) in
  let join := toDate (join_date e) in
  let probationEnd := setMonth tz join (Num_add (getMonth tz join) (Int 3)) in
  let d := daysDifference today probationEnd in
  1 <= occurrences employees e
  /\ (inRange d 0 7 -> countIf (isAbout probation e) out = occurrences employees e)
  /\ (~ inRange d 0 7 -> countIf (isAbout probation e) out = 0)
  /\ (forall a, In a out -> type a = probation -> employee a = Some e ->
        priority a = high /\ daysRemaining a = Some d /\ inRange d 0 7)
  /\ (forall j s, Z.abs tz <= msPerDay -> 0 <= j < msPerDay -> 0 <= s < msPerDay ->
        join_date e = DateText (TimeValue (localMidnight tz 2025 1 1 + j)) ->
        probationEnd = TimeValue (localMidnight tz 2025 4 1 + j)
        /\ (today = TimeValue (localMidnight tz 2025 4 1 + s) ->
            inRange d 0 7 /\ (j <= s -> d = Int 0))
        /\ (today = TimeValue (localMidnight tz 2025 4 8 + s) -> ~ inRange d 0 7)).
Proof.
  intros Hin Hact Hst today out join probationEnd d.
  change probationEnd with (probationEndOf tz e) in *.
  assert (Hcount : countIf (isAbout probation e) out
                   = occurrences employees e
                     * Z.of_nat (if Num_ge d 0 && Num_le d 7 then 1 else 0)).
  { subst out.
    rewrite (count_out_typed tz wall employees leaveData k _ probation)
      by (intros a Ha; now apply isAbout_true_iff in Ha).
    unfold probationAlerts. rewrite flat_map_filter.
    rewrite (countIf_about_flat_map probation).
    - rewrite Hact, Hst. cbn [andb]. rewrite String.eqb_refl.
      now rewrite probationBody_length.
    - intros x a Ha.
      destruct (is_active x && String.eqb (employment_status x) "Probation");
        [|destruct Ha]. apply probationBody_In in Ha. tauto. }
  split; [|split; [|split; [|split]]].
  - unfold occurrences.
    pose proof (proj1 (count_occ_In Employee_eq_dec employees e) Hin). lia.
  - intros Hd. apply inRange_iff in Hd. rewrite Hcount, Hd. lia.
  - intros Hd. rewrite Hcount. destruct (Num_ge d 0 && Num_le d 7) eqn:E; [|lia].
    apply inRange_iff in E. contradiction.
  - intros a Ha Hty Hemp. apply in_out_typed in Ha. rewrite Hty in Ha.
    unfold probationAlerts in Ha. apply in_flat_map in Ha as (x & _ & Hx).
    apply probationBody_In in Hx as (_ & Hx & Hdays & Hprio & Hrange).
    assert (x = e) by congruence. subst x. tauto.
  - intros j s Hz Hj Hs Hjoin.
    pose proof (probationEnd_sample tz j e Hz Hj Hjoin) as Hend.
    split; [exact Hend|]. subst d. rewrite Hend.
    split; intros ->; rewrite daysDifference_valid.
    + assert (Hn : exists n, ceil_quot (localMidnight tz 2025 4 1 + j
                                        - (localMidnight tz 2025 4 1 + s)) msPerDay = n
                             /\ (n = 0 \/ n = 1) /\ (j <= s -> n = 0)).
      { eexists. split; [reflexivity|].
        set (x := _ - _). assert (Hx : x = j - s) by (subst x; lia).
        rewrite Hx. clear Hx x.
        pose proof (proj1 (ceil_quot_bounds (j - s) _) eq_refl) as Hb.
        unfold msPerDay in *. split; [lia|]. intros Hle. lia. }
      destruct Hn as (n & Hn & Hcase & Hzero). rewrite Hn. split.
      * exists n. split; [reflexivity | lia].
      * intros Hle. now rewrite (Hzero Hle).
    + intros (n & Hn & Hrange). injection Hn as Hn.
      apply ceil_quot_bounds in Hn.
      unfold localMidnight, UTC, MakeDate in Hn.
      change (MakeDay 2025 (4 - 1) 1) with 20179 in Hn.
      change (MakeDay 2025 (4 - 1) 8) with 20186 in Hn.
      unfold msPerDay in *. lia.
Qed.

(** ** A clock that stands still *)

Lemma todayAt_steady (tz now : Z) (k : nat) :
  todayAt tz (steady now) k = todayAt tz (steady now) 0%nat.
Proof. reflexivity. Qed.

Lemma anniversaryBody_steady_In (tz now : Z) (T : Date) (e : Employee) (k : nat)
      (a : Alert) :
  In a (fst (anniversaryBody tz (steady now) T [] e k)) ->
  let today := todayAt tz (steady now) 0%nat in
  type a = anniversary /\ employee a = Some e /\ priority a = low
  /\ years a = Some (yearsOf tz today e)
  /\ inRange (daysDifference T (anniversaryOf tz today e)) 0 7.
Proof.
  unfold anniversaryBody, getAnniversaryThisYear, calculateYearsOfService,
    getWIBDate, ret, push, bind, anniversaryOf, yearsOf, todayAt, getWIBDate, steady.
  cbn beta iota zeta.
  destruct (Num_ge _ 0 && Num_le _ 7) eqn:E; cbn [fst]; [|intros []].
  intros [<-|[]]. cbn. repeat split. now apply inRange_iff.
Qed.

Lemma anniversaryBody_steady_length (tz now : Z) (T : Date) (e : Employee) (k : nat) :
  let today := todayAt tz (steady now) 0%nat in
  let d := daysDifference T (anniversaryOf tz today e) in
  List.length (fst (anniversaryBody tz (steady now) T [] e k))
  = if Num_ge d 0 && Num_le d 7 then 1%nat else 0%nat.
Proof.
  unfold anniversaryBody, getAnniversaryThisYear, calculateYearsOfService,
    getWIBDate, ret, push, bind, anniversaryOf, yearsOf, todayAt, getWIBDate, steady.
  cbn beta iota zeta.
  now destruct (Num_ge _ 0 && Num_le _ 7).
Qed.

Lemma anniversaryBody_steady_fst (tz now : Z) (T : Date) (e : Employee) (k : nat) :
  fst (anniversaryBody tz (steady now) T [] e k)
  = fst (anniversaryBody tz (steady now) T [] e 0%nat).
Proof.
  unfold anniversaryBody, getAnniversaryThisYear, calculateYearsOfService,
    getWIBDate, ret, push, bind, steady.
  cbn beta iota zeta.
  now destruct (Num_ge _ 0 && Num_le _ 7).
Qed.

Lemma birthdayBody_steady_fst (tz now : Z) (e : Employee) (k : nat) :
  fst (birthdayBody tz (steady now) [] e k)
  = fst (birthdayBody tz (steady now) [] e 0%nat).
Proof.
  unfold birthdayBody, getBirthdayThisYear, isToday, getWIBDate, ret, push, bind,
    steady.
  cbn beta iota zeta.
  now destruct (dateStringEq _ _).
Qed.

Lemma birthdayBody_steady_In (tz now : Z) (e : Employee) (k : nat) (a : Alert) :
  In a (fst (birthdayBody tz (steady now) [] e k)) ->
  let today := todayAt tz (steady now) 0%nat in
  dateStringEq (toDateString tz today) (toDateString tz (birthdayOf tz today e))
  = true.
Proof.
  unfold birthdayBody, getBirthdayThisYear, isToday, getWIBDate, ret, push, bind,
    steady, birthdayOf, todayAt, getWIBDate.
  cbn beta iota zeta.
  destruct (dateStringEq _ _) eqn:E; cbn [fst]; [|intros []].
  intros _. reflexivity.
Qed.

(** With a still clock a loop's alerts do not depend on the reads made
    before it. *)
Lemma forEachM_steady {A : Type} (body : list Alert -> A -> Clk (list Alert)) :
  (forall acc x k, body acc x k = (acc ++ fst (body [] x k), snd (body [] x k))) ->
  (forall x k, fst (body [] x k) = fst (body [] x 0%nat)) ->
  forall l k,
    fst (forEachM body l [] k) = flat_map (fun x => fst (body [] x 0%nat)) l.
Proof.
  intros Hb Hs. induction l as [|x l IH]; intros k; [reflexivity|].
  rewrite (forEachM_cons body Hb). cbn [fst flat_map].
  now rewrite IH, Hs.
Qed.

Lemma anniversaryRun_steady (tz now : Z) (T : Date) (l : list Employee) (k : nat) :
  fst (anniversaryRun tz (steady now) T l k)
  = flat_map (fun e => fst (anniversaryBody tz (steady now) T [] e 0%nat))
             (filter (fun e => is_active e && truthy (join_date e)) l).
Proof.
  unfold anniversaryRun.
  apply (forEachM_steady _ (anniversaryBody_push tz (steady now) T)).
  intros x k'. apply anniversaryBody_steady_fst.
Qed.

Lemma birthdayRun_steady (tz now : Z) (l : list Employee) (k : nat) :
  fst (birthdayRun tz (steady now) l k)
  = flat_map (fun e => fst (birthdayBody tz (steady now) [] e 0%nat))
             (filter (fun e => is_active e && truthy (birth_date e)) l).
Proof.
  unfold birthdayRun.
  apply (forEachM_steady _ (birthdayBody_push tz (steady now))).
  intros x k'. apply birthdayBody_steady_fst.
Qed.

(** ** Rule 3: work anniversaries *)

(** Joined on 2020-01-10: seen from 2025-01-03 the anniversary of the year
    is 7 days ahead and the service counts 5 years; seen from 2025-01-02
    it is 8 days ahead. *)
Lemma anniversary_sample (tz j s day : Z) (e : Employee) (today : Date) :
  Z.abs tz <= msPerDay -> 0 <= j < msPerDay -> 0 <= s < msPerDay ->
  join_date e = DateText (TimeValue (localMidnight tz 2020 1 10 + j)) ->
  (day = 2 \/ day = 3) ->
  today = TimeValue (localMidnight tz 2025 1 day + s) ->
  anniversaryOf tz today e = TimeValue (localMidnight tz 2025 1 10)
  /\ yearsOf tz today e = Int 5
  /\ daysDifference today (anniversaryOf tz today e) = Int (10 - day).
Proof.
  intros Hz Hj Hs He Hday ->.
  unfold anniversaryOf, yearsOf. rewrite He. cbn [toDate].
  rewrite !getFullYear_local, getMonth_local, getDate_local by assumption.
  assert (Hnew : newDate tz (Int 2025) (Int 0) (Int 10)
                 = TimeValue (localMidnight tz 2025 1 10)).
  { unfold newDate. calendar. cbv beta iota zeta.
    rewrite TimeClip_near; [|exact Hz|unfold MakeDate, msPerDay in *; lia].
    unfold localMidnight, UTC, MakeDate. calendar. reflexivity. }
  destruct Hday as [->| ->]; calendar; cbn [Num_sub]; rewrite Hnew;
    (split; [reflexivity|]); (split; [reflexivity|]);
    rewrite daysDifference_valid; f_equal; apply ceil_quot_bounds;
    unfold localMidnight, UTC, MakeDate; calendar; unfold msPerDay in *; lia.
Qed.

(** X25.  With the clock standing at one instant, for an active employee of
    the list with a join date: the anniversary is built in the current
    year from the month and day of the join date, and the output holds one
    'anniversary' alert per occurrence of the employee, always 'low', when
    the days until it are within 0..7, none otherwise (none at 8).  The
    alert's [years] is the plain difference of the two calendar years.
    Joined on 2020-01-10 and seen from 2025-01-03, the days are 7 and the
    years 5; seen from 2025-01-02 the days are 8. *)
Theorem anniversary_alert_rule
    (tz now : Z) (employees : list Employee)
    (leaveData : list LeaveRequest) (k : nat) (e : Employee) :
  In e employees -> is_active e = true -> truthy (join_date e) = true ->
  let today := todayAt tz (steady now) k in
  let out := fst (generateCriticalAlerts tz (steady now) employees leaveData k) in
  let join := toDate (join_date e) in
  let anniversaryThisYear :=
    newDate tz (getFullYear tz today) (getMonth tz join) (getDate tz join) in
  let d := daysDifference today anniversaryThisYear in
  1 <= occurrences employees e
  /\ (inRange d 0 7 -> countIf (isAbout anniversary e) out = occurrences employees e)
  /\ (~ inRange d 0 7 -> countIf (isAbout anniversary e) out = 0)
  /\ (forall a, In a out -> type a = anniversary -> employee a = Some e ->
        priority a = low
        /\ years a = Some (Num_sub (getFullYear tz today) (getFullYear tz join))
        /\ inRange d 0 7)
  /\ (forall j s, Z.abs tz <= msPerDay -> 0 <= j < msPerDay -> 0 <= s < msPerDay ->
        join_date e = DateText (TimeValue (localMidnight tz 2020 1 10 + j)) ->
        (today = TimeValue (localMidnight tz 2025 1 3 + s) ->
         d = Int 7
         /\ Num_sub (getFullYear tz today) (getFullYear tz join) = Int 5)
        /\ (today = TimeValue (localMidnight tz 2025 1 2 + s) -> d = Int 8)).
Proof.
  intros Hin Hact Hjoin today out join anniversaryThisYear d.
  change anniversaryThisYear with (anniversaryOf tz today e) in *.
  change (Num_sub (getFullYear tz today) (getFullYear tz join))
    with (yearsOf tz today e).
  assert (Hcount : countIf (isAbout anniversary e) out
                   = occurrences employees e
                     * Z.of_nat (if Num_ge d 0 && Num_le d 7 then 1 else 0)).
  { subst out.
    rewrite (count_out_typed tz (steady now) employees leaveData k _ anniversary)
      by (intros a Ha; now apply isAbout_true_iff in Ha).
    rewrite anniversaryRun_steady, flat_map_filter.
    rewrite (countIf_about_flat_map anniversary).
    - rewrite Hact, Hjoin. cbn [andb].
      now rewrite anniversaryBody_steady_length.
    - intros x a Ha. destruct (is_active x && truthy (join_date x));
        [|destruct Ha]. apply anniversaryBody_steady_In in Ha. tauto. }
  split; [|split; [|split; [|split]]].
  - unfold occurrences.
    pose proof (proj1 (count_occ_In Employee_eq_dec employees e) Hin). lia.
  - intros Hd. apply inRange_iff in Hd. rewrite Hcount, Hd. lia.
  - intros Hd. rewrite Hcount. destruct (Num_ge d 0 && Num_le d 7) eqn:E; [|lia].
    apply inRange_iff in E. contradiction.
  - intros a Ha Hty Hemp. apply in_out_typed in Ha. rewrite Hty in Ha.
    rewrite anniversaryRun_steady in Ha.
    apply in_flat_map in Ha as (x & _ & Hx).
    apply anniversaryBody_steady_In in Hx as (_ & Hx & Hprio & Hyears & Hrange).
    assert (x = e) by congruence. subst x. tauto.
  - intros j s Hz Hj Hs He. split; intros Ht.
    + destruct (anniversary_sample tz j s 3 e today Hz Hj Hs He
                  (or_intror eq_refl) Ht) as (_ & Hy & Hd).
      split; [exact Hd | exact Hy].
    + destruct (anniversary_sample tz j s 2 e today Hz Hj Hs He
                  (or_introl eq_refl) Ht) as (_ & _ & Hd).
      exact Hd.
Qed.

(** C6 fails on the code.  The days until the anniversary are counted from
    the captured [today], but the anniversary and the years of service
    come from helpers that read the clock again.  When the year changes
    after the first read, an employee who joined on 5 January 2020 gets an
    'anniversary' alert with 5 years, although from the captured instant,
    31 December 2024, the anniversary of the current year lies 361 days
    back and the years are 4; with the clock standing at that instant
    there is no alert. *)
Theorem anniversary_reads_clock_again :
  let now := jakarta 2024 12 31 23 59 59 in
  let today := todayAt WIB_OFFSET newYearClock 0 in
  let out := fst (generateCriticalAlerts WIB_OFFSET newYearClock
                                         [januaryJoiner] [] 0%nat) in
  newYearClock 0 = now
  /\ today = todayAt WIB_OFFSET (steady now) 0
  /\ daysDifference today (anniversaryOf WIB_OFFSET today januaryJoiner) = Int (-361)
  /\ yearsOf WIB_OFFSET today januaryJoiner = Int 4
  /\ map type out = [anniversary]
  /\ map years out = [Some (Int 5)]
  /\ countIf (isAbout anniversary januaryJoiner) out = 1
  /\ fst (generateCriticalAlerts WIB_OFFSET (steady now) [januaryJoiner] [] 0%nat)
     = [].
Proof.
  cbv zeta. repeat split; vm_compute; reflexivity.
Qed.

(** ** Order of the output *)

Lemma Priority_eqb_rank (a : Alert) (p : Priority) :
  Priority_eqb (priority a) p = (rank a =? priorityOrder p).
Proof. unfold rank. now destruct (priority a), p. Qed.

Lemma flat_map_inInputOrder {X : Type} (subject : Alert -> option X)
      (r : X -> list Alert) (xs : list X) :
  (forall x, r x = [] \/ exists a, r x = [a] /\ subject a = Some x) ->
  inInputOrder subject xs (flat_map r xs).
Proof.
  intros Hr. exists (map r xs). split; [apply flat_map_concat_map|].
  induction xs as [|x xs IH]; constructor; [apply Hr | exact IH].
Qed.

Lemma forEachM_inInputOrder {X : Type} (subject : Alert -> option X)
      (body : list Alert -> X -> Clk (list Alert)) :
  (forall acc x k, body acc x k = (acc ++ fst (body [] x k), snd (body [] x k))) ->
  (forall x k, fst (body [] x k) = []
               \/ exists a, fst (body [] x k) = [a] /\ subject a = Some x) ->
  forall xs k, inInputOrder subject xs (fst (forEachM body xs [] k)).
Proof.
  intros Hb Hone. induction xs as [|x xs IH]; intros k.
  - exists []. split; [reflexivity | constructor].
  - rewrite (forEachM_cons body Hb). cbn [fst].
    destruct (IH (snd (body [] x k))) as (per & Hper & Hall).
    exists (fst (body [] x k) :: per). split.
    + cbn [List.concat]. now rewrite Hper.
    + constructor; [apply Hone | exact Hall].
Qed.

Lemma inInputOrder_filter {X : Type} (subject : Alert -> option X)
      (f : X -> bool) (xs : list X) (seg : list Alert) :
  inInputOrder subject (filter f xs) seg -> inInputOrder subject xs seg.
Proof.
  revert seg. induction xs as [|x xs IH]; intros seg; [trivial|].
  cbn [filter]. destruct (f x).
  - intros (per & Hseg & Hall). inversion Hall as [|x' r xs' per' Hx Hrest]; subst.
    destruct (IH (List.concat per')) as (per'' & Hc & Hall'').
    { exists per'. split; [reflexivity | exact Hrest]. }
    exists (r :: per''). split; [cbn [List.concat]; now rewrite Hc|].
    constructor; [exact Hx | exact Hall''].
  - intros H. destruct (IH seg H) as (per & Hseg & Hall).
    exists ([] :: per). split; [exact Hseg|].
    constructor; [now left | exact Hall].
Qed.

Lemma contractBody_one (today : Date) (e : Employee) :
  contractBody today [] e = []
  \/ exists a, contractBody today [] e = [a] /\ employee a = Some e.
Proof.
  unfold contractBody, push. destruct (Num_ge _ 0 && Num_le _ 30); [right|now left].
  eexists. split; reflexivity.
Qed.

Lemma probationBody_one (tz : Z) (today : Date) (e : Employee) :
  probationBody tz today [] e = []
  \/ exists a, probationBody tz today [] e = [a] /\ employee a = Some e.
Proof.
  unfold probationBody, push. destruct (Num_ge _ 0 && Num_le _ _); [right|now left].
  eexists. split; reflexivity.
Qed.

Lemma leaveBody_one (today : Date) (lv : LeaveRequest) :
  leaveBody today [] lv = []
  \/ exists a, leaveBody today [] lv = [a] /\ leave a = Some lv.
Proof.
  unfold leaveBody, push. destruct (Num_gt _ 2); [right|now left].
  eexists. split; reflexivity.
Qed.

Lemma birthdayBody_one (tz : Z) (wall : nat -> Z) (e : Employee) (k : nat) :
  fst (birthdayBody tz wall [] e k) = []
  \/ exists a, fst (birthdayBody tz wall [] e k) = [a] /\ employee a = Some e.
Proof.
  unfold birthdayBody, getBirthdayThisYear, isToday, getWIBDate, ret, push, bind.
  cbn beta iota.
  destruct (dateStringEq _ _); cbn [fst]; [right|now left].
  eexists. split; reflexivity.
Qed.

Lemma anniversaryBody_one (tz : Z) (wall : nat -> Z) (today : Date) (e : Employee)
      (k : nat) :
  fst (anniversaryBody tz wall today [] e k) = []
  \/ exists a, fst (anniversaryBody tz wall today [] e k) = [a]
               /\ employee a = Some e.
Proof.
  unfold anniversaryBody, getAnniversaryThisYear, calculateYearsOfService,
    getWIBDate, ret, push, bind.
  cbn beta iota.
  destruct (Num_ge _ 0 && Num_le _ 7); cbn [fst]; [right|now left].
  eexists. split; reflexivity.
Qed.

(** C4.  The output is what the five rules pushed, in the order contract,
    birthday, anniversary, probation, leave_pending and within each rule in
    the order of the input array, put through a sort on the priority rank
    (high 1, medium 2, low 3): it is ascending in rank, and the alerts of
    one priority keep the order in which they were pushed.  Three alerts
    pushed as low, medium, high come out as high, medium, low. *)
Theorem alerts_sorted_by_priority
    (tz : Z) (wall : nat -> Z) (employees : list Employee)
    (leaveData : list LeaveRequest) (k : nat) :
  let out := fst (generateCriticalAlerts tz wall employees leaveData k) in
  (exists C B A P L : list Alert,
      let pushed := C ++ B ++ A ++ P ++ L in
      Forall (fun a => type a = contract) C
      /\ Forall (fun a => type a = birthday) B
      /\ Forall (fun a => type a = anniversary) A
      /\ Forall (fun a => type a = probation) P
      /\ Forall (fun a => type a = leave_pending) L
      /\ inInputOrder employee employees C
      /\ inInputOrder employee employees B
      /\ inInputOrder employee employees A
      /\ inInputOrder employee employees P
      /\ inInputOrder leave leaveData L
      /\ Permutation pushed out
      /\ (forall p, filter (fun a => Priority_eqb (priority a) p) out
                    = filter (fun a => Priority_eqb (priority a) p) pushed))
  /\ StronglySorted
       (fun a b => priorityOrder (priority a) <= priorityOrder (priority b)) out
  /\ (priorityOrder high = 1 /\ priorityOrder medium = 2 /\ priorityOrder low = 3)
  /\ (forall a b c, priority a = low -> priority b = medium -> priority c = high ->
        Array_sort comparePriority [a; b; c] = [c; b; a]).
Proof.
  intros out. split; [|split; [|split]].
  - exists (contractAlerts (todayAt tz wall k) employees),
           (fst (birthdayRun tz wall employees (S k))),
           (fst (anniversaryRun tz wall (todayAt tz wall k) employees
                   (snd (birthdayRun tz wall employees (S k))))),
           (probationAlerts tz (todayAt tz wall k) employees),
           (leaveAlerts (todayAt tz wall k) leaveData).
    cbv zeta.
    split; [apply contractAlerts_type|].
    split; [apply birthdayRun_type|].
    split; [apply anniversaryRun_type|].
    split; [apply probationAlerts_type|].
    split; [apply leaveAlerts_type|].
    split; [eapply inInputOrder_filter, flat_map_inInputOrder, contractBody_one|].
    split; [eapply inInputOrder_filter,
              (forEachM_inInputOrder _ _ (birthdayBody_push tz wall)),
              birthdayBody_one|].
    split; [eapply inInputOrder_filter,
              (forEachM_inInputOrder _ _ (anniversaryBody_push tz wall _)),
              anniversaryBody_one|].
    split; [eapply inInputOrder_filter, flat_map_inInputOrder, probationBody_one|].
    split; [eapply inInputOrder_filter, flat_map_inInputOrder, leaveBody_one|].
    split; [apply out_emitted|].
    intros p. subst out. rewrite generateCriticalAlerts_emitted.
    rewrite (filter_ext _ _ (fun a => Priority_eqb_rank a p)).
    rewrite (filter_ext (fun a => Priority_eqb (priority a) p) _
                        (fun a => Priority_eqb_rank a p)).
    apply comparePriority_stable.
  - subst out. rewrite generateCriticalAlerts_emitted.
    apply comparePriority_sorted.
  - repeat split.
  - intros a b c Ha Hb Hc. unfold Array_sort, comparePriority.
    cbn [fold_right]. do 3 (cbn [insertSorted]; rewrite ?Ha, ?Hb, ?Hc; cbn).
    reflexivity.
Qed.

(** ** Dates that do not parse *)

Lemma newDate_invalid_month (tz : Z) (y d : Num) : newDate tz y NaN d = InvalidDate.
Proof. now destruct y. Qed.

Lemma contractBody_malformed (today : Date) (e : Employee) :
  malformed (current_contract_end e) -> contractBody today [] e = [].
Proof.
  unfold malformed, contractBody. intros ->.
  now rewrite daysDifference_invalid_r.
Qed.

Lemma probationBody_malformed (tz : Z) (today : Date) (e : Employee) :
  malformed (join_date e) -> probationBody tz today [] e = [].
Proof.
  unfold malformed, probationBody. intros ->. cbn [setMonth].
  now rewrite daysDifference_invalid_r.
Qed.

Lemma leaveBody_malformed (today : Date) (lv : LeaveRequest) :
  malformed (orElse (timestamp lv) (tanggalPermohonan lv)) ->
  leaveBody today [] lv = [].
Proof.
  unfold malformed, leaveBody. intros ->.
  now rewrite daysDifference_invalid_l.
Qed.

Lemma anniversaryBody_malformed (tz : Z) (wall : nat -> Z) (today : Date)
      (e : Employee) (k : nat) :
  malformed (join_date e) -> fst (anniversaryBody tz wall today [] e k) = [].
Proof.
  unfold malformed, anniversaryBody, getAnniversaryThisYear,
    calculateYearsOfService, getWIBDate, ret, push, bind.
  intros ->. cbn beta iota zeta. cbn [getMonth getDate].
  rewrite newDate_invalid_month, daysDifference_invalid_r. reflexivity.
Qed.

Lemma birthdayBody_malformed (tz now : Z) (e : Employee) (k : nat) :
  todayAt tz (steady now) 0%nat <> InvalidDate ->
  malformed (birth_date e) -> fst (birthdayBody tz (steady now) [] e k) = [].
Proof.
  unfold malformed, birthdayBody, getBirthdayThisYear, isToday, getWIBDate, ret,
    push, bind, todayAt, getWIBDate, steady.
  intros Hvalid ->. cbn beta iota zeta. cbn [getMonth getDate fst] in *.
  rewrite newDate_invalid_month.
  destruct (parseLocal tz _); [congruence | reflexivity].
Qed.

(** ** The alerts of one employee, with the clock standing still *)

Lemma emitted_steady (tz now : Z) (employees : list Employee)
      (leaveData : list LeaveRequest) (k : nat) :
  emitted tz (steady now) employees leaveData k
  = flat_map (employeeAlerts tz now contract) employees
    ++ flat_map (employeeAlerts tz now birthday) employees
    ++ flat_map (employeeAlerts tz now anniversary) employees
    ++ flat_map (employeeAlerts tz now probation) employees
    ++ leaveAlerts (todayAt tz (steady now) 0%nat) leaveData.
Proof.
  unfold emitted. cbv zeta.
  rewrite birthdayRun_steady, anniversaryRun_steady.
  unfold contractAlerts, probationAlerts. rewrite !flat_map_filter.
  rewrite (todayAt_steady tz now k). reflexivity.
Qed.

Lemma employeeAlerts_about (tz now : Z) (ty : AlertType) (e : Employee) (a : Alert) :
  In a (employeeAlerts tz now ty e) -> employee a = Some e.
Proof.
  destruct ty; cbn [employeeAlerts];
    try (match goal with |- context [if ?c then _ else _] => destruct c end);
    try (intros []).
  - intros H. now apply contractBody_In in H.
  - intros H. now apply birthdayBody_In in H.
  - intros H. now apply anniversaryBody_In in H.
  - intros H. now apply probationBody_In in H.
Qed.

Lemma flat_map_remove {A B : Type} (r : A -> list B) (pre post : list A) (x : A) :
  r x = [] -> flat_map r (pre ++ x :: post) = flat_map r (pre ++ post).
Proof.
  intros Hx. rewrite !flat_map_app. cbn [flat_map]. now rewrite Hx.
Qed.

Lemma filter_flat_map_remove {A B : Type} (q : B -> bool) (r : A -> list B)
      (pre post : list A) (x : A) :
  filter q (r x) = [] ->
  filter q (flat_map r (pre ++ x :: post)) = filter q (flat_map r (pre ++ post)).
Proof.
  intros Hx. rewrite !flat_map_app. cbn [flat_map].
  rewrite !filter_app, Hx. reflexivity.
Qed.

Lemma notAbout_own (tz now : Z) (ty : AlertType) (e : Employee) :
  filter (notAbout e) (employeeAlerts tz now ty e) = [].
Proof.
  assert (H : forall a, In a (employeeAlerts tz now ty e) -> notAbout e a = false).
  { intros a Ha. apply employeeAlerts_about in Ha. unfold notAbout. rewrite Ha.
    destruct (Employee_eq_dec e e); congruence. }
  induction (employeeAlerts tz now ty e) as [|a l IH]; [reflexivity|].
  cbn [filter]. rewrite (H a (or_introl eq_refl)). apply IH.
  intros b Hb. apply H. now right.
Qed.

(** ** Rule by rule, not record by record *)

(** C8, as stated, fails: a record with a malformed birth date still
    contributes the alert of a rule that reads another, well-formed date of
    the same record, so the output is not the one obtained without it. *)
Lemma malformed_record_still_alerts :
  let now := jakarta 2025 4 1 9 0 0 in
  let run := fun l => fst (generateCriticalAlerts WIB_OFFSET (steady now) l [] 0%nat) in
  malformed (birth_date badBirthday)
  /\ map type (run [badBirthday]) = [contract]
  /\ map employee (run [badBirthday]) = [Some badBirthday]
  /\ run [badBirthday] <> run [].
Proof.
  cbv zeta. split; [reflexivity|]. split; [vm_compute; reflexivity|].
  split; [vm_compute; reflexivity|].
  vm_compute. discriminate.
Qed.

(** C8, amended.  With the clock standing at one valid instant:
    a malformed date silences the rules that read it -- contract
    end: 'contract'; birth date: 'birthday'; join date: 'anniversary' and
    'probation'; request date: 'leave_pending' -- and nothing is raised,
    the evaluation being a total function.  The alerts that refer to the
    other records are those of the run without the record; and a record
    all of whose dates are malformed leaves the output exactly as if it
    were absent. *)
Theorem malformed_dates_are_skipped
    (tz now : Z) (employees : list Employee) (leaveData : list LeaveRequest)
    (k : nat) :
  todayAt tz (steady now) k <> InvalidDate ->
  let run := fun emps leaves =>
               fst (generateCriticalAlerts tz (steady now) emps leaves k) in
  let out := run employees leaveData in
  (forall e, malformed (current_contract_end e) ->
             countIf (isAbout contract e) out = 0)
  /\ (forall e, malformed (birth_date e) -> countIf (isAbout birthday e) out = 0)
  /\ (forall e, malformed (join_date e) ->
                countIf (isAbout anniversary e) out = 0
                /\ countIf (isAbout probation e) out = 0)
  /\ (forall lv, malformed (orElse (timestamp lv) (tanggalPermohonan lv)) ->
                 countIf (isAboutLeave lv) out = 0)
  /\ (forall pre e post, employees = pre ++ e :: post ->
        filter (notAbout e) out = filter (notAbout e) (run (pre ++ post) leaveData))
  /\ (forall pre e post, employees = pre ++ e :: post ->
        malformed (birth_date e) -> malformed (join_date e) ->
        malformed (current_contract_end e) ->
        out = run (pre ++ post) leaveData)
  /\ (forall pre lv post, leaveData = pre ++ lv :: post ->
        malformed (orElse (timestamp lv) (tanggalPermohonan lv)) ->
        out = run employees (pre ++ post)).
Proof.
  intros Hvalid run out.
  assert (Hout : forall emps leaves,
             run emps leaves
             = Array_sort comparePriority
                 (flat_map (employeeAlerts tz now contract) emps
                  ++ flat_map (employeeAlerts tz now birthday) emps
                  ++ flat_map (employeeAlerts tz now anniversary) emps
                  ++ flat_map (employeeAlerts tz now probation) emps
                  ++ leaveAlerts (todayAt tz (steady now) 0%nat) leaves)).
  { intros emps leaves. unfold run.
    now rewrite generateCriticalAlerts_emitted, emitted_steady. }
  assert (Hcount : forall ty e,
             ty <> leave_pending ->
             countIf (isAbout ty e) out
             = occurrences employees e
               * Z.of_nat (List.length (employeeAlerts tz now ty e))).
  { intros ty e Hty. unfold out. rewrite Hout.
    rewrite <- (countIf_perm _ _ _ (comparePriority_perm _)), !countIf_app.
    assert (Hseg : forall ty', countIf (isAbout ty e)
                                 (flat_map (employeeAlerts tz now ty') employees)
                               = if AlertType_eqb ty' ty
                                 then occurrences employees e
                                      * Z.of_nat (List.length
                                                    (employeeAlerts tz now ty' e))
                                 else 0).
    { intros ty'. destruct (AlertType_eqb ty' ty) eqn:E.
      - apply AlertType_eqb_eq in E. subst ty'.
        apply countIf_about_flat_map. intros x a Ha. split.
        + destruct ty; cbn [employeeAlerts] in Ha;
            try (match type of Ha with
                 | context [if ?c then _ else _] => destruct c
                 end);
            try (destruct Ha; fail).
          * now apply contractBody_In in Ha.
          * now apply birthdayBody_In in Ha.
          * now apply anniversaryBody_In in Ha.
          * now apply probationBody_In in Ha.
        + now apply employeeAlerts_about in Ha.
      - apply countIf_none. apply Forall_forall. intros a Ha.
        apply in_flat_map in Ha as (x & _ & Ha).
        destruct (isAbout ty e a) eqn:Eab; [|reflexivity].
        apply isAbout_true_iff in Eab as [Eab _].
        assert (type a = ty').
        { destruct ty'; cbn [employeeAlerts] in Ha;
            try (match type of Ha with
                 | context [if ?c then _ else _] => destruct c
                 end);
            try (destruct Ha; fail).
          - now apply contractBody_In in Ha.
          - now apply birthdayBody_In in Ha.
          - now apply anniversaryBody_In in Ha.
          - now apply probationBody_In in Ha. }
        assert (AlertType_eqb ty' ty = true)
          by (apply AlertType_eqb_eq; congruence).
        congruence. }
    rewrite !Hseg.
    rewrite (countIf_other_type (isAbout ty e) ty leave_pending);
      [ | intros a Ha; now apply isAbout_true_iff in Ha | exact Hty
        | apply leaveAlerts_type ].
    destruct ty; cbn [AlertType_eqb]; try lia. congruence. }
  assert (Htoday : todayAt tz (steady now) 0%nat <> InvalidDate)
    by (now rewrite <- (todayAt_steady tz now k)).
  split; [|split; [|split; [|split; [|split; [|split]]]]].
  - intros e He. rewrite Hcount by discriminate. cbn [employeeAlerts].
    rewrite contractBody_malformed by exact He.
    destruct (is_active e && truthy _); cbn; lia.
  - intros e He. rewrite Hcount by discriminate. cbn [employeeAlerts].
    rewrite birthdayBody_malformed by assumption.
    destruct (is_active e && truthy _); cbn; lia.
  - intros e He. rewrite !Hcount by discriminate. cbn [employeeAlerts].
    rewrite anniversaryBody_malformed, probationBody_malformed by exact He.
    destruct (is_active e && truthy _), (is_active e && String.eqb _ _); cbn; lia.
  - intros lv Hlv. unfold out, run.
    rewrite (count_out_typed tz (steady now) employees leaveData k _ leave_pending)
      by (intros a Ha; now apply isAboutLeave_true_iff in Ha).
    unfold leaveAlerts. rewrite flat_map_filter, countIf_aboutLeave_flat_map.
    + rewrite leaveBody_malformed by exact Hlv.
      destruct (LeaveStatus_eqb _ _); cbn; lia.
    + intros x a Ha. destruct (LeaveStatus_eqb _ _); [|destruct Ha].
      apply leaveBody_In in Ha. tauto.
  - intros pre e post ->. unfold out. rewrite !Hout, !comparePriority_filter.
    f_equal. rewrite !filter_app.
    now rewrite !(filter_flat_map_remove _ _ pre post e (notAbout_own tz now _ e)).
  - intros pre e post -> Hb Hj Hc. unfold out. rewrite !Hout. f_equal.
    rewrite !(flat_map_remove _ pre post e); try reflexivity; cbn [employeeAlerts].
    + rewrite probationBody_malformed by exact Hj. now destruct (_ && _).
    + rewrite anniversaryBody_malformed by exact Hj. now destruct (_ && _).
    + rewrite birthdayBody_malformed by assumption. now destruct (_ && _).
    + rewrite contractBody_malformed by exact Hc. now destruct (_ && _).
  - intros pre lv post -> Hlv. unfold out. rewrite !Hout. do 5 f_equal.
    unfold leaveAlerts. rewrite !flat_map_filter.
    apply flat_map_remove. rewrite leaveBody_malformed by exact Hlv.
    now destruct (LeaveStatus_eqb _ _).
Qed.

(** ** One instant for all rules? *)

Lemma filter_hasType_other (ty ty' : AlertType) (l : list Alert) :
  Forall (fun a => type a = ty') l -> ty <> ty' -> filter (hasType ty) l = [].
Proof.
  intros Hl Hne. induction Hl as [|a l Ha Hl IH]; [reflexivity|].
  cbn [filter]. unfold hasType at 1. rewrite Ha.
  destruct (AlertType_eqb ty' ty) eqn:E; [|exact IH].
  apply AlertType_eqb_eq in E. congruence.
Qed.

Lemma filter_hasType_same (ty : AlertType) (l : list Alert) :
  Forall (fun a => type a = ty) l -> filter (hasType ty) l = l.
Proof.
  intros Hl. induction Hl as [|a l Ha Hl IH]; [reflexivity|].
  cbn [filter]. unfold hasType at 1. rewrite Ha.
  assert (E : AlertType_eqb ty ty = true) by now apply AlertType_eqb_eq.
  now rewrite E, IH.
Qed.

(** The rules that work on the captured [today] -- contract, probation and
    leave_pending -- depend on the first clock read only. *)
Lemma captured_rules_share_instant
      (tz : Z) (wall1 wall2 : nat -> Z) (employees : list Employee)
      (leaveData : list LeaveRequest) (k : nat) (ty : AlertType) :
  wall1 k = wall2 k ->
  ty = contract \/ ty = probation \/ ty = leave_pending ->
  filter (hasType ty) (fst (generateCriticalAlerts tz wall1 employees leaveData k))
  = filter (hasType ty) (fst (generateCriticalAlerts tz wall2 employees leaveData k)).
Proof.
  intros Hw Hty. rewrite !generateCriticalAlerts_emitted, !comparePriority_filter.
  f_equal. unfold emitted. cbv zeta.
  assert (Htoday : todayAt tz wall1 k = todayAt tz wall2 k)
    by (unfold todayAt, getWIBDate; cbn [fst]; now rewrite Hw).
  rewrite Htoday, !filter_app.
  pose proof (contractAlerts_type (todayAt tz wall2 k) employees) as HC.
  pose proof (probationAlerts_type tz (todayAt tz wall2 k) employees) as HP.
  pose proof (leaveAlerts_type (todayAt tz wall2 k) leaveData) as HL.
  rewrite !(filter_hasType_other ty birthday _ (birthdayRun_type _ _ _ _))
    by (destruct Hty as [->|[->| ->]]; discriminate).
  rewrite !(filter_hasType_other ty anniversary _ (anniversaryRun_type _ _ _ _ _))
    by (destruct Hty as [->|[->| ->]]; discriminate).
  reflexivity.
Qed.

(** C9 fails on the code.  The helpers of the birthday and anniversary
    rules read the clock again; when midnight passes after the first read,
    the contract rule works on 14 March and the birthday rule on 15 March,
    and the output is that of neither instant. *)
Theorem clock_is_read_again :
  let before := jakarta 2025 3 14 23 59 59 in
  let after := jakarta 2025 3 15 0 0 0 in
  let run := fun wall =>
    fst (generateCriticalAlerts WIB_OFFSET wall [midnightEmployee] [] 0%nat) in
  skewedClock 0 = steady before 0
  /\ todayAt WIB_OFFSET skewedClock 0 = todayAt WIB_OFFSET (steady before) 0
  /\ map type (run (steady before)) = [contract]
  /\ map type (run (steady after)) = [birthday]
  /\ map type (run skewedClock) = [contract; birthday]
  /\ run skewedClock <> run (steady before).
Proof.
  cbv zeta. repeat split; try (vm_compute; reflexivity).
  vm_compute. discriminate.
Qed.

(** ** The rules at work on sample records *)

Lemma contract_alert_rule_witness :
  In badBirthday [badBirthday]
  /\ is_active badBirthday = true
  /\ current_contract_end badBirthday <> Null
  /\ countIf (isAbout contract badBirthday)
       (fst (generateCriticalAlerts WIB_OFFSET (steady nineOClock)
                                    [badBirthday] [] 0%nat))
     = occurrences [badBirthday] badBirthday.
Proof.
  assert (Hin : In badBirthday [badBirthday]) by (simpl; auto).
  assert (Hend : current_contract_end badBirthday <> Null) by discriminate.
  split; [exact Hin|]. split; [reflexivity|]. split; [exact Hend|].
  apply (contract_alert_rule WIB_OFFSET (steady nineOClock) [badBirthday] []
           0%nat badBirthday Hin eq_refl Hend).
  exists 5. split; [vm_compute; reflexivity | lia].
Defined.

Lemma leave_pending_rule_witness :
  In threeDayRequest [threeDayRequest]
  /\ normalizeLeaveStatus (status threeDayRequest) = Pending
  /\ countIf (isAboutLeave threeDayRequest)
       (fst (generateCriticalAlerts WIB_OFFSET (steady nineOClock)
                                    [] [threeDayRequest] 0%nat))
     = leaveOccurrences [threeDayRequest] threeDayRequest.
Proof.
  assert (Hin : In threeDayRequest [threeDayRequest]) by (simpl; auto).
  split; [exact Hin|]. split; [reflexivity|].
  apply (leave_pending_rule WIB_OFFSET (steady nineOClock) [] [threeDayRequest]
           0%nat threeDayRequest Hin eq_refl).
  exists 3. split; [vm_compute; reflexivity | lia].
Defined.

Lemma probation_alert_rule_witness :
  In probationer [probationer]
  /\ is_active probationer = true
  /\ employment_status probationer = "Probation"%string
  /\ countIf (isAbout probation probationer)
       (fst (generateCriticalAlerts WIB_OFFSET (steady nineOClock)
                                    [probationer] [] 0%nat))
     = occurrences [probationer] probationer.
Proof.
  assert (Hin : In probationer [probationer]) by (simpl; auto).
  split; [exact Hin|]. split; [reflexivity|]. split; [reflexivity|].
  apply (probation_alert_rule WIB_OFFSET (steady nineOClock) [probationer] []
           0%nat probationer Hin eq_refl eq_refl).
  exists 0. split; [vm_compute; reflexivity | lia].
Defined.

Lemma anniversary_alert_rule_witness :
  In fiveYears [fiveYears]
  /\ is_active fiveYears = true
  /\ truthy (join_date fiveYears) = true
  /\ countIf (isAbout anniversary fiveYears)
       (fst (generateCriticalAlerts WIB_OFFSET (steady (jakarta 2025 1 3 8 0 0))
                                    [fiveYears] [] 0%nat))
     = occurrences [fiveYears] fiveYears.
Proof.
  assert (Hin : In fiveYears [fiveYears]) by (simpl; auto).
  split; [exact Hin|]. split; [reflexivity|]. split; [reflexivity|].
  apply (anniversary_alert_rule WIB_OFFSET (jakarta 2025 1 3 8 0 0) [fiveYears] []
           0%nat fiveYears Hin eq_refl eq_refl).
  exists 7. split; [vm_compute; reflexivity | lia].
Defined.

Lemma malformed_dates_are_skipped_witness :
  todayAt WIB_OFFSET (steady nineOClock) 0 <> InvalidDate
  /\ countIf (isAbout birthday badBirthday)
       (fst (generateCriticalAlerts WIB_OFFSET (steady nineOClock)
                                    [badBirthday] [] 0%nat))
     = 0.
Proof.
  assert (Hvalid : todayAt WIB_OFFSET (steady nineOClock) 0 <> InvalidDate)
    by (vm_compute; discriminate).
  split; [exact Hvalid|].
  apply (malformed_dates_are_skipped WIB_OFFSET nineOClock [badBirthday] []
           0%nat Hvalid).
  reflexivity.
Defined.

(** Contract in 20 days (low), birthday today (medium), probation ending
    (high): pushed in that order, listed in the opposite one. *)
Lemma alerts_sorted_by_priority_witness :
  let contractIn20 :=
    {| id := 21; full_name := "Agus"; gender := "Male";
       is_active := true; is_resigned := false;
       birth_date := DateText (TimeValue (jakarta 1988 4 1 0 0 0));
       join_date := Null;
       current_contract_end := DateText (TimeValue (jakarta 2025 4 21 0 0 0));
       employment_status := "Contract" |} in
  let out := fst (generateCriticalAlerts WIB_OFFSET (steady nineOClock)
                    [contractIn20; probationer] [] 0%nat) in
  map type out = [probation; birthday; contract]
  /\ map priority out = [high; medium; low]
  /\ StronglySorted
       (fun a b => priorityOrder (priority a) <= priorityOrder (priority b)) out.
Proof.
  cbv zeta. split; [vm_compute; reflexivity|]. split; [vm_compute; reflexivity|].
  apply (alerts_sorted_by_priority WIB_OFFSET (steady nineOClock)).
Defined.

(* ================================================================== *)
(** * Part V.  Further properties of dashboard.js                      *)
(* ================================================================== *)

(** ** Whole days, forwards and backwards *)

Lemma ceil_quot_shift (a n : Z) :
  ceil_quot (a + n * msPerDay) msPerDay = ceil_quot a msPerDay + n.
Proof.
  apply ceil_quot_bounds.
  pose proof (proj1 (ceil_quot_bounds a _) eq_refl) as H.
  unfold msPerDay in *. lia.
Qed.

(** X1.  Moving the second date by whole days moves [daysDifference] by
    that many days, whatever the times of day, for dates less than 2^53 ms
    apart before and after the move. *)
Theorem daysDifference_whole_days (d1 : Date) (c n : Z) :
  exactlyApart d1 (TimeValue c) ->
  exactlyApart d1 (TimeValue (c + n * msPerDay)) ->
  daysDifference d1 (TimeValue (c + n * msPerDay))
  = Num_add (daysDifference d1 (TimeValue c)) (Int n).
Proof.
  intros _ _. destruct d1 as [|t]; [reflexivity|].
  rewrite !daysDifference_valid. cbn [Num_add]. f_equal.
  replace (c + n * msPerDay - t) with (c - t + n * msPerDay) by lia.
  apply ceil_quot_shift.
Qed.

Lemma daysDifference_whole_days_witness :
  daysDifference (TimeValue (jakarta 2025 4 1 9 0 0))
                 (TimeValue (jakarta 2025 4 2 8 0 0 + 30 * msPerDay))
  = Int 31.
Proof.
  apply (daysDifference_whole_days (TimeValue (jakarta 2025 4 1 9 0 0))
           (jakarta 2025 4 2 8 0 0) 30); vm_compute; reflexivity.
Defined.

(** X2.  [daysDifference] rounds part days up in both directions: for two
    instants less than 2^53 ms apart, the count from [a] to [b] and the
    count from [b] to [a] cancel exactly when the two are whole days
    apart, and add up to 1 otherwise. *)
Theorem daysDifference_there_and_back (t c : Z) :
  exactlyApart (TimeValue t) (TimeValue c) ->
  exists x y : Z,
    daysDifference (TimeValue t) (TimeValue c) = Int x
    /\ daysDifference (TimeValue c) (TimeValue t) = Int y
    /\ ((c - t) mod msPerDay = 0 -> x + y = 0)
    /\ ((c - t) mod msPerDay <> 0 -> x + y = 1).
Proof.
  intros _.
  exists (ceil_quot (c - t) msPerDay), (ceil_quot (t - c) msPerDay).
  split; [reflexivity|]. split; [reflexivity|].
  pose proof (proj1 (ceil_quot_bounds (c - t) _) eq_refl) as H1.
  pose proof (proj1 (ceil_quot_bounds (t - c) _) eq_refl) as H2.
  set (x := ceil_quot (c - t) msPerDay) in *.
  set (y := ceil_quot (t - c) msPerDay) in *.
  clearbody x y.
  pose proof (Z.div_mod (c - t) msPerDay ltac:(unfold msPerDay; lia)) as Hdm.
  pose proof (Z.mod_pos_bound (c - t) msPerDay ltac:(unfold msPerDay; lia)) as Hb.
  set (q := (c - t) / msPerDay) in *. set (r := (c - t) mod msPerDay) in *.
  clearbody q r. unfold msPerDay in *. split; intros Hr; nia.
Qed.

Lemma daysDifference_there_and_back_witness :
  exists x y : Z,
    daysDifference (TimeValue (jakarta 2025 4 1 9 0 0))
                   (TimeValue (jakarta 2025 4 6 0 0 0)) = Int x
    /\ daysDifference (TimeValue (jakarta 2025 4 6 0 0 0))
                      (TimeValue (jakarta 2025 4 1 9 0 0)) = Int y
    /\ x + y = 1.
Proof.
  destruct (daysDifference_there_and_back (jakarta 2025 4 1 9 0 0)
              (jakarta 2025 4 6 0 0 0))
    as (x & y & Hx & Hy & _ & Hodd); [vm_compute; reflexivity|].
  exists x, y. split; [exact Hx|]. split; [exact Hy|].
  apply Hodd. vm_compute. discriminate.
Defined.

(** ** Leave and recruitment counters *)

Lemma leaveStats_loop (l : list LeaveRequest) (s : LeaveStats) :
  let s' := forEach leaveStatsBody l s in
  pendingLeaves s' = pendingLeaves s + countIf (leaveIs Pending) l
  /\ approvedLeaves s' = approvedLeaves s + countIf (leaveIs Approved) l
  /\ rejectedLeaves s' = rejectedLeaves s + countIf (leaveIs Declined) l.
Proof.
  unfold forEach. revert s; induction l as [|lv l IH]; intros s.
  - cbn [fold_left]. rewrite !countIf_nil. cbv zeta. lia.
  - cbn [fold_left]. destruct (IH (leaveStatsBody s lv)) as (Hp & Ha & Hr).
    cbv zeta. rewrite Hp, Ha, Hr, !countIf_cons.
    unfold leaveStatsBody, incr, leaveIs.
    cbn [pendingLeaves approvedLeaves rejectedLeaves].
    destruct (normalizeLeaveStatus (status lv)); cbn [LeaveStatus_eqb]; lia.
Qed.

Lemma leave_classes_partition (l : list LeaveRequest) :
  countIf (leaveIs Pending) l + countIf (leaveIs Approved) l
  + countIf (leaveIs Declined) l = Z.of_nat (List.length l).
Proof.
  induction l as [|lv l IH]; [reflexivity|].
  rewrite !countIf_cons. cbn [List.length]. rewrite Nat2Z.inj_succ.
  unfold leaveIs at 1 3 5.
  destruct (normalizeLeaveStatus (status lv)); cbn [LeaveStatus_eqb]; lia.
Qed.

Lemma pendingLeaves_count (leaveData : list LeaveRequest) :
  pendingLeaves (calculateLeaveStats leaveData)
  = countIf (fun lv => LeaveStatus_eqb (normalizeLeaveStatus (status lv)) Pending)
            leaveData.
Proof.
  destruct (leaveStats_loop leaveData (mkLeaveStats 0 0 0)) as (Hp & _).
  fold (calculateLeaveStats leaveData) in Hp. cbn [pendingLeaves] in Hp.
  rewrite Hp. reflexivity.
Qed.

(** X3.  [calculateLeaveStats] counts every leave record exactly once:
    the three counters are the numbers of records that normalise to
    Pending, Approved and Declined, and they add up to the number of
    records. *)
Theorem calculateLeaveStats_partitions (leaveData : list LeaveRequest) :
  let s := calculateLeaveStats leaveData in
  pendingLeaves s
  = countIf (fun lv => LeaveStatus_eqb (normalizeLeaveStatus (status lv)) Pending)
            leaveData
  /\ approvedLeaves s
     = countIf (fun lv => LeaveStatus_eqb (normalizeLeaveStatus (status lv)) Approved)
               leaveData
  /\ rejectedLeaves s
     = countIf (fun lv => LeaveStatus_eqb (normalizeLeaveStatus (status lv)) Declined)
               leaveData
  /\ pendingLeaves s + approvedLeaves s + rejectedLeaves s
     = Z.of_nat (List.length leaveData).
Proof.
  cbv zeta.
  destruct (leaveStats_loop leaveData (mkLeaveStats 0 0 0)) as (Hp & Ha & Hr).
  fold (calculateLeaveStats leaveData) in Hp, Ha, Hr.
  cbn [pendingLeaves approvedLeaves rejectedLeaves] in Hp, Ha, Hr.
  pose proof (leave_classes_partition leaveData) as Hsum.
  fold (leaveIs Pending) (leaveIs Approved) (leaveIs Declined).
  rewrite Hp, Ha, Hr. repeat split; lia.
Qed.

Lemma countIf_length_flat_map {A : Type} (f : A -> bool) (r : A -> list Alert)
      (l : list A) :
  (forall x, (List.length (r x) <= 1)%nat) ->
  Z.of_nat (List.length (flat_map r (filter f l))) <= countIf f l.
Proof.
  intros Hr. unfold countIf.
  induction (filter f l) as [|x l' IH]; [reflexivity|].
  cbn [flat_map List.length]. rewrite length_app. specialize (Hr x). lia.
Qed.

(** X4.  The dashboard never shows more pending-leave alerts than the
    pending counter of [calculateLeaveStats]: each alert stems from a
    request counted as pending, one alert per request at most. *)
Theorem leave_alerts_within_pending
    (tz : Z) (wall : nat -> Z) (employees : list Employee)
    (leaveData : list LeaveRequest) (k : nat) :
  countIf (fun a => AlertType_eqb (type a) leave_pending)
          (fst (generateCriticalAlerts tz wall employees leaveData k))
  <= pendingLeaves (calculateLeaveStats leaveData).
Proof.
  rewrite (count_out_typed tz wall employees leaveData k _ leave_pending)
    by (intros a Ha; now apply AlertType_eqb_eq in Ha).
  rewrite pendingLeaves_count.
  assert (Hall : countIf (fun a => AlertType_eqb (type a) leave_pending)
                   (leaveAlerts (todayAt tz wall k) leaveData)
                 = Z.of_nat (List.length (leaveAlerts (todayAt tz wall k) leaveData))).
  { unfold countIf. do 2 f_equal. apply forallb_filter_id. apply forallb_forall.
    intros a Ha. apply AlertType_eqb_eq.
    pose proof (leaveAlerts_type (todayAt tz wall k) leaveData) as H.
    rewrite Forall_forall in H. now apply H. }
  rewrite Hall. unfold leaveAlerts.
  apply countIf_length_flat_map. intros lv. rewrite leaveBody_length.
  destruct (Num_gt _ 2); lia.
Qed.

Lemma recruitment_loop (l : list Candidate) (s : RecruitmentStats) :
  let s' := forEach recruitmentBody l s in
  screening s' = screening s
                 + countIf (fun c => stageIs (current_stage c) "Screening") l
  /\ interview s' = interview s
                    + countIf (fun c => stageIs (current_stage c) "HR Interview"
                                        || stageIs (current_stage c) "User Interview") l
  /\ offering s' = offering s
                   + countIf (fun c => stageIs (current_stage c) "Offering") l.
Proof.
  unfold forEach. revert s; induction l as [|c l IH]; intros s.
  - cbn [fold_left]. rewrite !countIf_nil. cbv zeta. lia.
  - cbn [fold_left]. destruct (IH (recruitmentBody s c)) as (Hs & Hi & Ho).
    cbv zeta. rewrite Hs, Hi, Ho, !countIf_cons.
    unfold recruitmentBody, incr. cbn [screening interview offering].
    destruct (stageIs (current_stage c) "Screening"),
             (stageIs (current_stage c) "HR Interview"),
             (stageIs (current_stage c) "User Interview"),
             (stageIs (current_stage c) "Offering"); cbn [orb]; lia.
Qed.

(** A stage is one text: at most one of the four tests succeeds. *)
Lemma stage_tests_exclusive (c : Candidate) :
  (if stageIs (current_stage c) "Screening" then 1 else 0)
  + (if stageIs (current_stage c) "HR Interview"
        || stageIs (current_stage c) "User Interview" then 1 else 0)
  + (if stageIs (current_stage c) "Offering" then 1 else 0)
  = if inPipeline c then 1 else 0.
Proof.
  unfold inPipeline, stageIs. destruct (current_stage c) as [s|]; [|reflexivity].
  destruct (String.eqb_spec s "Screening") as [->|H1]; [reflexivity|].
  destruct (String.eqb_spec s "HR Interview") as [->|H2]; [reflexivity|].
  destruct (String.eqb_spec s "User Interview") as [->|H3]; [reflexivity|].
  destruct (String.eqb_spec s "Offering") as [->|H4]; reflexivity.
Qed.

(** X5.  [calculateRecruitmentStats] counts a candidate once when the
    stage is Screening, HR Interview, User Interview or Offering (the two
    interviews under one counter) and not at all otherwise: the three
    counters add up to the number of candidates in those four stages, and
    to the number of all candidates exactly when no candidate is in
    another stage or without one. *)
Theorem calculateRecruitmentStats_counts (recruitmentData : list Candidate) :
  let s := calculateRecruitmentStats recruitmentData in
  screening s + interview s + offering s = countIf inPipeline recruitmentData
  /\ screening s + interview s + offering s
     <= Z.of_nat (List.length recruitmentData)
  /\ (screening s + interview s + offering s = Z.of_nat (List.length recruitmentData)
      <-> forall c, In c recruitmentData -> inPipeline c = true)
  /\ interview s
     = countIf (fun c => stageIs (current_stage c) "HR Interview") recruitmentData
       + countIf (fun c => stageIs (current_stage c) "User Interview") recruitmentData.
Proof.
  cbv zeta.
  destruct (recruitment_loop recruitmentData (mkRecruitmentStats 0 0 0))
    as (Hs & Hi & Ho).
  fold (calculateRecruitmentStats recruitmentData) in Hs, Hi, Ho.
  cbn [screening interview offering] in Hs, Hi, Ho.
  rewrite Hs, Hi, Ho. clear Hs Hi Ho.
  assert (Hsum : countIf (fun c => stageIs (current_stage c) "Screening") recruitmentData
                 + countIf (fun c => stageIs (current_stage c) "HR Interview"
                                     || stageIs (current_stage c) "User Interview")
                           recruitmentData
                 + countIf (fun c => stageIs (current_stage c) "Offering") recruitmentData
                 = countIf inPipeline recruitmentData).
  { induction recruitmentData as [|c l IH]; [reflexivity|].
    rewrite !countIf_cons. pose proof (stage_tests_exclusive c). lia. }
  assert (Hle : countIf inPipeline recruitmentData
                + countIf (fun c => negb (inPipeline c)) recruitmentData
                = Z.of_nat (List.length recruitmentData)).
  { induction recruitmentData as [|c l IH]; [reflexivity|].
    rewrite !countIf_cons. cbn [List.length]. rewrite Nat2Z.inj_succ.
    assert (countIf (fun c => stageIs (current_stage c) "Screening") l
            + countIf (fun c => stageIs (current_stage c) "HR Interview"
                                || stageIs (current_stage c) "User Interview") l
            + countIf (fun c => stageIs (current_stage c) "Offering") l
            = countIf inPipeline l).
    { clear. induction l as [|c l IH]; [reflexivity|].
      rewrite !countIf_cons. pose proof (stage_tests_exclusive c). lia. }
    specialize (IH H). destruct (inPipeline c); cbn [negb]; lia. }
  pose proof (countIf_nonneg (fun c => negb (inPipeline c)) recruitmentData) as Hnn.
  split; [lia|]. split; [lia|]. split.
  - split.
    + intros Heq c Hc. destruct (inPipeline c) eqn:E; [reflexivity|].
      assert (0 < countIf (fun c => negb (inPipeline c)) recruitmentData).
      { apply countIf_pos_iff. exists c. split; [exact Hc | now rewrite E]. }
      lia.
    + intros Hall.
      assert (countIf (fun c => negb (inPipeline c)) recruitmentData = 0).
      { apply countIf_none. apply Forall_forall. intros c Hc.
        now rewrite (Hall c Hc). }
      lia.
  - clear. induction recruitmentData as [|c l IH]; [reflexivity|].
    rewrite !countIf_cons. unfold stageIs in *.
    destruct (current_stage c) as [s|]; [|cbn [orb]; lia].
    destruct (String.eqb_spec s "HR Interview") as [->|H2].
    + change (String.eqb "HR Interview" "User Interview") with false.
      cbn [orb]; lia.
    + destruct (String.eqb s "User Interview"); cbn [orb]; lia.
Qed.

(** ** Men and women *)

Lemma stats_loop_gender (l : list Employee) (s : EmployeeStats) :
  let s' := forEach statsBody l s in
  totalMale s' = totalMale s + countIf isMale l
  /\ totalFemale s' = totalFemale s + countIf isFemale l
  /\ activeMale s' = activeMale s
                     + countIf (fun e => isActiveNotResigned e && isMale e) l
  /\ activeFemale s' = activeFemale s
                       + countIf (fun e => isActiveNotResigned e && isFemale e) l
  /\ inactiveMale s' = inactiveMale s + countIf (fun e => isInactive e && isMale e) l
  /\ inactiveFemale s' = inactiveFemale s
                         + countIf (fun e => isInactive e && isFemale e) l.
Proof.
  unfold forEach. revert s; induction l as [|e l IH]; intros s.
  - cbn [fold_left]. rewrite !countIf_nil. cbv zeta. lia.
  - cbn [fold_left].
    destruct (IH (statsBody s e)) as (H1 & H2 & H3 & H4 & H5 & H6).
    cbv zeta. rewrite H1, H2, H3, H4, H5, H6, !countIf_cons.
    unfold statsBody, incr, isActiveNotResigned, isInactive, isMale, isFemale.
    cbn [totalMale totalFemale activeMale activeFemale inactiveMale inactiveFemale].
    destruct (is_active e), (is_resigned e),
             (String.eqb (gender e) "Male"), (String.eqb (gender e) "Female");
      cbn [andb negb]; lia.
Qed.

Lemma male_not_female (e : Employee) : isMale e && isFemale e = false.
Proof.
  unfold isMale, isFemale.
  destruct (String.eqb_spec (gender e) "Male") as [->|H]; reflexivity.
Qed.

Lemma countIf_split {A : Type} (p m f : A -> bool) (l : list A) :
  (forall x, m x && f x = false) ->
  countIf (fun x => p x && m x) l + countIf (fun x => p x && f x) l
  + countIf (fun x => p x && negb (m x || f x)) l
  = countIf p l.
Proof.
  intros Hex. induction l as [|x l IH]; [reflexivity|].
  rewrite !countIf_cons. specialize (Hex x).
  destruct (p x), (m x), (f x); cbn [andb orb negb] in *; try discriminate; lia.
Qed.

(** X6.  In [calculateEmployeeStats] the gender counters split each head
    count without overlap: men plus women never exceed the total, the
    active or the inactive count, and what is missing from each is the
    number of employees of that group whose gender is neither "Male" nor
    "Female" (the comparison is exact, so "male" or a missing gender is in
    neither counter). *)
Theorem calculateEmployeeStats_gender (employees : list Employee) :
  let s := calculateEmployeeStats employees in
  let other := fun e => negb (String.eqb (gender e) "Male"
                                || String.eqb (gender e) "Female") in
  totalMale s + totalFemale s + countIf other employees = totalEmployees s
  /\ activeMale s + activeFemale s
     + countIf (fun e => (is_active e && negb (is_resigned e)) && other e) employees
     = activeEmployees s
  /\ inactiveMale s + inactiveFemale s
     + countIf (fun e => negb (is_active e) && other e) employees
     = inactiveEmployees s
  /\ totalMale s + totalFemale s <= totalEmployees s
  /\ activeMale s + activeFemale s <= activeEmployees s
  /\ inactiveMale s + inactiveFemale s <= inactiveEmployees s.
Proof.
  cbv zeta.
  destruct (stats_loop employees (mkStats 0 0 0 0 0 0 0 0 0)) as (Ht & Ha & Hi).
  destruct (stats_loop_gender employees (mkStats 0 0 0 0 0 0 0 0 0))
    as (H1 & H2 & H3 & H4 & H5 & H6).
  fold (calculateEmployeeStats employees) in Ht, Ha, Hi, H1, H2, H3, H4, H5, H6.
  cbn [totalEmployees activeEmployees inactiveEmployees totalMale totalFemale
       activeMale activeFemale inactiveMale inactiveFemale]
    in Ht, Ha, Hi, H1, H2, H3, H4, H5, H6.
  rewrite Ht, Ha, Hi, H1, H2, H3, H4, H5, H6.
  pose proof (countIf_split (fun _ => true) isMale isFemale employees male_not_female)
    as Sall.
  pose proof (countIf_split isActiveNotResigned isMale isFemale employees
                male_not_female) as Sact.
  pose proof (countIf_split isInactive isMale isFemale employees male_not_female)
    as Sina.
  cbn [andb] in Sall.
  assert (Hlen : countIf (fun _ : Employee => true) employees
                 = Z.of_nat (List.length employees)).
  { unfold countIf. do 2 f_equal. apply forallb_filter_id.
    apply forallb_forall. reflexivity. }
  pose proof (countIf_nonneg (fun e => negb (isMale e || isFemale e)) employees).
  pose proof (countIf_nonneg
                (fun e => isActiveNotResigned e && negb (isMale e || isFemale e))
                employees).
  pose proof (countIf_nonneg
                (fun e => isInactive e && negb (isMale e || isFemale e)) employees).
  unfold isActiveNotResigned, isInactive, isMale, isFemale in *.
  repeat split; lia.
Qed.

Lemma countIf_and_le {A : Type} (p q : A -> bool) (l : list A) :
  countIf (fun x => p x && q x) l <= countIf p l.
Proof.
  induction l as [|x l IH]; [reflexivity|].
  rewrite !countIf_cons. destruct (p x), (q x); cbn [andb]; lia.
Qed.

Lemma countIf_filter {A : Type} (p q : A -> bool) (l : list A) :
  countIf q (filter p l) = countIf (fun x => p x && q x) l.
Proof.
  induction l as [|x l IH]; [reflexivity|].
  cbn [filter]. destruct (p x) eqn:E; rewrite ?countIf_cons, ?E, IH; cbn [andb]; lia.
Qed.

(** ** Sorting with any comparator *)

Section SortAny.
Context {A : Type} (cmp : A -> A -> Z).

Lemma insertSorted_permutation (a : A) (l : list A) :
  Permutation (a :: l) (insertSorted cmp a l).
Proof.
  induction l as [|b r IH]; simpl; [apply Permutation_refl|].
  destruct (cmp b a <? 0).
  - eapply perm_trans; [apply perm_swap|]. now apply perm_skip.
  - apply Permutation_refl.
Qed.

Lemma Array_sort_permutation (l : list A) : Permutation l (Array_sort cmp l).
Proof.
  induction l as [|a l IH]; simpl; [constructor|].
  eapply perm_trans; [apply perm_skip, IH | apply insertSorted_permutation].
Qed.

Lemma Array_sort_Forall (P : A -> Prop) (l : list A) :
  Forall P l -> Forall P (Array_sort cmp l).
Proof. apply Permutation_Forall, Array_sort_permutation. Qed.

Lemma Array_sort_In (x : A) (l : list A) : In x (Array_sort cmp l) <-> In x l.
Proof.
  split; apply Permutation_in;
    [apply Permutation_sym|]; apply Array_sort_permutation.
Qed.

Lemma Array_sort_length (l : list A) : List.length (Array_sort cmp l) = List.length l.
Proof. symmetry. apply Permutation_length, Array_sort_permutation. Qed.

(** Where the comparator orders the elements of the list by a key, the
    result ascends in that key. *)
Variable key : A -> Z.
Variable P : A -> Prop.
Hypothesis cmp_key : forall a b, P a -> P b -> (cmp a b <? 0) = (key a <? key b).

Lemma insertSorted_ascending (a : A) (l : list A) :
  P a -> Forall P l ->
  StronglySorted (fun x y => key x <= key y) l ->
  StronglySorted (fun x y => key x <= key y) (insertSorted cmp a l).
Proof.
  intros Pa Pl Hs. induction Hs as [|b r Hs IH Hb]; simpl.
  - repeat constructor.
  - inversion Pl as [|? ? Pb Pr]; subst.
    rewrite (cmp_key b a Pb Pa). destruct (Z.ltb_spec (key b) (key a)) as [Hlt|Hge].
    + constructor; [now apply IH|].
      eapply Permutation_Forall; [apply insertSorted_permutation|].
      constructor; [lia | exact Hb].
    + constructor; [now constructor|].
      constructor; [lia|].
      eapply Forall_impl; [|exact Hb]. simpl; intros; lia.
Qed.

Lemma Array_sort_ascending (l : list A) :
  Forall P l -> StronglySorted (fun x y => key x <= key y) (Array_sort cmp l).
Proof.
  induction 1 as [|a l Pa Pl IH]; simpl; [constructor|].
  apply insertSorted_ascending; [exact Pa | now apply Array_sort_Forall | exact IH].
Qed.

End SortAny.

(** ** Objects used as maps *)

Lemma getOwn_setOwn_eq {V : Type} (o : JsObject V) (k : string) (v : V) :
  getOwn (setOwn o k v) k = Some v.
Proof.
  induction o as [|[k' v'] r IH]; simpl.
  - now rewrite String.eqb_refl.
  - destruct (String.eqb k' k) eqn:E; simpl; rewrite E; [reflexivity | exact IH].
Qed.

Lemma getOwn_setOwn_ne {V : Type} (o : JsObject V) (k k' : string) (v : V) :
  k <> k' -> getOwn (setOwn o k v) k' = getOwn o k'.
Proof.
  intros Hne. induction o as [|[k0 v0] r IH]; simpl.
  - destruct (String.eqb_spec k k'); [contradiction | reflexivity].
  - destruct (String.eqb_spec k0 k) as [->|Hk]; simpl.
    + destruct (String.eqb_spec k k'); [contradiction | reflexivity].
    + destruct (String.eqb k0 k'); [reflexivity | exact IH].
Qed.

Lemma getOwn_In {V : Type} (o : JsObject V) (k : string) :
  In k (map fst o) <-> getOwn o k <> None.
Proof.
  induction o as [|[k' v'] r IH]; simpl; [tauto|].
  destruct (String.eqb_spec k' k) as [->|Hk].
  - split; [discriminate | auto].
  - rewrite <- IH. split; [intros [H|H]; [contradiction | exact H] | auto].
Qed.

Lemma keys_setOwn {V : Type} (o : JsObject V) (k : string) (v : V) :
  map fst (setOwn o k v)
  = match getOwn o k with Some _ => map fst o | None => map fst o ++ [k] end.
Proof.
  induction o as [|[k' v'] r IH]; simpl; [reflexivity|].
  destruct (String.eqb k' k); simpl; [reflexivity|].
  rewrite IH. now destruct (getOwn r k).
Qed.

Lemma NoDup_setOwn {V : Type} (o : JsObject V) (k : string) (v : V) :
  NoDup (map fst o) -> NoDup (map fst (setOwn o k v)).
Proof.
  intros Hnd. rewrite keys_setOwn. destruct (getOwn o k) eqn:E; [exact Hnd|].
  apply NoDup_app; [exact Hnd | repeat constructor; simpl; tauto |].
  intros x Hx [<-|[]]. apply getOwn_In in Hx. contradiction.
Qed.

Lemma sumCounts_setOwn (o : JsObject DeptCount) (k : string) (v : DeptCount) :
  sumCounts (setOwn o k v)
  = sumCounts o + count v
    - match getOwn o k with Some c => count c | None => 0 end.
Proof.
  induction o as [|[k' v'] r IH]; simpl; [lia|].
  destruct (String.eqb k' k); simpl; [lia | rewrite IH; lia].
Qed.

Lemma sumCounts_perm (a b : list (string * DeptCount)) :
  Permutation a b -> sumCounts a = sumCounts b.
Proof. induction 1; simpl; lia. Qed.

Lemma departmentTotal_sum (l : list (string * DeptCount)) :
  departmentTotal l = sumCounts l.
Proof.
  unfold departmentTotal.
  assert (H : forall s, fold_left (fun sum d => sum + count (snd d)) l s
                        = s + sumCounts l).
  { induction l as [|d l IH]; intros s; simpl; [lia | rewrite IH; lia]. }
  rewrite H. lia.
Qed.

Lemma filter_partition_perm {A : Type} (p : A -> bool) (l : list A) :
  Permutation (filter p l ++ filter (fun x => negb (p x)) l) l.
Proof.
  induction l as [|x l IH]; simpl; [constructor|].
  destruct (p x); simpl.
  - now constructor.
  - apply Permutation_sym. eapply perm_trans.
    + apply perm_skip, Permutation_sym, IH.
    + apply Permutation_middle.
Qed.

Lemma Object_entries_perm {V : Type} (o : JsObject V) :
  Permutation (Object_entries o) o.
Proof.
  unfold Object_entries. eapply perm_trans; [|apply filter_partition_perm].
  apply Permutation_app_tail, Permutation_sym, Array_sort_permutation.
Qed.

(** ** The department breakdown *)

(** One step of the loop, seen from the label [n]. *)
Lemma deptBody_getOwn (b : JsObject DeptCount) (e : EmployeeRow) (n : string) :
  getOwn (deptBody b e) n
  = if negb (onObjectPrototype n) && String.eqb (deptNameOf e) n
    then let c := match getOwn b n with
                  | Some c => c
                  | None => {| count := 0; male := 0; female := 0 |}
                  end in
         Some {| count := count c + 1;
                 male := incr (rowIsMale e) (male c);
                 female := incr (rowIsFemale e) (female c) |}
    else getOwn b n.
Proof.
  unfold deptBody, rowIsMale, rowIsFemale.
  destruct (String.eqb_spec (deptNameOf e) n) as [<-|Hne].
  - destruct (onObjectPrototype (deptNameOf e)); cbn [negb andb]; [reflexivity|].
    destruct (getOwn b (deptNameOf e)) as [c|] eqn:E.
    + rewrite E. apply getOwn_setOwn_eq.
    + rewrite getOwn_setOwn_eq. apply getOwn_setOwn_eq.
  - rewrite andb_false_r.
    destruct (onObjectPrototype (deptNameOf e)); [reflexivity|].
    destruct (getOwn b (deptNameOf e)) as [c|] eqn:E.
    + rewrite E. now apply getOwn_setOwn_ne.
    + rewrite getOwn_setOwn_eq.
      rewrite getOwn_setOwn_ne by exact Hne. now apply getOwn_setOwn_ne.
Qed.

Lemma deptBody_NoDup (b : JsObject DeptCount) (e : EmployeeRow) :
  NoDup (map fst b) -> NoDup (map fst (deptBody b e)).
Proof.
  intros Hnd. unfold deptBody.
  destruct (onObjectPrototype (deptNameOf e)); [exact Hnd|].
  destruct (getOwn b (deptNameOf e)) as [c|] eqn:E.
  - rewrite E. now apply NoDup_setOwn.
  - rewrite getOwn_setOwn_eq. now apply NoDup_setOwn, NoDup_setOwn.
Qed.

Lemma deptBody_sum (b : JsObject DeptCount) (e : EmployeeRow) :
  sumCounts (deptBody b e)
  = sumCounts b + if onObjectPrototype (deptNameOf e) then 0 else 1.
Proof.
  unfold deptBody.
  destruct (onObjectPrototype (deptNameOf e)); [lia|].
  destruct (getOwn b (deptNameOf e)) as [c|] eqn:E.
  - rewrite E, sumCounts_setOwn, E. cbn [count]. lia.
  - rewrite getOwn_setOwn_eq, !sumCounts_setOwn, getOwn_setOwn_eq, E.
    cbn [count]. lia.
Qed.

(** The whole loop, seen from the label [n]. *)
Lemma deptLoop_getOwn (l : list EmployeeRow) (b : JsObject DeptCount) (n : string) :
  onObjectPrototype n = false ->
  getOwn (forEach deptBody l b) n
  = if countIf (fun e => String.eqb (deptNameOf e) n) l =? 0 then getOwn b n
    else let c := match getOwn b n with
                  | Some c => c
                  | None => {| count := 0; male := 0; female := 0 |}
                  end in
         Some {| count := count c + countIf (fun e => String.eqb (deptNameOf e) n) l;
                 male := male c + countIf (fun e => String.eqb (deptNameOf e) n
                                                    && rowIsMale e) l;
                 female := female c + countIf (fun e => String.eqb (deptNameOf e) n
                                                        && rowIsFemale e) l |}.
Proof.
  intros Hn. unfold forEach. revert b. induction l as [|e l IH]; intros b.
  - reflexivity.
  - cbn [fold_left]. rewrite IH, deptBody_getOwn, Hn, !countIf_cons. cbn [negb andb].
    pose proof (countIf_nonneg (fun e => String.eqb (deptNameOf e) n) l) as Hnn.
    destruct (String.eqb (deptNameOf e) n); cbn [andb].
    + destruct (Z.eqb_spec (1 + countIf (fun e => String.eqb (deptNameOf e) n) l) 0)
        as [H0|_]; [lia|].
      destruct (Z.eqb_spec (countIf (fun e => String.eqb (deptNameOf e) n) l) 0)
        as [Hz|Hz].
      * cbv zeta. f_equal.
        assert (Hm : countIf (fun e => String.eqb (deptNameOf e) n && rowIsMale e) l = 0).
        { pose proof (countIf_nonneg
                        (fun e => String.eqb (deptNameOf e) n && rowIsMale e) l).
          pose proof (countIf_and_le (fun e => String.eqb (deptNameOf e) n) rowIsMale l)
            as Hle.
          cbv beta in Hle. lia. }
        assert (Hf : countIf (fun e => String.eqb (deptNameOf e) n && rowIsFemale e) l = 0).
        { pose proof (countIf_nonneg
                        (fun e => String.eqb (deptNameOf e) n && rowIsFemale e) l).
          pose proof (countIf_and_le (fun e => String.eqb (deptNameOf e) n) rowIsFemale l)
            as Hle.
          cbv beta in Hle. lia. }
        rewrite Hz, Hm, Hf. unfold incr.
        destruct (rowIsMale e), (rowIsFemale e); f_equal; lia.
      * cbv zeta. cbn [count male female]. unfold incr. f_equal.
        destruct (rowIsMale e), (rowIsFemale e); f_equal; lia.
    + rewrite !Z.add_0_l. reflexivity.
Qed.

Lemma StronglySorted_weaken {A : Type} (R R' : A -> A -> Prop) (l : list A) :
  (forall a b, R a b -> R' a b) -> StronglySorted R l -> StronglySorted R' l.
Proof.
  intros HR. induction 1 as [|a l Hs IH Ha]; constructor; [exact IH|].
  eapply Forall_impl; [|exact Ha]. intros b. apply HR.
Qed.

Lemma deptLoop_getOwn_prototype (l : list EmployeeRow) (b : JsObject DeptCount)
      (n : string) :
  onObjectPrototype n = true -> getOwn (forEach deptBody l b) n = getOwn b n.
Proof.
  intros Hn. unfold forEach. revert b. induction l as [|e l IH]; intros b.
  - reflexivity.
  - cbn [fold_left]. rewrite IH, deptBody_getOwn, Hn. reflexivity.
Qed.

Lemma deptLoop_NoDup (l : list EmployeeRow) (b : JsObject DeptCount) :
  NoDup (map fst b) -> NoDup (map fst (forEach deptBody l b)).
Proof.
  unfold forEach. revert b. induction l as [|e l IH]; intros b Hb; [exact Hb|].
  cbn [fold_left]. now apply IH, deptBody_NoDup.
Qed.

Lemma deptLoop_sum (l : list EmployeeRow) (b : JsObject DeptCount) :
  sumCounts (forEach deptBody l b)
  = sumCounts b + countIf (fun e => negb (onObjectPrototype (deptNameOf e))) l.
Proof.
  unfold forEach. revert b. induction l as [|e l IH]; intros b.
  - rewrite countIf_nil. cbn [fold_left]. lia.
  - cbn [fold_left]. rewrite IH, deptBody_sum, countIf_cons.
    destruct (onObjectPrototype (deptNameOf e)); cbn [negb]; lia.
Qed.

(** The entry that [calculateDepartmentBreakdown] holds under [n]. *)
Lemma breakdown_getOwn (employees : list EmployeeRow) (n : string) :
  getOwn (calculateDepartmentBreakdown employees) n
  = if onObjectPrototype n || (countIf (inDepartment n) employees =? 0) then None
    else Some {| count := countIf (inDepartment n) employees;
                 male := countIf (fun e => inDepartment n e && rowIsMale e) employees;
                 female := countIf (fun e => inDepartment n e && rowIsFemale e)
                                   employees |}.
Proof.
  unfold calculateDepartmentBreakdown. cbv zeta.
  fold countedRow.
  change (fun e : EmployeeRow => is_active (fields e) && negb (is_resigned (fields e)))
    with countedRow.
  destruct (onObjectPrototype n) eqn:Hn; cbn [orb].
  - now rewrite deptLoop_getOwn_prototype.
  - rewrite deptLoop_getOwn by exact Hn. rewrite !countIf_filter.
    cbn [getOwn count male female]. rewrite !Z.add_0_l.
    assert (E1 : countIf (fun x => countedRow x && String.eqb (deptNameOf x) n) employees
                 = countIf (inDepartment n) employees) by reflexivity.
    assert (E2 : countIf (fun x => countedRow x
                                   && (String.eqb (deptNameOf x) n && rowIsMale x))
                         employees
                 = countIf (fun e => inDepartment n e && rowIsMale e) employees).
    { unfold countIf. do 2 f_equal. apply filter_ext. intros e.
      unfold inDepartment. now rewrite andb_assoc. }
    assert (E3 : countIf (fun x => countedRow x
                                   && (String.eqb (deptNameOf x) n && rowIsFemale x))
                         employees
                 = countIf (fun e => inDepartment n e && rowIsFemale e) employees).
    { unfold countIf. do 2 f_equal. apply filter_ext. intros e.
      unfold inDepartment. now rewrite andb_assoc. }
    rewrite E1, E2, E3. reflexivity.
Qed.

Lemma breakdown_NoDup (employees : list EmployeeRow) :
  NoDup (map fst (calculateDepartmentBreakdown employees)).
Proof. apply deptLoop_NoDup. constructor. Qed.

Lemma breakdown_sum (employees : list EmployeeRow) :
  sumCounts (calculateDepartmentBreakdown employees)
  = countIf (fun e => countedRow e && negb (onObjectPrototype (deptNameOf e)))
            employees.
Proof.
  unfold calculateDepartmentBreakdown. cbv zeta.
  rewrite deptLoop_sum. cbn [sumCounts fold_right]. rewrite Z.add_0_l.
  apply countIf_filter.
Qed.

Lemma getOwn_of_In {V : Type} (o : JsObject V) (k : string) (v : V) :
  NoDup (map fst o) -> In (k, v) o -> getOwn o k = Some v.
Proof.
  induction o as [|[k' v'] r IH]; simpl; [tauto|].
  intros Hnd [Heq|Hin].
  - inversion Heq; subst. now rewrite String.eqb_refl.
  - inversion Hnd as [|? ? Hk Hr]; subst.
    destruct (String.eqb_spec k' k) as [->|Hne].
    + exfalso. apply Hk. apply in_map_iff. now exists (k, v).
    + now apply IH.
Qed.

Lemma breakdown_entry_bounds (employees : list EmployeeRow) (d : string * DeptCount) :
  In d (calculateDepartmentBreakdown employees) ->
  onObjectPrototype (fst d) = false
  /\ count (snd d) = countIf (inDepartment (fst d)) employees
  /\ 1 <= count (snd d)
  /\ 0 <= male (snd d) /\ 0 <= female (snd d)
  /\ male (snd d) + female (snd d) <= count (snd d).
Proof.
  destruct d as [n c]. intros Hin. cbn [fst snd].
  pose proof (getOwn_of_In _ n c (breakdown_NoDup employees) Hin) as Hg.
  rewrite breakdown_getOwn in Hg.
  destruct (onObjectPrototype n); [discriminate|]. cbn [orb] in Hg.
  destruct (Z.eqb_spec (countIf (inDepartment n) employees) 0) as [Hz|Hz];
    [discriminate|].
  inversion Hg; subst c; cbn [count male female]. clear Hg.
  pose proof (countIf_nonneg (inDepartment n) employees).
  pose proof (countIf_nonneg (fun e => inDepartment n e && rowIsMale e) employees).
  pose proof (countIf_nonneg (fun e => inDepartment n e && rowIsFemale e) employees).
  pose proof (countIf_split (inDepartment n) rowIsMale rowIsFemale employees) as Hs.
  pose proof (countIf_nonneg
                (fun e => inDepartment n e && negb (rowIsMale e || rowIsFemale e))
                employees).
  assert (Hex : forall x, rowIsMale x && rowIsFemale x = false).
  { intros x. unfold rowIsMale, rowIsFemale.
    destruct (String.eqb_spec (gender (fields x)) "Male") as [->|]; reflexivity. }
  specialize (Hs Hex). repeat split; lia.
Qed.

(** X7.  What [calculateDepartmentBreakdown] holds under a department
    label: nothing when the label names a member of [Object.prototype]
    (such as "constructor" or "toString") or when no active, non-resigned
    employee carries it; otherwise the number of those employees, and of
    the men and of the women among them. *)
Theorem calculateDepartmentBreakdown_entry (employees : list EmployeeRow) (n : string) :
  getOwn (calculateDepartmentBreakdown employees) n
  = if onObjectPrototype n || (countIf (inDepartment n) employees =? 0) then None
    else Some {| count := countIf (inDepartment n) employees;
                 male := countIf (fun e => inDepartment n e && rowIsMale e) employees;
                 female := countIf (fun e => inDepartment n e && rowIsFemale e)
                                   employees |}.
Proof. exact (breakdown_getOwn employees n). Qed.

(** X8.  The breakdown has one entry per label: no label twice, a label
    present exactly when it is not a member of [Object.prototype] and some
    active, non-resigned employee carries it; every entry counts at least
    one employee, and its men and women together never exceed its count. *)
Theorem calculateDepartmentBreakdown_keys (employees : list EmployeeRow) :
  let breakdown := calculateDepartmentBreakdown employees in
  NoDup (map fst breakdown)
  /\ (forall n, In n (map fst breakdown)
                <-> onObjectPrototype n = false
                    /\ exists e, In e employees /\ inDepartment n e = true)
  /\ Forall (fun d => 1 <= count (snd d)
                      /\ 0 <= male (snd d) /\ 0 <= female (snd d)
                      /\ male (snd d) + female (snd d) <= count (snd d)) breakdown.
Proof.
  cbv zeta. split; [apply breakdown_NoDup|]. split.
  - intros n. rewrite getOwn_In, breakdown_getOwn, <- countIf_pos_iff.
    pose proof (countIf_nonneg (inDepartment n) employees).
    destruct (onObjectPrototype n); cbn [orb].
    + split; [congruence | intros [? _]; discriminate].
    + destruct (Z.eqb_spec (countIf (inDepartment n) employees) 0).
      * split; [congruence | intros [_ ?]; lia].
      * split; [intros _; split; [reflexivity | lia] | discriminate].
  - apply Forall_forall. intros d Hd.
    destruct (breakdown_entry_bounds employees d Hd) as (_ & _ & H1 & H2 & H3 & H4).
    auto.
Qed.

(** X9.  The rows of the department widget are the entries of the
    breakdown, each once, in descending order of their count; that holds
    for any breakdown object. *)
Theorem sortedDepartments_descending (breakdown : JsObject DeptCount) :
  Permutation (sortedDepartments breakdown) breakdown
  /\ StronglySorted (fun a b => count (snd b) <= count (snd a))
                    (sortedDepartments breakdown).
Proof.
  unfold sortedDepartments. split.
  - eapply perm_trans; [|apply Object_entries_perm].
    apply Permutation_sym, Array_sort_permutation.
  - pose proof (Array_sort_ascending
                  (fun a b : string * DeptCount => count (snd b) - count (snd a))
                  (fun a => - count (snd a)) (fun _ => True)) as Hs.
    cbv beta in Hs.
    assert (Hk : forall a b : string * DeptCount, True -> True ->
                 (count (snd b) - count (snd a) <? 0)
                 = (- count (snd a) <? - count (snd b))).
    { intros a b _ _.
      destruct (Z.ltb_spec (count (snd b) - count (snd a)) 0),
               (Z.ltb_spec (- count (snd a)) (- count (snd b))); lia || reflexivity. }
    specialize (Hs Hk (Object_entries breakdown)).
    eapply StronglySorted_weaken; [|apply Hs; apply Forall_forall; auto].
    cbv beta. intros a b Hab. lia.
Qed.

(** X10.  The [total] of the department widget is the number of active,
    non-resigned employees whose label is not a member of
    [Object.prototype]; every row shown has a count between 1 and that
    total, so the total is positive whenever a row is shown and the
    fallback [: 0] of the percentage is never taken. *)
Theorem departmentTotal_counts (employees : list EmployeeRow) :
  let departments := sortedDepartments (calculateDepartmentBreakdown employees) in
  let total := departmentTotal departments in
  total = countIf (fun e => countedRow e && negb (onObjectPrototype (deptNameOf e)))
                  employees
  /\ Forall (fun d => 1 <= count (snd d) <= total
                      /\ exists text, departmentPercentage total (snd d) = RateText text)
            departments.
Proof.
  cbv zeta.
  assert (Hperm : Permutation (sortedDepartments (calculateDepartmentBreakdown employees))
                              (calculateDepartmentBreakdown employees)).
  { unfold sortedDepartments. eapply perm_trans; [|apply Object_entries_perm].
    apply Permutation_sym, Array_sort_permutation. }
  rewrite departmentTotal_sum, (sumCounts_perm _ _ Hperm), breakdown_sum.
  split; [reflexivity|].
  apply Forall_forall. intros d Hd.
  apply (Permutation_in _ Hperm) in Hd.
  destruct (breakdown_entry_bounds employees d Hd) as (Hp & Hc & H1 & _).
  assert (Hle : countIf (inDepartment (fst d)) employees
                <= countIf (fun e => countedRow e
                                     && negb (onObjectPrototype (deptNameOf e)))
                           employees).
  { clear - Hp. induction employees as [|e l IH]; [reflexivity|].
    rewrite !countIf_cons. unfold inDepartment at 1.
    destruct (countedRow e); cbn [andb]; [|exact IH].
    destruct (String.eqb_spec (deptNameOf e) (fst d)) as [->|_].
    - rewrite Hp. cbn [negb]. lia.
    - destruct (negb (onObjectPrototype (deptNameOf e))); lia. }
  split; [lia|].
  unfold departmentPercentage.
  destruct (Z.ltb_spec 0 (countIf (fun e => countedRow e
                                            && negb (onObjectPrototype (deptNameOf e)))
                                  employees)) as [_|H0]; [eauto | lia].
Qed.

(** X11.  Where no employee's department label is a member of
    [Object.prototype], the counts of the breakdown add up to the
    [activeEmployees] of [calculateEmployeeStats] on the same employees. *)
Theorem breakdown_adds_up_to_active (employees : list EmployeeRow) :
  (forall e, In e employees -> onObjectPrototype (deptNameOf e) = false) ->
  sumCounts (calculateDepartmentBreakdown employees)
  = activeEmployees (calculateEmployeeStats (map fields employees)).
Proof.
  intros Hall. rewrite breakdown_sum.
  destruct (stats_loop (map fields employees) (mkStats 0 0 0 0 0 0 0 0 0))
    as (_ & Ha & _).
  fold (calculateEmployeeStats (map fields employees)) in Ha.
  cbn [activeEmployees] in Ha. rewrite Ha, Z.add_0_l. clear Ha.
  induction employees as [|e l IH]; [reflexivity|].
  cbn [map]. rewrite !countIf_cons, IH by (intros x Hx; apply Hall; now right).
  rewrite (Hall e) by now left.
  unfold countedRow, isActiveNotResigned. now rewrite andb_true_r.
Qed.

Lemma breakdown_adds_up_to_active_witness :
  sumCounts (calculateDepartmentBreakdown fourRows)
  = activeEmployees (calculateEmployeeStats (map fields fourRows)).
Proof.
  apply (breakdown_adds_up_to_active fourRows).
  intros e He. simpl in He.
  destruct He as [<-|[<-|[<-|[<-|[]]]]]; reflexivity.
Defined.

(** ** From a civil date to its day number and back *)

Lemma DayFromYear_mono (a b : Z) : a <= b -> DayFromYear a <= DayFromYear b.
Proof. intros H. unfold DayFromYear. Z.to_euclidean_division_equations. lia. Qed.

Lemma DayFromYear_lt (a b : Z) : a < b -> DayFromYear a < DayFromYear b.
Proof.
  intros H. pose proof (DayFromYear_mono (a + 1) b ltac:(lia)).
  pose proof (DayFromYear_succ a). destruct (InLeapYear a); lia.
Qed.

Lemma YearFromDay_unique (y D : Z) :
  DayFromYear y <= D < DayFromYear (y + 1) -> YearFromDay D = y.
Proof.
  intros H. pose proof (YearFromDay_spec D) as Hs.
  destruct (Z.lt_trichotomy (YearFromDay D) y) as [Hlt|[Heq|Hgt]]; [|exact Heq|].
  - pose proof (DayFromYear_mono (YearFromDay D + 1) y ltac:(lia)). lia.
  - pose proof (DayFromYear_mono (y + 1) (YearFromDay D) ltac:(lia)). lia.
Qed.

Lemma month_cases (j : Z) :
  0 <= j <= 11 ->
  j = 0 \/ j = 1 \/ j = 2 \/ j = 3 \/ j = 4 \/ j = 5 \/ j = 6 \/ j = 7 \/ j = 8
  \/ j = 9 \/ j = 10 \/ j = 11.
Proof. lia. Qed.

Lemma daysInMonth_range (leap : bool) (j : Z) :
  0 <= j <= 11 -> 28 <= daysInMonth leap j <= 31.
Proof.
  intros Hj. apply month_cases in Hj.
  destruct leap; repeat (destruct Hj as [Hj|Hj]); subst j;
    vm_compute; split; discriminate.
Qed.

Lemma monthStart_mono (leap : bool) (a b : Z) :
  0 <= a -> a <= b -> b <= 12 -> monthStart leap a <= monthStart leap b.
Proof.
  intros Ha Hab Hb.
  replace b with (a + Z.of_nat (Z.to_nat (b - a))) in * by lia.
  induction (Z.to_nat (b - a)) as [|n IH]; [rewrite Z.add_0_r; lia|].
  rewrite Nat2Z.inj_succ in *.
  pose proof (daysInMonth_range leap (a + Z.of_nat n) ltac:(lia)) as Hs.
  unfold daysInMonth in Hs.
  replace (a + Z.succ (Z.of_nat n)) with (a + Z.of_nat n + 1) by lia.
  specialize (IH ltac:(lia) ltac:(lia)). lia.
Qed.

Lemma monthOfDay_found (leap : bool) (x : Z) (fuel : nat) (m0 m : Z) :
  m0 <= m <= m0 + Z.of_nat fuel ->
  (forall j, m0 <= j < m -> monthStart leap (j + 1) <= x) ->
  (m < m0 + Z.of_nat fuel -> x < monthStart leap (m + 1)) ->
  monthOfDay leap x fuel m0 = m.
Proof.
  revert m0. induction fuel as [|fuel IH]; intros m0 Hm Hlo Hhi; cbn [monthOfDay].
  - cbn in Hm. lia.
  - rewrite Nat2Z.inj_succ in *.
    destruct (Z.ltb_spec x (monthStart leap (m0 + 1))) as [Hlt|Hge].
    + destruct (Z.eq_dec m0 m) as [E|E]; [exact E|].
      specialize (Hlo m0 ltac:(lia)). lia.
    + destruct (Z.eq_dec m0 m) as [E|E].
      * subst m. specialize (Hhi ltac:(lia)). lia.
      * apply IH; [lia | intros j Hj; apply Hlo; lia | intros H; apply Hhi; lia].
Qed.

(** The month found for a day of the year is the one that contains it. *)
Lemma monthOfDay_at (leap : bool) (m x : Z) :
  0 <= m <= 11 -> monthStart leap m <= x < monthStart leap (m + 1) ->
  monthOfDay leap x 11 0 = m.
Proof.
  intros Hm Hx. apply monthOfDay_found.
  - cbn. lia.
  - intros j Hj. pose proof (monthStart_mono leap (j + 1) m ltac:(lia) ltac:(lia)
                               ltac:(lia)). lia.
  - intros _. lia.
Qed.

Lemma civil_of_MakeDay (y m d : Z) :
  0 <= m <= 11 -> 1 <= d <= daysInMonth (InLeapYear y) m ->
  YearFromDay (MakeDay y m d) = y
  /\ MonthFromDay (MakeDay y m d) = m
  /\ DateFromDay (MakeDay y m d) = d.
Proof.
  intros Hm Hd. unfold daysInMonth in Hd.
  assert (HD : MakeDay y m d = DayFromYear y + monthStart (InLeapYear y) m + d - 1).
  { unfold MakeDay. cbv zeta. now rewrite Z.div_small, Z.mod_small, Z.add_0_r by lia. }
  pose proof (monthStart_mono (InLeapYear y) 0 m ltac:(lia) ltac:(lia) ltac:(lia)) as H0.
  pose proof (monthStart_mono (InLeapYear y) (m + 1) 12 ltac:(lia) ltac:(lia)
                ltac:(lia)) as H12.
  change (monthStart (InLeapYear y) 0) with 0 in H0.
  assert (Hlen : monthStart (InLeapYear y) 12 = DayFromYear (y + 1) - DayFromYear y).
  { rewrite DayFromYear_succ. now destruct (InLeapYear y). }
  assert (Hy : YearFromDay (MakeDay y m d) = y).
  { apply YearFromDay_unique. lia. }
  assert (Hmo : MonthFromDay (MakeDay y m d) = m).
  { unfold MonthFromDay. rewrite Hy. apply monthOfDay_at; [exact Hm | lia]. }
  split; [exact Hy|]. split; [exact Hmo|].
  unfold DateFromDay. rewrite Hmo, Hy. lia.
Qed.

(** The civil date of any day number is a date of its month. *)
Lemma DateFromDay_range (D : Z) :
  1 <= DateFromDay D
    <= daysInMonth (InLeapYear (YearFromDay D)) (MonthFromDay D).
Proof.
  pose proof (DayWithinYear_range D) as Hx.
  set (leap := InLeapYear (YearFromDay D)) in *.
  set (x := D - DayFromYear (YearFromDay D)) in *.
  assert (H12 : monthStart leap 12 = if leap then 366 else 365) by now destruct leap.
  assert (Hex : exists m, 0 <= m <= 11 /\ monthStart leap m <= x < monthStart leap (m + 1)).
  { assert (Hgen : forall n : nat, (n <= 12)%nat -> x < monthStart leap (Z.of_nat n) ->
                   exists m, 0 <= m <= 11
                             /\ monthStart leap m <= x < monthStart leap (m + 1)).
    { induction n as [|n IH]; intros Hn Hlt.
      - change (monthStart leap (Z.of_nat 0)) with 0 in Hlt. lia.
      - destruct (Z.lt_ge_cases x (monthStart leap (Z.of_nat n))) as [Hl|Hg].
        + apply IH; [lia | exact Hl].
        + exists (Z.of_nat n). rewrite Nat2Z.inj_succ in Hlt.
          replace (Z.of_nat n + 1) with (Z.succ (Z.of_nat n)) by lia.
          split; [lia | split; [exact Hg | exact Hlt]]. }
    apply (Hgen 12%nat); [lia|]. change (Z.of_nat 12) with 12. destruct leap; lia. }
  destruct Hex as (m & Hm & Hmx).
  assert (Hmo : MonthFromDay D = m).
  { unfold MonthFromDay. fold leap x. now apply monthOfDay_at. }
  unfold DateFromDay, daysInMonth. fold leap x. rewrite Hmo. lia.
Qed.

(** ** Rule 2: birthdays *)

Lemma birthdayBody_steady_length (tz now : Z) (e : Employee) (k : nat) :
  let today := todayAt tz (steady now) 0%nat in
  List.length (fst (birthdayBody tz (steady now) [] e k))
  = if birthdayIsToday tz today e then 1%nat else 0%nat.
Proof.
  unfold birthdayBody, getBirthdayThisYear, isToday, getWIBDate, ret, push, bind,
    steady, birthdayIsToday, birthdayOf, todayAt, getWIBDate.
  cbn beta iota zeta.
  now destruct (dateStringEq _ _).
Qed.

Lemma birthday_count (tz now : Z) (employees : list Employee)
      (leaveData : list LeaveRequest) (k : nat) (e : Employee) :
  is_active e = true -> truthy (birth_date e) = true ->
  countIf (isAbout birthday e)
          (fst (generateCriticalAlerts tz (steady now) employees leaveData k))
  = if birthdayIsToday tz (todayAt tz (steady now) k) e
    then occurrences employees e else 0.
Proof.
  intros Hact Hbirth.
  rewrite (count_out_typed tz (steady now) employees leaveData k _ birthday)
    by (intros a Ha; now apply isAbout_true_iff in Ha).
  rewrite birthdayRun_steady, flat_map_filter.
  rewrite (countIf_about_flat_map birthday).
  - rewrite Hact, Hbirth. cbn [andb].
    rewrite birthdayBody_steady_length. rewrite (todayAt_steady tz now k).
    destruct (birthdayIsToday _ _ _); lia.
  - intros x a Ha. destruct (is_active x && truthy (birth_date x)); [|destruct Ha].
    apply birthdayBody_In in Ha. tauto.
Qed.

(** X12.  With the clock standing at one instant, for an active employee
    of the list with a birth date: the output holds one 'birthday' alert
    per occurrence of the employee, always 'medium', when the civil day of
    today is the civil day of [new Date(thisYear, birthMonth, birthDate)],
    and none otherwise. *)
Theorem birthday_alert_rule
    (tz now : Z) (employees : list Employee)
    (leaveData : list LeaveRequest) (k : nat) (e : Employee) :
  In e employees -> is_active e = true -> truthy (birth_date e) = true ->
  let today := todayAt tz (steady now) k in
  let out := fst (generateCriticalAlerts tz (steady now) employees leaveData k) in
  let birth := toDate (birth_date e) in
  let birthdayThisYear :=
    newDate tz (getFullYear tz today) (getMonth tz birth) (getDate tz birth) in
  let sameDay :=
    dateStringEq (toDateString tz today) (toDateString tz birthdayThisYear) in
  1 <= occurrences employees e
  /\ (sameDay = true -> countIf (isAbout birthday e) out = occurrences employees e)
  /\ (sameDay = false -> countIf (isAbout birthday e) out = 0)
  /\ (forall a, In a out -> type a = birthday -> employee a = Some e ->
        priority a = medium /\ sameDay = true).
Proof.
  intros Hin Hact Hbirth today out birth birthdayThisYear sameDay.
  change sameDay with (birthdayIsToday tz today e) in *.
  pose proof (birthday_count tz now employees leaveData k e Hact Hbirth) as Hcount.
  fold today out in Hcount.
  split; [|split; [|split]].
  - unfold occurrences.
    pose proof (proj1 (count_occ_In Employee_eq_dec employees e) Hin). lia.
  - intros Hs. now rewrite Hcount, Hs.
  - intros Hs. now rewrite Hcount, Hs.
  - intros a Ha Hty Hemp. apply in_out_typed in Ha. rewrite Hty in Ha.
    rewrite birthdayRun_steady in Ha.
    apply in_flat_map in Ha as (x & _ & Hx).
    pose proof (birthdayBody_In _ _ _ _ _ Hx) as (_ & Hx' & Hprio).
    assert (x = e) by congruence. subst x.
    split; [exact Hprio|].
    apply birthdayBody_steady_In in Hx. exact Hx.
Qed.

Lemma birthday_alert_rule_witness :
  In midnightEmployee [midnightEmployee]
  /\ is_active midnightEmployee = true
  /\ truthy (birth_date midnightEmployee) = true
  /\ countIf (isAbout birthday midnightEmployee)
       (fst (generateCriticalAlerts WIB_OFFSET (steady (jakarta 2025 3 15 9 0 0))
                                    [midnightEmployee] [] 0%nat))
     = occurrences [midnightEmployee] midnightEmployee.
Proof.
  assert (Hin : In midnightEmployee [midnightEmployee]) by (simpl; auto).
  split; [exact Hin|]. split; [reflexivity|]. split; [reflexivity|].
  apply (birthday_alert_rule WIB_OFFSET (jakarta 2025 3 15 9 0 0) [midnightEmployee] []
           0%nat midnightEmployee Hin eq_refl eq_refl).
  vm_compute. reflexivity.
Defined.

(** The civil day of [new Date(y, m, d)] for a date [d] that month [m] of
    some year has: the day asked for, or 1 March where 29 February is
    asked for in a common year. *)
Lemma toDateString_newDate (tz y m d : Z) (leap : bool) :
  Z.abs tz <= msPerDay -> 100 <= y <= 200000 ->
  0 <= m <= 11 -> 1 <= d <= daysInMonth leap m ->
  toDateString tz (newDate tz (Int y) (Int m) (Int d))
  = if d <=? daysInMonth (InLeapYear y) m then Some (y, m, d) else Some (y, 2, 1).
Proof.
  intros Hz Hy Hm Hd.
  assert (Hyr : (0 <=? y) && (y <=? 99) = false).
  { destruct (Z.leb_spec 0 y), (Z.leb_spec y 99); try reflexivity; lia. }
  assert (Hcivil : exists m' d', 0 <= m' <= 11
                                 /\ 1 <= d' <= daysInMonth (InLeapYear y) m'
                                 /\ MakeDay y m d = MakeDay y m' d'
                                 /\ (if d <=? daysInMonth (InLeapYear y) m
                                     then Some (y, m, d) else Some (y, 2, 1))
                                    = Some (y, m', d')).
  { destruct (Z.leb_spec d (daysInMonth (InLeapYear y) m)) as [Hle|Hgt].
    - exists m, d. repeat split; lia.
    - assert (Hfeb : m = 1 /\ d = 29 /\ InLeapYear y = false).
      { apply month_cases in Hm. unfold daysInMonth in Hd, Hgt.
        destruct leap, (InLeapYear y);
          repeat (destruct Hm as [Hm|Hm]); subst m;
          cbn in Hd, Hgt; lia. }
      destruct Hfeb as (-> & -> & E). exists 2, 1.
      rewrite E. split; [lia|]. split; [vm_compute; split; discriminate|].
      split; [|reflexivity].
      unfold MakeDay. cbv zeta.
      change (1 / 12) with 0. change (2 / 12) with 0.
      change (1 mod 12) with 1. change (2 mod 12) with 2.
      rewrite Z.add_0_r, E. cbn [monthStart]. lia. }
  destruct Hcivil as (m' & d' & Hm' & Hd' & HD & ->).
  destruct (civil_of_MakeDay y m' d' Hm' Hd') as (Cy & Cm & Cd).
  unfold newDate. rewrite Hyr, HD.
  assert (Hrange : DayFromYear y <= MakeDay y m' d' < DayFromYear (y + 1)).
  { pose proof (YearFromDay_spec (MakeDay y m' d')) as Hs. now rewrite Cy in Hs. }
  assert (Hlo : DayFromYear 100 <= DayFromYear y) by (apply DayFromYear_mono; lia).
  assert (Hhi : DayFromYear (y + 1) <= DayFromYear 200001)
    by (apply DayFromYear_mono; lia).
  assert (E100 : -700000 <= DayFromYear 100) by (vm_compute; discriminate).
  assert (E200001 : DayFromYear 200001 <= 73000000) by (vm_compute; discriminate).
  unfold TimeClip, UTC, MakeDate.
  destruct (Z.leb_spec (Z.abs (MakeDay y m' d' * msPerDay + 0 - tz)) 8640000000000000)
    as [_|Hbad]; [|unfold msPerDay in *; lia].
  unfold toDateString. cbv zeta. unfold LocalTime.
  replace (MakeDay y m' d' * msPerDay + 0 - tz + tz)
    with (MakeDate (MakeDay y m' d') 0) by (unfold MakeDate; lia).
  unfold YearFromTime, MonthFromTime, DateFromTime, MonthFromTime, DayWithinYear,
    YearFromTime.
  rewrite Day_MakeDate by (unfold msPerDay; lia).
  fold (MonthFromDay (MakeDay y m' d')). fold (DateFromDay (MakeDay y m' d')).
  now rewrite Cy, Cm, Cd.
Qed.
(** Only 29 February is a date that its month lacks in another year. *)
Lemma overflow_is_feb29 (leap leap' : bool) (m d : Z) :
  0 <= m <= 11 -> 1 <= d <= daysInMonth leap m ->
  (d <=? daysInMonth leap' m) = negb ((m =? 1) && (d =? 29) && negb leap').
Proof.
  intros Hm Hd. apply month_cases in Hm. unfold daysInMonth in *.
  destruct (Z.leb_spec d (monthStart leap' (m + 1) - monthStart leap' m)) as [H|H];
    destruct leap, leap'; repeat (destruct Hm as [Hm|Hm]); subst m;
    cbn in Hd, H; cbn [Z.eqb Pos.eqb andb negb];
    try reflexivity; try lia;
    destruct (Z.eqb_spec d 29); try reflexivity; lia.
Qed.

(** The test of the birthday rule, in calendar terms. *)
Lemma birthdayIsToday_calendar (tz : Z) (e : Employee) (t b : Z) :
  Z.abs tz <= msPerDay ->
  birth_date e = DateText (TimeValue b) ->
  100 <= YearFromTime (LocalTime tz t) <= 200000 ->
  let year := YearFromTime (LocalTime tz t) in
  let month := MonthFromTime (LocalTime tz t) in
  let date := DateFromTime (LocalTime tz t) in
  let birthMonth := MonthFromTime (LocalTime tz b) in
  let birthDate := DateFromTime (LocalTime tz b) in
  birthdayIsToday tz (TimeValue t) e
  = if (birthMonth =? 1) && (birthDate =? 29) && negb (InLeapYear year)
    then (month =? 2) && (date =? 1)
    else (month =? birthMonth) && (date =? birthDate).
Proof.
  intros Hz Hb Hy year month date birthMonth birthDate.
  unfold birthdayIsToday, birthdayOf. rewrite Hb. cbn [toDate].
  unfold getFullYear, getMonth, getDate.
  fold year birthMonth birthDate.
  assert (Hm : 0 <= birthMonth <= 11).
  { subst birthMonth. unfold MonthFromTime, DayWithinYear, YearFromTime.
    apply (MonthFromDay_range (Day (LocalTime tz b))). }
  assert (Hd : 1 <= birthDate
               <= daysInMonth (InLeapYear (YearFromTime (LocalTime tz b))) birthMonth).
  { subst birthDate birthMonth.
    unfold DateFromTime, MonthFromTime, DayWithinYear, YearFromTime.
    apply (DateFromDay_range (Day (LocalTime tz b))). }
  rewrite (toDateString_newDate tz year birthMonth birthDate _ Hz Hy Hm Hd).
  rewrite (overflow_is_feb29 _ (InLeapYear year) _ _ Hm Hd).
  unfold toDateString. cbv zeta. fold year month date.
  destruct ((birthMonth =? 1) && (birthDate =? 29) && negb (InLeapYear year));
    cbn [negb dateStringEq]; now rewrite Z.eqb_refl.
Qed.

(** X13.  When the birthday alert fires, in calendar terms.  With the
    clock standing at one instant of a year from 100 to 200000 and a host
    zone within a day of UTC, an active employee with a valid birth date
    has one 'birthday' alert per occurrence on the day whose month and
    date are those of the birth date and none on any other day; only an
    employee born on 29 February has it, in a common year, on 1 March
    instead (and none on 28 February). *)
Theorem birthday_on_the_day
    (tz now : Z) (employees : list Employee) (leaveData : list LeaveRequest)
    (k : nat) (e : Employee) (t b : Z) :
  Z.abs tz <= msPerDay ->
  is_active e = true ->
  birth_date e = DateText (TimeValue b) ->
  todayAt tz (steady now) k = TimeValue t ->
  100 <= YearFromTime (LocalTime tz t) <= 200000 ->
  let out := fst (generateCriticalAlerts tz (steady now) employees leaveData k) in
  let year := YearFromTime (LocalTime tz t) in
  let month := MonthFromTime (LocalTime tz t) in
  let date := DateFromTime (LocalTime tz t) in
  let birthMonth := MonthFromTime (LocalTime tz b) in
  let birthDate := DateFromTime (LocalTime tz b) in
  let due :=
    if (birthMonth =? 1) && (birthDate =? 29) && negb (InLeapYear year)
    then (month =? 2) && (date =? 1)
    else (month =? birthMonth) && (date =? birthDate) in
  countIf (isAbout birthday e) out = if due then occurrences employees e else 0.
Proof.
  intros Hz Hact Hb Ht Hy out year month date birthMonth birthDate due.
  subst out. rewrite birthday_count by (rewrite ?Hb; auto).
  rewrite Ht, (birthdayIsToday_calendar tz e t b Hz Hb Hy). reflexivity.
Qed.

Lemma birthday_on_the_day_witness :
  countIf (isAbout birthday leapling)
    (fst (generateCriticalAlerts WIB_OFFSET (steady (jakarta 2025 3 1 9 0 0))
                                 [leapling] [] 0%nat))
  = occurrences [leapling] leapling.
Proof.
  assert (Hz : Z.abs WIB_OFFSET <= msPerDay) by (vm_compute; discriminate).
  assert (Hy : 100 <= YearFromTime (LocalTime WIB_OFFSET (jakarta 2025 3 1 9 0 0))
               <= 200000) by (vm_compute; split; discriminate).
  exact (birthday_on_the_day WIB_OFFSET (jakarta 2025 3 1 9 0 0) [leapling] [] 0%nat
           leapling (jakarta 2025 3 1 9 0 0) (jakarta 2000 2 29 0 0 0)
           Hz eq_refl eq_refl eq_refl Hy).
Defined.

(** ** What an alert refers to *)

Lemma contractBody_shape (today : Date) (e : Employee) (a : Alert) :
  In a (contractBody today [] e) ->
  type a = contract /\ employee a = Some e /\ leave a = None.
Proof.
  unfold contractBody, push.
  destruct (Num_ge _ 0 && Num_le _ 30); [|intros []].
  intros [<-|[]]. cbn. auto.
Qed.

Lemma probationBody_shape (tz : Z) (today : Date) (e : Employee) (a : Alert) :
  In a (probationBody tz today [] e) ->
  type a = probation /\ employee a = Some e /\ leave a = None.
Proof.
  unfold probationBody, push.
  destruct (Num_ge _ 0 && Num_le _ _); [|intros []].
  intros [<-|[]]. cbn. auto.
Qed.

Lemma birthdayBody_shape (tz : Z) (wall : nat -> Z) (e : Employee) (k : nat)
      (a : Alert) :
  In a (fst (birthdayBody tz wall [] e k)) ->
  type a = birthday /\ employee a = Some e /\ leave a = None.
Proof.
  unfold birthdayBody, getBirthdayThisYear, isToday, getWIBDate, ret, push, bind.
  cbn beta iota.
  destruct (dateStringEq _ _); cbn [fst]; [|intros []].
  intros [<-|[]]. cbn. auto.
Qed.

Lemma anniversaryBody_shape (tz : Z) (wall : nat -> Z) (today : Date) (e : Employee)
      (k : nat) (a : Alert) :
  In a (fst (anniversaryBody tz wall today [] e k)) ->
  type a = anniversary /\ employee a = Some e /\ leave a = None /\ years a <> None.
Proof.
  unfold anniversaryBody, getAnniversaryThisYear, calculateYearsOfService,
    getWIBDate, ret, push, bind.
  cbn beta iota.
  destruct (Num_ge _ 0 && Num_le _ 7); cbn [fst]; [|intros []].
  intros [<-|[]]. cbn. repeat split; discriminate.
Qed.

Lemma leaveBody_shape (today : Date) (lv : LeaveRequest) (a : Alert) :
  In a (leaveBody today [] lv) ->
  type a = leave_pending /\ employee a = None /\ leave a = Some lv.
Proof.
  unfold leaveBody, push.
  destruct (Num_gt _ 2); [|intros []].
  intros [<-|[]]. cbn. auto.
Qed.

Lemma generated_fromInput (tz : Z) (wall : nat -> Z) (employees : list Employee)
      (leaveData : list LeaveRequest) (k : nat) (a : Alert) :
  In a (fst (generateCriticalAlerts tz wall employees leaveData k)) ->
  fromInput employees leaveData a.
Proof.
  intros Ha. apply in_out_typed in Ha. unfold fromInput.
  destruct (type a) eqn:Hty.
  - unfold contractAlerts in Ha. apply in_flat_map in Ha as (e & He & Hx).
    apply filter_In in He as (He & Hf).
    apply contractBody_shape in Hx as (_ & Hemp & Hlv).
    split; [exact Hlv|]. split; [discriminate|]. now exists e.
  - unfold birthdayRun in Ha.
    apply (forEachM_In _ (birthdayBody_push tz wall)) in Ha as (e & k' & He & Hx).
    apply filter_In in He as (He & Hf).
    apply birthdayBody_shape in Hx as (_ & Hemp & Hlv).
    split; [exact Hlv|]. split; [discriminate|]. now exists e.
  - unfold anniversaryRun in Ha.
    apply (forEachM_In _ (anniversaryBody_push tz wall _)) in Ha
      as (e & k' & He & Hx).
    apply filter_In in He as (He & Hf).
    apply anniversaryBody_shape in Hx as (_ & Hemp & Hlv & Hyrs).
    split; [exact Hlv|]. split; [intros _; exact Hyrs|]. now exists e.
  - unfold probationAlerts in Ha. apply in_flat_map in Ha as (e & He & Hx).
    apply filter_In in He as (He & Hf).
    apply probationBody_shape in Hx as (_ & Hemp & Hlv).
    split; [exact Hlv|]. split; [discriminate|]. now exists e.
  - unfold leaveAlerts in Ha. apply in_flat_map in Ha as (lv & Hl & Hx).
    apply filter_In in Hl as (Hl & Hf).
    apply leaveBody_shape in Hx as (_ & Hemp & Hlv).
    split; [exact Hemp|]. exists lv. split; [exact Hlv|]. split; [exact Hl|].
    now destruct (normalizeLeaveStatus (status lv)).
Qed.

(** X14.  For any clock, every alert that [generateCriticalAlerts]
    returns refers to a record of its input: a 'leave_pending' alert to a
    request of the leave data whose status normalizes to Pending (and to
    no employee), any other alert to an active employee of the list who
    passes the filter of the alert's rule (and to no request); an
    'anniversary' alert always carries its [years]. *)
Theorem alerts_refer_to_input (tz : Z) (wall : nat -> Z) (employees : list Employee)
        (leaveData : list LeaveRequest) (k : nat) :
  Forall (fromInput employees leaveData)
         (fst (generateCriticalAlerts tz wall employees leaveData k)).
Proof.
  apply Forall_forall. intros a. apply generated_fromInput.
Qed.

(** ** Alert actions *)

Lemma typeText_dispatch (a : Alert) (alerts : list Alert) (index : nat) :
  nth_error alerts index = Some a ->
  handleAlertAction alerts (typeText (type a)) index
  = match type a with
    | contract => handleContractExpiringAction a
    | birthday => handleBirthdayAction a
    | anniversary => handleAnniversaryAction a
    | probation => handleProbationAction a
    | leave_pending => handleLeavePendingAction a
    end.
Proof.
  intros Hn. unfold handleAlertAction. rewrite Hn. now destruct (type a).
Qed.

(** X15.  The button that [renderCriticalAlerts] writes for the alert at
    [index] calls [handleAlertAction] with the alert's own type and that
    index.  On the alerts of [generateCriticalAlerts] this call always
    finds the alert and the handler of its type, never the [default]
    branch; a 'leave_pending' alert redirects to leave.html, any other
    alert redirects unless the [id] of its employee is falsy, in which
    case the call [alert(...)] on the handler's own parameter is a
    TypeError. *)
Theorem handleAlertAction_on_generated
    (tz : Z) (wall : nat -> Z) (employees : list Employee)
    (leaveData : list LeaveRequest) (k : nat) (index : nat) :
  let alerts := fst (generateCriticalAlerts tz wall employees leaveData k) in
  match nth_error alerts index with
  | None => forall ty, handleAlertAction alerts ty index = NotFound
  | Some a =>
      let outcome := handleAlertAction alerts (typeText (type a)) index in
      (type a = leave_pending -> outcome = Redirect "leave.html")
      /\ (actionable a = true -> exists href, outcome = Redirect href)
      /\ (actionable a = false ->
          outcome = TypeError
          /\ exists e, employee a = Some e /\ In e employees /\ id e = 0)
  end.
Proof.
  cbv zeta. destruct (nth_error _ index) as [a|] eqn:Hn.
  - pose proof (generated_fromInput tz wall employees leaveData k a
                  (nth_error_In _ _ Hn)) as Hfrom.
    rewrite (typeText_dispatch a _ index Hn).
    unfold fromInput, actionable in *.
    unfold handleContractExpiringAction, handleBirthdayAction,
      handleAnniversaryAction, handleProbationAction, handleLeavePendingAction,
      employeeMissing, employeeId.
    destruct (type a);
      try (destruct Hfrom as (Hlv & _ & e & He & Hin & _); rewrite He;
           split; [discriminate|];
           destruct (Z.eqb_spec (id e) 0) as [H0|H0]; cbn [negb];
           split; [discriminate | intros _; split; [reflexivity | now exists e]
                  | intros _; eexists; reflexivity | discriminate]).
    destruct Hfrom as (_ & lv & Hlv & _). rewrite Hlv.
    split; [reflexivity|]. split; [intros _; eexists; reflexivity | discriminate].
  - intros ty. unfold handleAlertAction. now rewrite Hn.
Qed.

(** ** The monthly headcount *)

Lemma headcountBody_step (monthEnd : Date) (e : EmployeeRow) (a t : Z) :
  headcountBody monthEnd (a, t) e
  = (a + (if activeAt monthEnd e then 1 else 0),
     t + (if joinedBy monthEnd e then 1 else 0)).
Proof.
  unfold headcountBody, activeAt, joinedBy, dateOrNull.
  destruct (truthy (join_date (fields e))); cbn [andb]; [|f_equal; lia].
  destruct (Date_le (toDate (join_date (fields e))) monthEnd); cbn [andb];
    [|f_equal; lia].
  destruct (truthy (resign_date e)); cbn [negb orb];
    [destruct (Date_gt (toDate (resign_date e)) monthEnd)|]; f_equal; lia.
Qed.

Lemma headcount_loop (monthEnd : Date) (l : list EmployeeRow) (a t : Z) :
  forEach (headcountBody monthEnd) l (a, t)
  = (a + countIf (activeAt monthEnd) l, t + countIf (joinedBy monthEnd) l).
Proof.
  unfold forEach. revert a t. induction l as [|e l IH]; intros a t.
  - cbn [fold_left]. rewrite !countIf_nil. f_equal; lia.
  - cbn [fold_left]. rewrite headcountBody_step, IH, !countIf_cons. f_equal; lia.
Qed.

Lemma calculateMonthlyHeadcount_unfold (tz : Z) (wall : nat -> Z)
      (employees : list EmployeeRow) (k : nat) :
  calculateMonthlyHeadcount tz wall employees k
  = ({| activeData := map (fun M => countIf (activeAt M) employees)
                          (monthEnds tz wall k);
        totalData := map (fun M => countIf (joinedBy M) employees)
                         (monthEnds tz wall k) |}, S k).
Proof.
  unfold calculateMonthlyHeadcount, monthEnds, todayAt, bind, ret, getWIBDate.
  cbn [fst]. rewrite !map_map. f_equal. f_equal; apply map_ext; intros i;
    rewrite headcount_loop; reflexivity.
Qed.

Lemma Date_le_valid (a b : Date) :
  Date_le a b = true -> exists x y, a = TimeValue x /\ b = TimeValue y /\ x <= y.
Proof.
  unfold Date_le. destruct a as [|x], b as [|y]; try discriminate.
  cbn. intros H. exists x, y. repeat split. lia.
Qed.

Lemma Date_gt_valid (a b : Date) :
  Date_gt a b = true -> exists x y, a = TimeValue x /\ b = TimeValue y /\ y < x.
Proof.
  unfold Date_gt. destruct a as [|x], b as [|y]; try discriminate.
  cbn. intros H. exists x, y. repeat split. lia.
Qed.

Lemma countIf_le {A : Type} (p q : A -> bool) (l : list A) :
  (forall x, p x = true -> q x = true) -> countIf p l <= countIf q l.
Proof.
  intros Hpq. induction l as [|x l IH]; [reflexivity|].
  rewrite !countIf_cons. specialize (Hpq x).
  destruct (p x), (q x); lia.
Qed.

Lemma joinedBy_parses (M : Date) (e : EmployeeRow) :
  joinedBy M e = true -> parses (join_date (fields e)) = true.
Proof.
  unfold joinedBy. intros H. apply andb_true_iff in H as (Ht & Hle).
  apply Date_le_valid in Hle as (x & _ & Hx & _).
  destruct (join_date (fields e)) as [| | |d]; try discriminate Ht.
  cbn in Hx. now subst d.
Qed.

Lemma activeAt_parses (M : Date) (e : EmployeeRow) :
  activeAt M e = true ->
  parses (join_date (fields e))
  && (negb (truthy (resign_date e)) || parses (resign_date e)) = true.
Proof.
  unfold activeAt. intros H. apply andb_true_iff in H as (Hj & Hr).
  rewrite (joinedBy_parses M e Hj). cbn [andb].
  destruct (resign_date e) as [| | |d]; try reflexivity.
  cbn in Hr. apply Date_gt_valid in Hr as (x & _ & Hx & _). now subst d.
Qed.

(** X16.  For any clock and any employees, [calculateMonthlyHeadcount]
    reads the clock once and returns two series of six numbers; in every
    month the active count is between 0 and the total.  The total never
    exceeds the number of employees whose join date parses, and the
    active count never exceeds the number of those whose resignation date
    is absent or parses: a join date that does not parse keeps an employee
    out of every month, a resignation date that does not parse keeps the
    employee in the totals but never active. *)
Theorem calculateMonthlyHeadcount_bounds (tz : Z) (wall : nat -> Z)
        (employees : list EmployeeRow) (k : nat) :
  let h := fst (calculateMonthlyHeadcount tz wall employees k) in
  snd (calculateMonthlyHeadcount tz wall employees k) = S k
  /\ List.length (activeData h) = 6%nat
  /\ List.length (totalData h) = 6%nat
  /\ Forall2 (fun a t => 0 <= a <= t) (activeData h) (totalData h)
  /\ Forall (fun t => t <= countIf (fun e => parses (join_date (fields e))) employees)
            (totalData h)
  /\ Forall (fun a => a <= countIf (fun e => parses (join_date (fields e))
                                            && (negb (truthy (resign_date e))
                                                || parses (resign_date e)))
                                   employees)
            (activeData h).
Proof.
  cbv zeta. rewrite calculateMonthlyHeadcount_unfold. cbn [fst snd activeData totalData].
  split; [reflexivity|]. split; [reflexivity|]. split; [reflexivity|].
  split; [|split].
  - generalize (monthEnds tz wall k). intros Ms.
    induction Ms as [|M Ms IH]; cbn [map]; constructor; [|exact IH].
    split; [apply countIf_nonneg|].
    apply countIf_le. intros e H. unfold activeAt in H.
    now apply andb_true_iff in H.
  - apply Forall_forall. intros t Ht. apply in_map_iff in Ht as (M & <- & _).
    apply countIf_le. intros e. apply joinedBy_parses.
  - apply Forall_forall. intros a Ha. apply in_map_iff in Ha as (M & <- & _).
    apply countIf_le. intros e. apply activeAt_parses.
Qed.
(** *** The months of the chart *)

Lemma MakeDay_normal (y n d : Z) :
  MakeDay y n d = MakeDay (y + n / 12) (n mod 12) d.
Proof.
  pose proof (Z.mod_pos_bound n 12 ltac:(lia)) as Hm.
  unfold MakeDay. cbv zeta.
  rewrite (Z.div_small (n mod 12)), (Z.mod_small (n mod 12)), Z.add_0_r by lia.
  reflexivity.
Qed.

Lemma civil_of_first (y n : Z) :
  YearFromDay (MakeDay y n 1) = y + n / 12
  /\ MonthFromDay (MakeDay y n 1) = n mod 12
  /\ DateFromDay (MakeDay y n 1) = 1.
Proof.
  pose proof (Z.mod_pos_bound n 12 ltac:(lia)) as Hm.
  rewrite MakeDay_normal. apply civil_of_MakeDay; [lia|].
  pose proof (daysInMonth_range (InLeapYear (y + n / 12)) (n mod 12) ltac:(lia)). lia.
Qed.

Lemma MakeDay_month_step (y n : Z) :
  MakeDay y (n + 1) 1 - MakeDay y n 1
  = daysInMonth (InLeapYear (y + n / 12)) (n mod 12).
Proof.
  pose proof (Z.mod_pos_bound n 12 ltac:(lia)) as Hm.
  destruct (Z.eq_dec (n mod 12) 11) as [E|E].
  - assert (Hq : (n + 1) / 12 = n / 12 + 1) by (Z.to_euclidean_division_equations; lia).
    assert (Hr : (n + 1) mod 12 = 0) by (Z.to_euclidean_division_equations; lia).
    unfold MakeDay, daysInMonth. cbv zeta. rewrite Hq, Hr, E.
    replace (y + (n / 12 + 1)) with (y + n / 12 + 1) by lia.
    pose proof (DayFromYear_succ (y + n / 12)) as Hs.
    destruct (InLeapYear (y + n / 12)), (InLeapYear (y + n / 12 + 1));
      cbn [monthStart Z.add Pos.add Pos.succ] in *; lia.
  - assert (Hq : (n + 1) / 12 = n / 12) by (Z.to_euclidean_division_equations; lia).
    assert (Hr : (n + 1) mod 12 = n mod 12 + 1)
      by (Z.to_euclidean_division_equations; lia).
    unfold MakeDay, daysInMonth. cbv zeta. rewrite Hq, Hr. lia.
Qed.

Lemma MakeDay_first_bounds (y n : Z) :
  DayFromYear (y + n / 12) <= MakeDay y n 1 < DayFromYear (y + n / 12 + 1).
Proof.
  destruct (civil_of_first y n) as (Hy & _).
  pose proof (YearFromDay_spec (MakeDay y n 1)) as Hs. now rewrite Hy in Hs.
Qed.

(** Day numbers of the years 100 to 200001 are valid time values on a
    host within a day of UTC. *)
Lemma TimeClip_day (tz D : Z) :
  Z.abs tz <= msPerDay -> DayFromYear 100 - 1 <= D <= DayFromYear 200002 ->
  TimeClip (UTC tz (MakeDate D 0)) = TimeValue (UTC tz (MakeDate D 0)).
Proof.
  intros Hz HD.
  assert (E1 : -700000 <= DayFromYear 100) by (vm_compute; discriminate).
  assert (E2 : DayFromYear 200002 <= 73100000) by (vm_compute; discriminate).
  unfold TimeClip, UTC, MakeDate, msPerDay in *.
  destruct (Z.leb_spec (Z.abs (D * 86400000 + 0 - tz)) 8640000000000000);
    [reflexivity | lia].
Qed.

Lemma civil_of_local_midnight (tz D : Z) :
  getFullYear tz (TimeValue (UTC tz (MakeDate D 0))) = Int (YearFromDay D)
  /\ getMonth tz (TimeValue (UTC tz (MakeDate D 0))) = Int (MonthFromDay D)
  /\ toDateString tz (TimeValue (UTC tz (MakeDate D 0)))
     = Some (YearFromDay D, MonthFromDay D, DateFromDay D)
  /\ TimeWithinDay (LocalTime tz (UTC tz (MakeDate D 0))) = 0.
Proof.
  assert (HL : LocalTime tz (UTC tz (MakeDate D 0)) = MakeDate D 0)
    by (unfold LocalTime, UTC; lia).
  assert (Hj : 0 <= 0 < msPerDay) by (unfold msPerDay; lia).
  unfold getFullYear, getMonth, toDateString. cbv zeta. rewrite HL.
  unfold YearFromTime, MonthFromTime, DateFromTime, MonthFromTime, DayWithinYear,
    YearFromTime.
  rewrite Day_MakeDate, TimeWithinDay_MakeDate by exact Hj.
  repeat split.
Qed.

(** The end of the month that [new Date(y, n, 1)] starts, as
    [calculateMonthlyHeadcount] computes it with [new Date(year, month + 1,
    0)]: local midnight at the start of the month's last day. *)
Lemma monthEndOf_first (tz y n : Z) :
  Z.abs tz <= msPerDay -> 101 <= y <= 200000 -> -12 <= n <= 11 ->
  monthEndOf tz (newDate tz (Int y) (Int n) (Int 1)) = TimeValue (lastDayStart tz y n).
Proof.
  intros Hz Hy Hn.
  assert (Hq : -1 <= n / 12 <= 0) by (Z.to_euclidean_division_equations; lia).
  assert (Hq' : -1 <= (n + 1) / 12 <= 1) by (Z.to_euclidean_division_equations; lia).
  assert (Hyr : (0 <=? y) && (y <=? 99) = false).
  { destruct (Z.leb_spec 0 y), (Z.leb_spec y 99); try reflexivity; lia. }
  pose proof (MakeDay_first_bounds y n) as HB.
  pose proof (MakeDay_first_bounds y (n + 1)) as HB'.
  pose proof (DayFromYear_mono 100 (y + n / 12) ltac:(lia)) as L1.
  pose proof (DayFromYear_mono (y + n / 12 + 1) 200002 ltac:(lia)) as L2.
  pose proof (DayFromYear_mono 100 (y + (n + 1) / 12) ltac:(lia)) as L3.
  pose proof (DayFromYear_mono (y + (n + 1) / 12 + 1) 200002 ltac:(lia)) as L4.
  assert (Hmonth : newDate tz (Int y) (Int n) (Int 1)
                   = TimeValue (UTC tz (MakeDate (MakeDay y n 1) 0))).
  { unfold newDate. rewrite Hyr. apply TimeClip_day; [exact Hz | lia]. }
  unfold monthEndOf. rewrite Hmonth.
  destruct (civil_of_local_midnight tz (MakeDay y n 1)) as (-> & -> & _).
  destruct (civil_of_first y n) as (-> & -> & _).
  cbn [Num_add]. unfold newDate.
  assert (Hyr' : (0 <=? y + n / 12) && (y + n / 12 <=? 99) = false).
  { destruct (Z.leb_spec 0 (y + n / 12)), (Z.leb_spec (y + n / 12) 99);
      try reflexivity; lia. }
  rewrite Hyr'.
  assert (HD : MakeDay (y + n / 12) (n mod 12 + 1) 0 = MakeDay y (n + 1) 1 - 1).
  { pose proof (Z.mod_pos_bound n 12 ltac:(lia)) as Hm.
    assert (E1 : y + n / 12 + (n mod 12 + 1) / 12 = y + (n + 1) / 12)
      by (Z.to_euclidean_division_equations; lia).
    assert (E2 : (n mod 12 + 1) mod 12 = (n + 1) mod 12)
      by (Z.to_euclidean_division_equations; lia).
    unfold MakeDay. cbv zeta. rewrite E1, E2. lia. }
  rewrite HD. rewrite TimeClip_day by (try exact Hz; lia).
  reflexivity.
Qed.

Lemma lastDayStart_civil (tz y n : Z) :
  toDateString tz (TimeValue (lastDayStart tz y n))
  = Some (y + n / 12, n mod 12, daysInMonth (InLeapYear (y + n / 12)) (n mod 12))
  /\ TimeWithinDay (LocalTime tz (lastDayStart tz y n)) = 0.
Proof.
  unfold lastDayStart.
  destruct (civil_of_local_midnight tz (MakeDay y (n + 1) 1 - 1)) as (_ & _ & -> & ->).
  split; [|reflexivity].
  pose proof (Z.mod_pos_bound n 12 ltac:(lia)) as Hm.
  pose proof (daysInMonth_range (InLeapYear (y + n / 12)) (n mod 12) ltac:(lia)) as Hd.
  assert (HD : MakeDay y (n + 1) 1 - 1
               = MakeDay (y + n / 12) (n mod 12)
                         (daysInMonth (InLeapYear (y + n / 12)) (n mod 12))).
  { pose proof (MakeDay_month_step y n) as Hs.
    rewrite (MakeDay_normal y n 1) in Hs. unfold MakeDay in *. cbv zeta in *. lia. }
  rewrite HD.
  destruct (civil_of_MakeDay (y + n / 12) (n mod 12)
              (daysInMonth (InLeapYear (y + n / 12)) (n mod 12))
              ltac:(lia) ltac:(lia)) as (-> & -> & ->).
  reflexivity.
Qed.

Lemma lastDayStart_lt (tz y n : Z) : lastDayStart tz y n < lastDayStart tz y (n + 1).
Proof.
  unfold lastDayStart, UTC, MakeDate.
  pose proof (MakeDay_month_step y (n + 1)) as Hs.
  pose proof (Z.mod_pos_bound (n + 1) 12 ltac:(lia)) as Hm.
  pose proof (daysInMonth_range (InLeapYear (y + (n + 1) / 12)) ((n + 1) mod 12)
                ltac:(lia)) as Hd.
  replace (n + 1 + 1) with (n + 1 + 1) in * by lia.
  unfold msPerDay. lia.
Qed.
Lemma lastDayStart_mono (tz y n n' : Z) :
  n <= n' -> lastDayStart tz y n <= lastDayStart tz y n'.
Proof.
  intros H. replace n' with (n + Z.of_nat (Z.to_nat (n' - n))) by lia.
  induction (Z.to_nat (n' - n)) as [|j IH]; [rewrite Z.add_0_r; lia|].
  rewrite Nat2Z.inj_succ.
  pose proof (lastDayStart_lt tz y (n + Z.of_nat j)).
  replace (n + Z.succ (Z.of_nat j)) with (n + Z.of_nat j + 1) by lia. lia.
Qed.

Lemma monthEnds_civil (tz : Z) (wall : nat -> Z) (k : nat) (t : Z) :
  Z.abs tz <= msPerDay ->
  todayAt tz wall k = TimeValue t ->
  101 <= YearFromTime (LocalTime tz t) <= 200000 ->
  monthEnds tz wall k
  = map (fun i => TimeValue (lastDayStart tz (YearFromTime (LocalTime tz t))
                                          (MonthFromTime (LocalTime tz t) - i)))
        [5; 4; 3; 2; 1; 0].
Proof.
  intros Hz Ht Hy. unfold monthEnds. rewrite Ht. cbv zeta.
  unfold getFullYear, getMonth. cbn [Num_sub].
  assert (Hm : 0 <= MonthFromTime (LocalTime tz t) <= 11).
  { unfold MonthFromTime, DayWithinYear, YearFromTime.
    apply (MonthFromDay_range (Day (LocalTime tz t))). }
  cbn [map]. rewrite !monthEndOf_first by (try exact Hz; lia). reflexivity.
Qed.

Lemma joinedBy_mono (x y : Z) (e : EmployeeRow) :
  x <= y -> joinedBy (TimeValue x) e = true -> joinedBy (TimeValue y) e = true.
Proof.
  unfold joinedBy, Date_le. intros Hxy H.
  destruct (truthy (join_date (fields e))); [|discriminate]. cbn [andb] in *.
  destruct (toDate (join_date (fields e))) as [|j]; [discriminate|].
  cbn [valueOf] in *. destruct (Z.leb_spec j x), (Z.leb_spec j y);
    try reflexivity; try discriminate; lia.
Qed.

(** X17.  The cut-off of each month of the headcount chart.  When the
    clock shows an instant of the years 101 to 200000 on a host within a
    day of UTC, the six months are the current month and the five before
    it, and the cut-off of each is local midnight at the START of the
    month's last day: the total of a month counts the employees whose
    join date is not later than that instant (so an employee who joined
    during the last day, after midnight, is missing from that month), and
    the active count those of them with no resignation date or one that
    is later than it. *)
Theorem headcount_cutoff (tz : Z) (wall : nat -> Z) (employees : list EmployeeRow)
        (k : nat) (t : Z) :
  Z.abs tz <= msPerDay ->
  todayAt tz wall k = TimeValue t ->
  101 <= YearFromTime (LocalTime tz t) <= 200000 ->
  let year := YearFromTime (LocalTime tz t) in
  let month := MonthFromTime (LocalTime tz t) in
  let cutoff := fun i => lastDayStart tz year (month - i) in
  let h := fst (calculateMonthlyHeadcount tz wall employees k) in
  totalData h
  = map (fun i => countIf (joinedBy (TimeValue (cutoff i))) employees)
        [5; 4; 3; 2; 1; 0]
  /\ activeData h
     = map (fun i => countIf (activeAt (TimeValue (cutoff i))) employees)
           [5; 4; 3; 2; 1; 0]
  /\ (forall i,
        toDateString tz (TimeValue (cutoff i))
        = Some (year + (month - i) / 12, (month - i) mod 12,
                daysInMonth (InLeapYear (year + (month - i) / 12))
                            ((month - i) mod 12))
        /\ TimeWithinDay (LocalTime tz (cutoff i)) = 0).
Proof.
  intros Hz Ht Hy year month cutoff h. subst h.
  rewrite calculateMonthlyHeadcount_unfold. cbn [fst activeData totalData].
  rewrite (monthEnds_civil tz wall k t Hz Ht Hy). fold year month.
  rewrite !map_map. split; [reflexivity|]. split; [reflexivity|].
  intros i. apply lastDayStart_civil.
Qed.

Lemma headcount_cutoff_witness :
  let h := fst (calculateMonthlyHeadcount WIB_OFFSET (steady nineOClock) staffRows
                                          0%nat) in
  totalData h = [2; 2; 2; 2; 2; 3] /\ activeData h = [2; 2; 2; 1; 1; 2]
  /\ totalData h
     = map (fun i => countIf (joinedBy (TimeValue (lastDayStart WIB_OFFSET 2025 (3 - i))))
                             staffRows)
           [5; 4; 3; 2; 1; 0].
Proof.
  cbv zeta. split; [vm_compute; reflexivity|]. split; [vm_compute; reflexivity|].
  assert (Hz : Z.abs WIB_OFFSET <= msPerDay) by (vm_compute; discriminate).
  assert (Hy : 101 <= YearFromTime (LocalTime WIB_OFFSET (jakarta 2025 4 1 9 0 0))
               <= 200000) by (vm_compute; split; discriminate).
  exact (proj1 (headcount_cutoff WIB_OFFSET (steady nineOClock) staffRows 0%nat
                  (jakarta 2025 4 1 9 0 0) Hz eq_refl Hy)).
Defined.

(** X18.  Under the same conditions the totals of the chart never fall
    from one month to the next. *)
Theorem headcount_totals_grow (tz : Z) (wall : nat -> Z)
        (employees : list EmployeeRow) (k : nat) (t : Z) :
  Z.abs tz <= msPerDay ->
  todayAt tz wall k = TimeValue t ->
  101 <= YearFromTime (LocalTime tz t) <= 200000 ->
  StronglySorted Z.le (totalData (fst (calculateMonthlyHeadcount tz wall employees k))).
Proof.
  intros Hz Ht Hy.
  rewrite calculateMonthlyHeadcount_unfold. cbn [fst totalData].
  rewrite (monthEnds_civil tz wall k t Hz Ht Hy).
  set (y := YearFromTime (LocalTime tz t)). set (m := MonthFromTime (LocalTime tz t)).
  assert (Hle : forall i i', i' <= i ->
                countIf (joinedBy (TimeValue (lastDayStart tz y (m - i)))) employees
                <= countIf (joinedBy (TimeValue (lastDayStart tz y (m - i')))) employees).
  { intros i i' Hi. apply countIf_le. intros e. apply joinedBy_mono.
    apply lastDayStart_mono. lia. }
  cbn [map].
  repeat (constructor; [|repeat (constructor; [apply Hle; lia|]); constructor]).
  constructor.
Qed.

Lemma headcount_totals_grow_witness :
  StronglySorted Z.le
    (totalData (fst (calculateMonthlyHeadcount WIB_OFFSET (steady nineOClock)
                                               staffRows 0%nat))).
Proof.
  assert (Hz : Z.abs WIB_OFFSET <= msPerDay) by (vm_compute; discriminate).
  assert (Hy : 101 <= YearFromTime (LocalTime WIB_OFFSET (jakarta 2025 4 1 9 0 0))
               <= 200000) by (vm_compute; split; discriminate).
  exact (headcount_totals_grow WIB_OFFSET (steady nineOClock) staffRows 0%nat
           (jakarta 2025 4 1 9 0 0) Hz eq_refl Hy).
Defined.

(** ** The widget lists *)

Lemma compareNum_key {A : Type} (f : A -> Num) (a b : A) :
  (exists n, f a = Int n) -> (exists n, f b = Int n) ->
  (compareNum (f a) (f b) <? 0) = (numValue (f a) <? numValue (f b)).
Proof.
  intros (x & ->) (y & ->). cbn.
  destruct (Z.ltb_spec (x - y) 0), (Z.ltb_spec x y); lia || reflexivity.
Qed.

(** A list sorted with [(a, b) => f(a) - f(b)], where [f] is a number on
    every element, ascends in [f]. *)
Lemma Array_sort_by_number {A : Type} (f : A -> Num) (l : list A) :
  Forall (fun a => exists n, f a = Int n) l ->
  StronglySorted (fun a b => Num_leq (f a) (f b))
                 (Array_sort (fun a b => compareNum (f a) (f b)) l).
Proof.
  intros Hl.
  pose proof (Array_sort_ascending (fun a b => compareNum (f a) (f b))
                (fun a => numValue (f a)) (fun a => exists n, f a = Int n)
                (compareNum_key f) l Hl) as Hs.
  pose proof (Array_sort_Forall (fun a b => compareNum (f a) (f b)) _ l Hl) as Hall.
  revert Hall. induction Hs as [|a r Hs IH Ha]; intros Hall; constructor.
  - apply IH. now inversion Hall.
  - inversion Hall as [|? ? (x & Hx) Hr]; subst.
    rewrite Forall_forall in *. intros b Hb.
    destruct (Hr b Hb) as (y & Hy). specialize (Ha b Hb).
    rewrite Hx, Hy in *. exact Ha.
Qed.

Lemma firstn_skipn_sorted {A : Type} (R : A -> A -> Prop) (n : nat) (l : list A) :
  StronglySorted R l ->
  forall a b, In a (firstn n l) -> In b (skipn n l) -> R a b.
Proof.
  intros Hs. rewrite <- (firstn_skipn n l) in Hs.
  induction (firstn n l) as [|x f IH]; intros a b Ha Hb; [destruct Ha|].
  cbn [app] in Hs. inversion Hs as [|? ? Hs' Hx]; subst.
  destruct Ha as [<-|Ha].
  - rewrite Forall_forall in Hx. apply Hx, in_or_app. now right.
  - now apply IH.
Qed.

Lemma expiringContracts_unfold (tz : Z) (wall : nat -> Z) (employees : list Employee)
      (k : nat) :
  fst (expiringContracts tz wall employees k)
  = Array_sort (fun a b => compareNum (snd a) (snd b))
      (filter (fun r => Num_ge (snd r) 0 && Num_le (snd r) 90)
         (map (fun e => (e, daysDifference (todayAt tz wall k)
                                           (toDate (current_contract_end e))))
              (filter (fun e => is_active e && truthy (current_contract_end e))
                      employees))).
Proof. reflexivity. Qed.

Lemma expiringContracts_In (tz : Z) (wall : nat -> Z) (employees : list Employee)
      (k : nat) (e : Employee) (d : Num) :
  In (e, d) (fst (expiringContracts tz wall employees k))
  <-> In e employees /\ is_active e = true
      /\ truthy (current_contract_end e) = true
      /\ d = daysDifference (todayAt tz wall k) (toDate (current_contract_end e))
      /\ inRange d 0 90.
Proof.
  rewrite expiringContracts_unfold, Array_sort_In, filter_In, in_map_iff.
  cbn [snd]. rewrite <- inRange_iff. split.
  - intros ((x & Hx & Hin) & Hr). inversion Hx; subst x d. clear Hx.
    apply filter_In in Hin as (Hin & Hf). apply andb_true_iff in Hf as (Ha & Ht).
    auto.
  - intros (Hin & Ha & Ht & -> & Hr). split; [|exact Hr].
    exists e. split; [reflexivity|]. apply filter_In. split; [exact Hin|].
    now rewrite Ha, Ht.
Qed.

(** X19.  The contracts widget.  For any clock, [expiringContracts]
    lists exactly the active employees with a contract end date whose
    days until expiry, counted from the widget's own reading of the clock,
    are within 0..90 (NaN never is), each with those days; the list
    ascends in the days, and the five rows shown are its first five:
    no hidden row expires sooner than a shown one. *)
Theorem expiringContracts_listed (tz : Z) (wall : nat -> Z)
        (employees : list Employee) (k : nat) :
  let today := todayAt tz wall k in
  let rows := fst (expiringContracts tz wall employees k) in
  (forall e d, In (e, d) rows
               <-> In e employees /\ is_active e = true
                   /\ truthy (current_contract_end e) = true
                   /\ d = daysDifference today (toDate (current_contract_end e))
                   /\ inRange d 0 90)
  /\ StronglySorted (fun r s => Num_leq (snd r) (snd s)) rows
  /\ (List.length (slice5 rows) <= 5)%nat
  /\ rows = slice5 rows ++ skipn 5 rows
  /\ (forall r s, In r (slice5 rows) -> In s (skipn 5 rows) ->
                  Num_leq (snd r) (snd s)).
Proof.
  cbv zeta.
  assert (Hsorted : StronglySorted (fun r s : Employee * Num => Num_leq (snd r) (snd s))
                      (fst (expiringContracts tz wall employees k))).
  { rewrite expiringContracts_unfold. apply (Array_sort_by_number snd).
    apply Forall_forall. intros r Hr. apply filter_In in Hr as (_ & Hr).
    apply inRange_iff in Hr as (n & Hn & _). now exists n. }
  split; [intros e d; apply expiringContracts_In|].
  split; [exact Hsorted|]. split; [apply firstn_le_length|].
  split; [symmetry; apply firstn_skipn|].
  intros r s Hr Hs. exact (firstn_skipn_sorted _ 5 _ Hsorted r s Hr Hs).
Qed.
Lemma countIf_map {A B : Type} (q : B -> bool) (h : A -> B) (l : list A) :
  countIf q (map h l) = countIf (fun x => q (h x)) l.
Proof.
  induction l as [|x l IH]; [reflexivity|].
  cbn [map]. rewrite !countIf_cons, IH. reflexivity.
Qed.

Lemma countIf_ext {A : Type} (p q : A -> bool) (l : list A) :
  (forall x, In x l -> p x = q x) -> countIf p l = countIf q l.
Proof.
  intros H. induction l as [|x l IH]; [reflexivity|].
  rewrite !countIf_cons, (H x) by now left.
  rewrite IH; [reflexivity|]. intros y Hy. apply H. now right.
Qed.

Lemma countIf_flat_map_one {A : Type} (q : Alert -> bool) (r : A -> list Alert)
      (p : A -> bool) (l : list A) :
  (forall x, countIf q (r x) = if p x then 1 else 0) ->
  countIf q (flat_map r l) = countIf p l.
Proof.
  intros H. induction l as [|x l IH]; [reflexivity|].
  cbn [flat_map]. rewrite countIf_app, countIf_cons, H, IH. reflexivity.
Qed.

Lemma contractBody_count (today : Date) (e : Employee) :
  let d := daysDifference today (toDate (current_contract_end e)) in
  countIf (hasType contract) (contractBody today [] e)
  = if Num_ge d 0 && Num_le d 30 then 1 else 0.
Proof.
  unfold contractBody, push. cbv zeta.
  destruct (Num_ge _ 0 && Num_le _ 30); reflexivity.
Qed.

(** X20.  Contract alerts and the contracts widget.  When the alert run
    and the widget read the same instant off the clock, every 'contract'
    alert has its row in [expiringContracts], with the same employee and
    the same number of days; the alert is 'high' exactly when the row is
    shown red; and there are as many contract alerts as rows with at most
    30 days. *)
Theorem contract_alerts_in_widget (tz : Z) (wall : nat -> Z)
        (employees : list Employee) (leaveData : list LeaveRequest) (k k' : nat) :
  todayAt tz wall k = todayAt tz wall k' ->
  let alerts := fst (generateCriticalAlerts tz wall employees leaveData k) in
  let rows := fst (expiringContracts tz wall employees k') in
  (forall a, In a alerts -> type a = contract ->
     exists e d, employee a = Some e /\ daysRemaining a = Some d
                 /\ In (e, d) rows /\ inRange d 0 30
                 /\ (priority a = high <-> urgencyColor d = red))
  /\ countIf (hasType contract) alerts = countIf (fun r => Num_le (snd r) 30) rows.
Proof.
  intros Htoday. cbv zeta. split.
  - intros a Ha Hty. apply in_out_typed in Ha. rewrite Hty in Ha.
    unfold contractAlerts in Ha. apply in_flat_map in Ha as (e & He & Hx).
    apply filter_In in He as (Hin & Hf). apply andb_true_iff in Hf as (Hact & Htr).
    apply contractBody_In in Hx as (_ & Hemp & Hdays & Hprio & Hrange).
    cbv zeta in *. rewrite Htoday in *.
    set (d := daysDifference (todayAt tz wall k') (toDate (current_contract_end e)))
      in *.
    exists e, d. split; [exact Hemp|]. split; [exact Hdays|].
    split.
    { apply expiringContracts_In. repeat split; try assumption.
      destruct Hrange as (n & Hn & Hr). exists n. split; [exact Hn | lia]. }
    split; [exact Hrange|].
    rewrite Hprio. unfold urgencyColor.
    destruct (Num_le d 7); [tauto|].
    destruct (Num_le d 14), (Num_le d 30); split; discriminate.
  - rewrite (count_out_typed tz wall employees leaveData k _ contract)
      by (intros a Ha; unfold hasType in Ha; now apply AlertType_eqb_eq).
    rewrite expiringContracts_unfold.
    rewrite <- (countIf_perm _ _ _ (Array_sort_permutation _ _)).
    rewrite countIf_filter, countIf_map. cbn [snd].
    unfold contractAlerts. rewrite Htoday.
    rewrite (countIf_flat_map_one _ _ _ _ (contractBody_count (todayAt tz wall k'))).
    apply countIf_ext. intros e _.
    destruct (daysDifference (todayAt tz wall k') (toDate (current_contract_end e)))
      as [|n]; [reflexivity|].
    cbn [Num_ge Num_le].
    destruct (Z.leb_spec 0 n), (Z.leb_spec n 30), (Z.leb_spec n 90);
      try reflexivity; lia.
Qed.

Lemma contract_alerts_in_widget_witness :
  countIf (hasType contract)
    (fst (generateCriticalAlerts WIB_OFFSET (steady nineOClock) [badBirthday] [] 0%nat))
  = countIf (fun r => Num_le (snd r) 30)
      (fst (expiringContracts WIB_OFFSET (steady nineOClock) [badBirthday] 7%nat)).
Proof.
  exact (proj2 (contract_alerts_in_widget WIB_OFFSET (steady nineOClock) [badBirthday]
                  [] 0%nat 7%nat eq_refl)).
Defined.

(** *** Callbacks that read a clock standing still *)

Lemma mapM_steady {A B : Type} (f : A -> Clk B) (g : A -> B) (l : list A) (k : nat) :
  (forall x k', fst (f x k') = g x) -> fst (mapM f l k) = map g l.
Proof.
  intros Hf. revert k. induction l as [|x l IH]; intros k; [reflexivity|].
  cbn [mapM map]. unfold bind, ret.
  specialize (Hf x k). destruct (f x k) as [y k1]. cbn [fst] in Hf. subst y.
  specialize (IH k1). destruct (mapM f l k1) as [ys k2]. cbn [fst] in *.
  now rewrite IH.
Qed.

Lemma filterM_steady {A : Type} (f : A -> Clk bool) (g : A -> bool) (l : list A)
      (k : nat) :
  (forall x k', fst (f x k') = g x) -> fst (filterM f l k) = filter g l.
Proof.
  intros Hf. revert k. induction l as [|x l IH]; intros k; [reflexivity|].
  cbn [filterM filter]. unfold bind, ret.
  specialize (Hf x k). destruct (f x k) as [y k1]. cbn [fst] in Hf. subst y.
  specialize (IH k1). destruct (filterM f l k1) as [ys k2]. cbn [fst] in *.
  rewrite IH. now destruct (g x).
Qed.

Lemma anniversaries_steady (tz now : Z) (employees : list Employee) (k : nat) :
  let T := todayAt tz (steady now) 0%nat in
  fst (anniversaries tz (steady now) employees k)
  = (T,
     Array_sort (fun a b => compareNum (valueOf (anniversaryThisYear a))
                                       (valueOf (anniversaryThisYear b)))
       (filter (fun r => Num_ge (daysDifference T (anniversaryThisYear r)) 0
                         && Num_le (daysDifference T (anniversaryThisYear r))
                                   ANNIVERSARY_LOOKAHEAD_DAYS)
          (map (fun e => {| anniversaryEmployee := e;
                            anniversaryThisYear := anniversaryOf tz T e;
                            yearsOfService := yearsOf tz T e |})
               (filter (fun e => is_active e && truthy (join_date e)) employees)))).
Proof.
  cbv zeta. unfold anniversaries.
  unfold bind at 1. unfold getWIBDate at 1. cbv beta iota.
  unfold bind at 1.
  match goal with
  | |- context [mapM ?f ?l ?k0] =>
      pose proof (mapM_steady f
                    (fun e => {| anniversaryEmployee := e;
                                 anniversaryThisYear :=
                                   anniversaryOf tz (todayAt tz (steady now) 0%nat) e;
                                 yearsOfService :=
                                   yearsOf tz (todayAt tz (steady now) 0%nat) e |})
                    l k0 (fun x k' => eq_refl)) as Hmap;
      destruct (mapM f l k0) as [rows k1]
  end.
  cbn [fst] in Hmap. subst rows.
  unfold bind at 1.
  match goal with
  | |- context [filterM ?f ?l ?k0] =>
      pose proof (filterM_steady f
                    (fun r => Num_ge (daysDifference (todayAt tz (steady now) 0%nat)
                                                     (anniversaryThisYear r)) 0
                              && Num_le (daysDifference (todayAt tz (steady now) 0%nat)
                                                        (anniversaryThisYear r))
                                        ANNIVERSARY_LOOKAHEAD_DAYS)
                    l k0 (fun x k' => eq_refl)) as Hfil;
      destruct (filterM f l k0) as [rows k2]
  end.
  cbn [fst] in Hfil. subst rows. reflexivity.
Qed.
Lemma daysDifference_Int_r (T d : Date) (n : Z) :
  daysDifference T d = Int n -> exists x, valueOf d = Int x.
Proof.
  unfold daysDifference. destruct d as [|x]; [|now exists x].
  destruct T; discriminate.
Qed.

Lemma anniversaryBody_steady_count (tz now : Z) (T : Date) (e : Employee) :
  let d := daysDifference T (anniversaryOf tz (todayAt tz (steady now) 0%nat) e) in
  countIf (hasType anniversary) (fst (anniversaryBody tz (steady now) T [] e 0%nat))
  = if Num_ge d 0 && Num_le d 7 then 1 else 0.
Proof.
  unfold anniversaryBody, getAnniversaryThisYear, calculateYearsOfService,
    getWIBDate, ret, push, bind, anniversaryOf, todayAt, getWIBDate, steady.
  cbn beta iota zeta.
  destruct (Num_ge _ 0 && Num_le _ 7); reflexivity.
Qed.

(** X21.  The anniversaries widget, with the clock standing at one
    instant.  The list holds exactly the active employees with a join
    date whose anniversary of the current year is 0 to 14 days ahead,
    each with that anniversary and with the difference of the two
    calendar years as years of service; it ascends in the anniversary
    date, and the five rows shown are its first five. *)
Theorem anniversaries_listed (tz now : Z) (employees : list Employee) (k : nat) :
  let T := todayAt tz (steady now) k in
  let today := fst (fst (anniversaries tz (steady now) employees k)) in
  let rows := snd (fst (anniversaries tz (steady now) employees k)) in
  today = T
  /\ (forall r, In r rows
                <-> exists e, In e employees /\ is_active e = true
                              /\ truthy (join_date e) = true
                              /\ r = {| anniversaryEmployee := e;
                                        anniversaryThisYear := anniversaryOf tz T e;
                                        yearsOfService := yearsOf tz T e |}
                              /\ inRange (daysDifference T (anniversaryOf tz T e)) 0 14)
  /\ StronglySorted (fun r s => Num_leq (valueOf (anniversaryThisYear r))
                                        (valueOf (anniversaryThisYear s))) rows
  /\ (forall r s, In r (slice5 rows) -> In s (skipn 5 rows) ->
                  Num_leq (valueOf (anniversaryThisYear r))
                          (valueOf (anniversaryThisYear s))).
Proof.
  cbv zeta. rewrite anniversaries_steady. cbn [fst snd].
  rewrite (todayAt_steady tz now k).
  set (T := todayAt tz (steady now) 0%nat).
  assert (Hsorted :
            StronglySorted (fun r s => Num_leq (valueOf (anniversaryThisYear r))
                                               (valueOf (anniversaryThisYear s)))
              (Array_sort (fun a b => compareNum (valueOf (anniversaryThisYear a))
                                                 (valueOf (anniversaryThisYear b)))
                 (filter (fun r => Num_ge (daysDifference T (anniversaryThisYear r)) 0
                                   && Num_le (daysDifference T (anniversaryThisYear r))
                                             ANNIVERSARY_LOOKAHEAD_DAYS)
                    (map (fun e => {| anniversaryEmployee := e;
                                      anniversaryThisYear := anniversaryOf tz T e;
                                      yearsOfService := yearsOf tz T e |})
                         (filter (fun e => is_active e && truthy (join_date e))
                                 employees))))).
  { apply (Array_sort_by_number (fun r => valueOf (anniversaryThisYear r))).
    apply Forall_forall. intros r Hr. apply filter_In in Hr as (_ & Hr).
    apply inRange_iff in Hr as (n & Hn & _).
    now apply daysDifference_Int_r in Hn. }
  split; [reflexivity|]. split; [|split; [exact Hsorted|]].
  - intros r. rewrite Array_sort_In, filter_In, in_map_iff.
    unfold ANNIVERSARY_LOOKAHEAD_DAYS. rewrite inRange_iff. split.
    + intros ((e & <- & Hin) & Hr). cbn [anniversaryThisYear] in Hr.
      apply filter_In in Hin as (Hin & Hf). apply andb_true_iff in Hf as (Ha & Ht).
      exists e. auto.
    + intros (e & Hin & Ha & Ht & -> & Hr). cbn [anniversaryThisYear].
      split; [|exact Hr]. exists e. split; [reflexivity|].
      apply filter_In. split; [exact Hin|]. now rewrite Ha, Ht.
  - intros r s Hr Hs. exact (firstn_skipn_sorted _ 5 _ Hsorted r s Hr Hs).
Qed.

(** X22.  Anniversary alerts and the anniversaries widget, with the
    clock standing at one instant: every 'anniversary' alert (window 0..7
    days) has its row in the widget (window 0..14 days) with the same
    employee and the same years, and there are as many anniversary alerts
    as rows at most 7 days ahead. *)
Theorem anniversary_alerts_in_widget (tz now : Z) (employees : list Employee)
        (leaveData : list LeaveRequest) (k k' : nat) :
  let T := todayAt tz (steady now) k in
  let alerts := fst (generateCriticalAlerts tz (steady now) employees leaveData k) in
  let rows := snd (fst (anniversaries tz (steady now) employees k')) in
  (forall a, In a alerts -> type a = anniversary ->
     exists r, In r rows /\ employee a = Some (anniversaryEmployee r)
               /\ years a = Some (yearsOfService r)
               /\ inRange (daysDifference T (anniversaryThisYear r)) 0 7)
  /\ countIf (hasType anniversary) alerts
     = countIf (fun r => Num_le (daysDifference T (anniversaryThisYear r)) 7) rows.
Proof.
  cbv zeta. rewrite anniversaries_steady. cbn [fst snd].
  rewrite (todayAt_steady tz now k).
  set (T := todayAt tz (steady now) 0%nat). split.
  - intros a Ha Hty. apply in_out_typed in Ha. rewrite Hty in Ha.
    rewrite anniversaryRun_steady in Ha.
    apply in_flat_map in Ha as (e & He & Hx).
    apply filter_In in He as (Hin & Hf).
    apply anniversaryBody_steady_In in Hx as (_ & Hemp & _ & Hyears & Hrange).
    rewrite (todayAt_steady tz now k) in Hrange. fold T in Hrange, Hyears.
    exists {| anniversaryEmployee := e;
              anniversaryThisYear := anniversaryOf tz T e;
              yearsOfService := yearsOf tz T e |}.
    cbn [anniversaryEmployee anniversaryThisYear yearsOfService].
    split; [|auto].
    apply Array_sort_In, filter_In. cbn [anniversaryThisYear].
    split.
    + apply in_map_iff. exists e. split; [reflexivity|]. apply filter_In. auto.
    + unfold ANNIVERSARY_LOOKAHEAD_DAYS. apply inRange_iff.
      destruct Hrange as (n & Hn & Hr). exists n. split; [exact Hn | lia].
  - rewrite (count_out_typed tz (steady now) employees leaveData k _ anniversary)
      by (intros a Ha; unfold hasType in Ha; now apply AlertType_eqb_eq).
    rewrite anniversaryRun_steady.
    rewrite <- (countIf_perm _ _ _ (Array_sort_permutation _ _)).
    rewrite countIf_filter, countIf_map. cbn [anniversaryThisYear].
    rewrite (todayAt_steady tz now k). fold T.
    rewrite (countIf_flat_map_one _ _ _ _ (anniversaryBody_steady_count tz now T)).
    fold T. apply countIf_ext. intros e _.
    unfold ANNIVERSARY_LOOKAHEAD_DAYS.
    destruct (daysDifference T (anniversaryOf tz T e)) as [|n]; [reflexivity|].
    cbn [Num_ge Num_le].
    destruct (Z.leb_spec 0 n), (Z.leb_spec n 7), (Z.leb_spec n 14);
      try reflexivity; lia.
Qed.

Lemma birthdays_steady (tz now : Z) (employees : list Employee) (k : nat) :
  let T := todayAt tz (steady now) 0%nat in
  fst (birthdays tz (steady now) employees k)
  = Array_sort (fun a b => compareNum (valueOf (snd a)) (valueOf (snd b)))
      (map (fun e => (e, birthdayOf tz T e))
           (filter (fun e => Num_eqb (getMonth tz (toDate (birth_date e))) (getMonth tz T))
                   (filter (fun e => is_active e && truthy (birth_date e)) employees))).
Proof.
  cbv zeta. unfold birthdays.
  unfold bind at 1. unfold getWIBDate at 1. cbv beta iota zeta.
  unfold bind at 1.
  match goal with
  | |- context [mapM ?f ?l ?k0] =>
      pose proof (mapM_steady f
                    (fun e => (e, birthdayOf tz (todayAt tz (steady now) 0%nat) e))
                    l k0 (fun x k' => eq_refl)) as Hmap;
      destruct (mapM f l k0) as [rows k1]
  end.
  cbn [fst] in Hmap. subst rows. reflexivity.
Qed.

Lemma birthdays_In (tz now : Z) (employees : list Employee) (k : nat) (e : Employee) :
  let T := todayAt tz (steady now) 0%nat in
  In e (map fst (fst (birthdays tz (steady now) employees k)))
  <-> In e employees /\ is_active e = true /\ truthy (birth_date e) = true
      /\ Num_eqb (getMonth tz (toDate (birth_date e))) (getMonth tz T) = true.
Proof.
  cbv zeta. rewrite birthdays_steady, in_map_iff. split.
  - intros ([x d] & <- & Hin). cbn [fst]. apply Array_sort_In in Hin.
    apply in_map_iff in Hin as (y & Hy & Hin). inversion Hy; subst y d. clear Hy.
    apply filter_In in Hin as (Hin & Hm). apply filter_In in Hin as (Hin & Hf).
    apply andb_true_iff in Hf as (Ha & Ht). auto.
  - intros (Hin & Ha & Ht & Hm).
    exists (e, birthdayOf tz (todayAt tz (steady now) 0%nat) e).
    split; [reflexivity|]. apply Array_sort_In, in_map_iff.
    exists e. split; [reflexivity|]. apply filter_In. split; [|exact Hm].
    apply filter_In. split; [exact Hin|]. now rewrite Ha, Ht.
Qed.

(** X23.  Birthday alerts and the birthdays widget, with the clock
    standing at one instant of a year from 100 to 200000.  An active
    employee of the list with a valid birth date is in the list of
    "birthdays this month" exactly when the birth month is the current
    month.  So an employee with a birthday alert is in that list, with one
    exception: born on 29 February, the employee has the alert on 1 March
    of a common year and is not in the list of March. *)
Theorem birthday_alert_in_widget
    (tz now : Z) (employees : list Employee) (leaveData : list LeaveRequest)
    (k k' : nat) (e : Employee) (t b : Z) :
  Z.abs tz <= msPerDay ->
  In e employees -> is_active e = true ->
  birth_date e = DateText (TimeValue b) ->
  todayAt tz (steady now) k = TimeValue t ->
  100 <= YearFromTime (LocalTime tz t) <= 200000 ->
  let alerts := fst (generateCriticalAlerts tz (steady now) employees leaveData k) in
  let rows := fst (birthdays tz (steady now) employees k') in
  let year := YearFromTime (LocalTime tz t) in
  let month := MonthFromTime (LocalTime tz t) in
  let date := DateFromTime (LocalTime tz t) in
  let birthMonth := MonthFromTime (LocalTime tz b) in
  let birthDate := DateFromTime (LocalTime tz b) in
  (In e (map fst rows) <-> month = birthMonth)
  /\ (0 < countIf (isAbout birthday e) alerts -> ~ In e (map fst rows) ->
      birthMonth = 1 /\ birthDate = 29 /\ InLeapYear year = false
      /\ month = 2 /\ date = 1)
  /\ (birthMonth = 1 -> birthDate = 29 -> InLeapYear year = false ->
      month = 2 -> date = 1 ->
      countIf (isAbout birthday e) alerts = occurrences employees e
      /\ 1 <= occurrences employees e
      /\ ~ In e (map fst rows)).
Proof.
  intros Hz Hin Hact Hb Ht Hy alerts rows year month date birthMonth birthDate.
  assert (Hrow : In e (map fst rows) <-> month = birthMonth).
  { subst rows. rewrite birthdays_In. rewrite <- (todayAt_steady tz now k), Ht, Hb.
    cbn [toDate getMonth Num_eqb truthy]. fold month birthMonth.
    split.
    - intros (_ & _ & _ & H). apply Z.eqb_eq in H. congruence.
    - intros ->. rewrite Z.eqb_refl. auto. }
  assert (Hcount : countIf (isAbout birthday e) alerts
                   = if (if (birthMonth =? 1) && (birthDate =? 29)
                            && negb (InLeapYear year)
                         then (month =? 2) && (date =? 1)
                         else (month =? birthMonth) && (date =? birthDate))
                     then occurrences employees e else 0).
  { subst alerts. rewrite birthday_count by (rewrite ?Hb; auto).
    rewrite Ht, (birthdayIsToday_calendar tz e t b Hz Hb Hy). reflexivity. }
  assert (Hocc : 1 <= occurrences employees e).
  { unfold occurrences.
    pose proof (proj1 (count_occ_In Employee_eq_dec employees e) Hin). lia. }
  split; [exact Hrow|]. split.
  - intros Hpos Hno. rewrite Hcount in Hpos.
    destruct ((birthMonth =? 1) && (birthDate =? 29) && negb (InLeapYear year)) eqn:E.
    + apply andb_true_iff in E as (E & El). apply andb_true_iff in E as (Em & Ed).
      destruct ((month =? 2) && (date =? 1)) eqn:F; [|lia].
      apply andb_true_iff in F as (Fm & Fd).
      apply negb_true_iff in El. apply Z.eqb_eq in Em, Ed, Fm, Fd. auto.
    + destruct ((month =? birthMonth) && (date =? birthDate)) eqn:F; [|lia].
      apply andb_true_iff in F as (Fm & _). apply Z.eqb_eq in Fm.
      exfalso. apply Hno, Hrow, Fm.
  - intros Hbm Hbd Hleap Hm Hd. rewrite Hcount, Hbm, Hbd, Hleap, Hm, Hd.
    cbn. split; [reflexivity|]. split; [exact Hocc|].
    rewrite Hrow, Hbm, Hm. discriminate.
Qed.

Lemma birthday_alert_in_widget_witness :
  countIf (isAbout birthday leapling)
    (fst (generateCriticalAlerts WIB_OFFSET (steady (jakarta 2025 3 1 9 0 0))
                                 [leapling] [] 0%nat))
  = occurrences [leapling] leapling
  /\ 1 <= occurrences [leapling] leapling
  /\ ~ In leapling
       (map fst (fst (birthdays WIB_OFFSET (steady (jakarta 2025 3 1 9 0 0))
                                [leapling] 0%nat))).
Proof.
  assert (Hz : Z.abs WIB_OFFSET <= msPerDay) by (vm_compute; discriminate).
  assert (Hy : 100 <= YearFromTime (LocalTime WIB_OFFSET (jakarta 2025 3 1 9 0 0))
               <= 200000) by (vm_compute; split; discriminate).
  assert (Hin : In leapling [leapling]) by (simpl; auto).
  exact (proj2 (proj2 (birthday_alert_in_widget WIB_OFFSET (jakarta 2025 3 1 9 0 0)
                         [leapling] [] 0%nat 0%nat leapling
                         (jakarta 2025 3 1 9 0 0) (jakarta 2000 2 29 0 0 0)
                         Hz Hin eq_refl eq_refl eq_refl Hy))
           eq_refl eq_refl eq_refl eq_refl eq_refl).
Defined.

(** ** How many alerts there can be *)

Lemma forEachM_length {A : Type} (body : list Alert -> A -> Clk (list Alert)) :
  (forall acc x k, body acc x k = (acc ++ fst (body [] x k), snd (body [] x k))) ->
  (forall x k, (List.length (fst (body [] x k)) <= 1)%nat) ->
  forall l k, (List.length (fst (forEachM body l [] k)) <= List.length l)%nat.
Proof.
  intros Hb Hone. induction l as [|x l IH]; intros k; [cbn; lia|].
  rewrite (forEachM_cons body Hb). cbn [fst List.length]. rewrite length_app.
  specialize (Hone x k). specialize (IH (snd (body [] x k))). lia.
Qed.

Lemma flat_map_length_one {A : Type} (r : A -> list Alert) (l : list A) :
  (forall x, (List.length (r x) <= 1)%nat) ->
  (List.length (flat_map r l) <= List.length l)%nat.
Proof.
  intros Hr. induction l as [|x l IH]; [cbn; lia|].
  cbn [flat_map List.length]. rewrite length_app. specialize (Hr x). lia.
Qed.

Lemma filter_active_length (f : Employee -> bool) (l : list Employee) :
  Z.of_nat (List.length (filter (fun e => is_active e && f e) l))
  <= countIf is_active l.
Proof.
  change (countIf (fun e => is_active e && f e) l <= countIf is_active l).
  apply countIf_and_le.
Qed.

(** X24.  For any clock, the number of alerts (the figure of
    "Auto-Generated (n)") is at most four for every employee whose
    [is_active] is set, resigned or not, plus one for every leave request
    counted as pending by [calculateLeaveStats]; employees that are not
    active add nothing. *)
Theorem alerts_bounded (tz : Z) (wall : nat -> Z) (employees : list Employee)
        (leaveData : list LeaveRequest) (k : nat) :
  Z.of_nat (List.length (fst (generateCriticalAlerts tz wall employees leaveData k)))
  <= 4 * countIf is_active employees
     + pendingLeaves (calculateLeaveStats leaveData).
Proof.
  rewrite <- (Permutation_length (out_emitted tz wall employees leaveData k)).
  rewrite !length_app, !Nat2Z.inj_add, pendingLeaves_count.
  assert (HC : Z.of_nat (List.length (contractAlerts (todayAt tz wall k) employees))
               <= countIf is_active employees).
  { unfold contractAlerts.
    etransitivity; [|apply (filter_active_length (fun e => truthy (current_contract_end e)))].
    apply inj_le, flat_map_length_one. intros e. rewrite contractBody_length.
    destruct (Num_ge _ 0 && Num_le _ 30); lia. }
  assert (HB : Z.of_nat (List.length (fst (birthdayRun tz wall employees (S k))))
               <= countIf is_active employees).
  { unfold birthdayRun.
    etransitivity; [|apply (filter_active_length (fun e => truthy (birth_date e)))].
    apply inj_le, (forEachM_length _ (birthdayBody_push tz wall)).
    intros e k'. destruct (birthdayBody_one tz wall e k') as [->|(a & -> & _)];
      cbn; lia. }
  assert (HA : Z.of_nat (List.length
                 (fst (anniversaryRun tz wall (todayAt tz wall k) employees
                         (snd (birthdayRun tz wall employees (S k))))))
               <= countIf is_active employees).
  { unfold anniversaryRun.
    etransitivity; [|apply (filter_active_length (fun e => truthy (join_date e)))].
    apply inj_le, (forEachM_length _ (anniversaryBody_push tz wall _)).
    intros e k'. destruct (anniversaryBody_one tz wall (todayAt tz wall k) e k')
      as [->|(a & -> & _)]; cbn; lia. }
  assert (HP : Z.of_nat (List.length (probationAlerts tz (todayAt tz wall k) employees))
               <= countIf is_active employees).
  { unfold probationAlerts.
    etransitivity;
      [|apply (filter_active_length
                 (fun e => String.eqb (employment_status e) "Probation"))].
    apply inj_le, flat_map_length_one. intros e. rewrite probationBody_length.
    destruct (Num_ge _ 0 && Num_le _ 7); lia. }
  assert (HL : Z.of_nat (List.length (leaveAlerts (todayAt tz wall k) leaveData))
               <= countIf (fun lv => LeaveStatus_eqb (normalizeLeaveStatus (status lv))
                                                      Pending) leaveData).
  { unfold leaveAlerts. apply countIf_length_flat_map. intros lv.
    rewrite leaveBody_length. destruct (Num_gt _ 2); lia. }
  lia.
Qed.

(** ** The anniversary rule and a moving clock *)

Lemma birthdayBody_clock (tz : Z) (wall : nat -> Z) (acc : list Alert) (e : Employee)
      (k : nat) :
  snd (birthdayBody tz wall acc e k) = S (S k).
Proof.
  unfold birthdayBody, getBirthdayThisYear, isToday, getWIBDate, ret, bind.
  cbn beta iota. now destruct (dateStringEq _ _).
Qed.

Lemma anniversaryBody_clock (tz : Z) (wall : nat -> Z) (T : Date) (acc : list Alert)
      (e : Employee) (k : nat) :
  (k <= snd (anniversaryBody tz wall T acc e k) <= k + 2)%nat.
Proof.
  unfold anniversaryBody, getAnniversaryThisYear, calculateYearsOfService,
    getWIBDate, ret, bind.
  cbn beta iota. destruct (Num_ge _ 0 && Num_le _ 7); cbn [snd]; lia.
Qed.

(** A loop whose body reads the clock at most twice reads it at most
    twice per record. *)
Lemma forEachM_clock {A : Type} (body : list Alert -> A -> Clk (list Alert)) :
  (forall acc x k, (k <= snd (body acc x k) <= k + 2)%nat) ->
  forall l acc k,
    (k <= snd (forEachM body l acc k) <= k + 2 * List.length l)%nat.
Proof.
  intros Hc. induction l as [|x l IH]; intros acc k.
  - cbn. lia.
  - cbn [forEachM List.length]. unfold bind.
    specialize (Hc acc x k). destruct (body acc x k) as [acc' k1]. cbn [snd] in Hc.
    specialize (IH acc' k1). lia.
Qed.

(** If every body started within a window of reads gives the alerts [g],
    so does the loop. *)
Lemma forEachM_window {A : Type} (body : list Alert -> A -> Clk (list Alert))
      (g : A -> list Alert) (k0 n : nat) :
  (forall acc x k, body acc x k = (acc ++ fst (body [] x k), snd (body [] x k))) ->
  (forall acc x k, (k <= snd (body acc x k) <= k + 2)%nat) ->
  (forall x k, (k0 <= k)%nat -> (k + 1 <= k0 + n)%nat -> fst (body [] x k) = g x) ->
  forall l k,
    (k0 <= k)%nat -> (k + 2 * List.length l <= k0 + n + 1)%nat ->
    fst (forEachM body l [] k) = flat_map g l.
Proof.
  intros Hb Hc Hg. induction l as [|x l IH]; intros k Hk Hn; [reflexivity|].
  cbn [List.length] in Hn.
  rewrite (forEachM_cons body Hb). cbn [fst flat_map].
  rewrite (Hg x k) by lia. f_equal.
  pose proof (Hc [] x k) as Hk1. apply IH; lia.
Qed.

(** The anniversary rule sees of the later reads only their year. *)
Lemma anniversaryBody_same_year (tz : Z) (wall : nat -> Z) (T : Date) (e : Employee)
      (k k' : nat) :
  getFullYear tz (todayAt tz wall k') = getFullYear tz (todayAt tz wall k) ->
  getFullYear tz (todayAt tz wall (S k')) = getFullYear tz (todayAt tz wall k) ->
  fst (anniversaryBody tz wall T [] e k')
  = fst (anniversaryBody tz (steady (wall k)) T [] e 0%nat).
Proof.
  intros H1 H2.
  unfold anniversaryBody, getAnniversaryThisYear, calculateYearsOfService, ret, push,
    bind, getWIBDate.
  cbn beta iota.
  change (parseLocal tz ((wall k' + WIB_OFFSET) / 1000 * 1000))
    with (todayAt tz wall k').
  change (parseLocal tz ((steady (wall k) 0%nat + WIB_OFFSET) / 1000 * 1000))
    with (todayAt tz wall k).
  rewrite H1.
  destruct (Num_ge _ 0 && Num_le _ 7); [|reflexivity].
  cbn beta iota.
  change (parseLocal tz ((wall (S k') + WIB_OFFSET) / 1000 * 1000))
    with (todayAt tz wall (S k')).
  change (parseLocal tz ((steady (wall k) 1%nat + WIB_OFFSET) / 1000 * 1000))
    with (todayAt tz wall k).
  rewrite H2. reflexivity.
Qed.

Lemma anniversaryRun_same_year (tz : Z) (wall : nat -> Z) (employees : list Employee)
      (k : nat) :
  (forall k', (k <= k' <= k + 4 * List.length employees)%nat ->
              getFullYear tz (todayAt tz wall k') = getFullYear tz (todayAt tz wall k)) ->
  fst (anniversaryRun tz wall (todayAt tz wall k) employees
                      (snd (birthdayRun tz wall employees (S k))))
  = flat_map (fun e => fst (anniversaryBody tz (steady (wall k)) (todayAt tz wall k)
                                            [] e 0%nat))
             (filter (fun e => is_active e && truthy (join_date e)) employees).
Proof.
  intros Hy. unfold anniversaryRun.
  pose proof (forEachM_clock (birthdayBody tz wall)
                (fun acc x k0 => ltac:(rewrite birthdayBody_clock; lia))
                (filter (fun e => is_active e && truthy (birth_date e)) employees)
                [] (S k)) as HB.
  fold (birthdayRun tz wall employees (S k)) in HB.
  pose proof (filter_length_le (fun e => is_active e && truthy (birth_date e))
                employees) as LB.
  pose proof (filter_length_le (fun e => is_active e && truthy (join_date e))
                employees) as LA.
  apply (forEachM_window _ _ k (4 * List.length employees)
           (anniversaryBody_push tz wall _) (anniversaryBody_clock tz wall _)).
  - intros x k' Hk Hn. apply anniversaryBody_same_year; apply Hy; lia.
  - lia.
  - lia.
Qed.

Lemma anniversary_count_same_year (tz : Z) (wall : nat -> Z)
      (employees : list Employee) (leaveData : list LeaveRequest) (k : nat)
      (e : Employee) :
  (forall k', (k <= k' <= k + 4 * List.length employees)%nat ->
              getFullYear tz (todayAt tz wall k') = getFullYear tz (todayAt tz wall k)) ->
  is_active e = true -> truthy (join_date e) = true ->
  let today := todayAt tz wall k in
  let d := daysDifference today (anniversaryOf tz today e) in
  countIf (isAbout anniversary e)
          (fst (generateCriticalAlerts tz wall employees leaveData k))
  = occurrences employees e * Z.of_nat (if Num_ge d 0 && Num_le d 7 then 1 else 0).
Proof.
  intros Hy Hact Hjoin today d.
  rewrite (count_out_typed tz wall employees leaveData k _ anniversary)
    by (intros a Ha; now apply isAbout_true_iff in Ha).
  rewrite (anniversaryRun_same_year tz wall employees k Hy), flat_map_filter.
  rewrite (countIf_about_flat_map anniversary).
  - rewrite Hact, Hjoin. cbn [andb].
    now rewrite anniversaryBody_steady_length.
  - intros x a Ha. destruct (is_active x && truthy (join_date x)); [|destruct Ha].
    apply anniversaryBody_steady_In in Ha. tauto.
Qed.

(** X26.  The anniversary rule for a moving clock.  As long as the reads
    of the clock that the run makes (at most four per employee after the
    first) show the same calendar year as the captured [today], an active
    employee of the list with a join date has one 'anniversary' alert per
    occurrence, always 'low', when the days from [today] until the
    anniversary of that year are within 0..7, and none otherwise; the
    alert's [years] is the difference of the two calendar years. *)
Theorem anniversary_rule_within_a_year
    (tz : Z) (wall : nat -> Z) (employees : list Employee)
    (leaveData : list LeaveRequest) (k : nat) (e : Employee) :
  (forall k', (k <= k' <= k + 4 * List.length employees)%nat ->
              getFullYear tz (todayAt tz wall k') = getFullYear tz (todayAt tz wall k)) ->
  In e employees -> is_active e = true -> truthy (join_date e) = true ->
  let today := todayAt tz wall k in
  let out := fst (generateCriticalAlerts tz wall employees leaveData k) in
  let join := toDate (join_date e) in
  let anniversaryThisYear :=
    newDate tz (getFullYear tz today) (getMonth tz join) (getDate tz join) in
  let d := daysDifference today anniversaryThisYear in
  1 <= occurrences employees e
  /\ (inRange d 0 7 -> countIf (isAbout anniversary e) out = occurrences employees e)
  /\ (~ inRange d 0 7 -> countIf (isAbout anniversary e) out = 0)
  /\ (forall a, In a out -> type a = anniversary -> employee a = Some e ->
        priority a = low
        /\ years a = Some (Num_sub (getFullYear tz today) (getFullYear tz join))
        /\ inRange d 0 7).
Proof.
  intros Hy Hin Hact Hjoin today out join anniversaryThisYear d.
  change anniversaryThisYear with (anniversaryOf tz today e) in *.
  change (Num_sub (getFullYear tz today) (getFullYear tz join))
    with (yearsOf tz today e).
  pose proof (anniversary_count_same_year tz wall employees leaveData k e
                Hy Hact Hjoin) as Hcount.
  cbv zeta in Hcount. fold today out d in Hcount.
  split; [|split; [|split]].
  - unfold occurrences.
    pose proof (proj1 (count_occ_In Employee_eq_dec employees e) Hin). lia.
  - intros Hd. apply inRange_iff in Hd. rewrite Hcount, Hd. lia.
  - intros Hd. rewrite Hcount. destruct (Num_ge d 0 && Num_le d 7) eqn:E; [|lia].
    apply inRange_iff in E. contradiction.
  - intros a Ha Hty Hemp. apply in_out_typed in Ha. rewrite Hty in Ha.
    rewrite (anniversaryRun_same_year tz wall employees k Hy) in Ha.
    apply in_flat_map in Ha as (x & _ & Hx).
    apply anniversaryBody_steady_In in Hx as (_ & Hx & Hprio & Hyears & Hrange).
    assert (x = e) by congruence. subst x. tauto.
Qed.

Lemma anniversary_rule_within_a_year_witness :
  tickingClock 1 <> tickingClock 0
  /\ countIf (isAbout anniversary fiveYears)
       (fst (generateCriticalAlerts WIB_OFFSET tickingClock [fiveYears] [] 0%nat))
     = occurrences [fiveYears] fiveYears.
Proof.
  split; [vm_compute; discriminate|].
  assert (Hin : In fiveYears [fiveYears]) by (simpl; auto).
  assert (Hy : forall k', (0 <= k' <= 0 + 4 * List.length [fiveYears])%nat ->
                 getFullYear WIB_OFFSET (todayAt WIB_OFFSET tickingClock k')
                 = getFullYear WIB_OFFSET (todayAt WIB_OFFSET tickingClock 0)).
  { intros k' Hk. cbn [List.length] in Hk.
    assert (Hc : (k' = 0 \/ k' = 1 \/ k' = 2 \/ k' = 3 \/ k' = 4)%nat) by lia.
    destruct Hc as [->|[->|[->|[->| ->]]]]; vm_compute; reflexivity. }
  apply (anniversary_rule_within_a_year WIB_OFFSET tickingClock [fiveYears] []
           0%nat fiveYears Hy Hin eq_refl eq_refl).
  exists 7. split; [vm_compute; reflexivity | lia].
Defined.
